(** * portfolio-sdk: the chat request pipeline, embedded and verified

    A shallow embedding of the server handlers of the SDK
    ([createManualRAGHandler], [createPortfolioHandler],
    [createBackendHandler], [uploadToSupermemory]) and of the streaming
    loop of the [AutoChat] widget, followed by the properties of the
    specification stated over that embedding.

    Conventions.
    - A JavaScript string is the list of its UTF-16 code units.
    - [async] functions run in a small monad that threads the process
      state (session store, log of calls to external services, clock) and
      carries an abrupt completion ([throw] / rejected promise).
    - The external collaborators (document search, LLM providers, [fetch])
      are oracles gathered in a [World] record. *)

From Stdlib Require Import NArith QArith Ascii String DecimalString.
From stdpp Require Import base option list gmap.

Local Open Scope N_scope.
Local Open Scope list_scope.

(* ===================================================================== *)
(** * JavaScript strings *)
(* ===================================================================== *)

Module JS.

(** A string is a sequence of UTF-16 code units. *)
Abbreviation jsstring := (list N).

(** ASCII literals of the source text. *)
Definition lit (s : string) : jsstring :=
  List.map N_of_ascii (list_ascii_of_string s).

(** The line feed of the template literals. *)
Definition nl : jsstring := [10].

(** ECMAScript [WhiteSpace] and [LineTerminator] code points, the set
    stripped by [String.prototype.trim]. All of them lie in the BMP, so
    the test is exact on code units. *)
Definition isWhiteSpace (c : N) : bool :=
  match c with
  | 9 | 10 | 11 | 12 | 13 | 32 | 160 | 5760
  | 8232 | 8233 | 8239 | 8287 | 12288 | 65279 => true
  | _ => (8192 <=? c) && (c <=? 8202)
  end.

Fixpoint trimStart (s : jsstring) : jsstring :=
  match s with
  | [] => []
  | c :: s' => if isWhiteSpace c then trimStart s' else s
  end.

Definition trimEnd (s : jsstring) : jsstring := rev (trimStart (rev s)).

(** [s.trim()] *)
Definition trim (s : jsstring) : jsstring := trimEnd (trimStart s).

(** Truthiness of a string value: [Boolean(s)], [!s] is its negation. *)
Definition truthy (s : jsstring) : bool :=
  match s with [] => false | _ :: _ => true end.

(** Truthiness of a possibly [undefined] string. *)
Definition truthy_opt (o : option jsstring) : bool :=
  match o with Some s => truthy s | None => false end.

(** [a || b] on possibly [undefined] strings. *)
Definition or_else (a b : option jsstring) : option jsstring :=
  if truthy_opt a then a else b.

(** [a || 'default'] *)
Definition or_default (a : option jsstring) (d : jsstring) : jsstring :=
  match a with
  | Some s => if truthy s then s else d
  | None => d
  end.

(** [a ?? b] *)
Definition nullish {A} (a b : option A) : option A :=
  match a with Some _ => a | None => b end.

(** [parts.join(sep)] on an array of strings. *)
Fixpoint join (sep : jsstring) (parts : list jsstring) : jsstring :=
  match parts with
  | [] => []
  | [p] => p
  | p :: rest => p ++ sep ++ join sep rest
  end.

Fixpoint startsWith (needle s : jsstring) : bool :=
  match needle, s with
  | [], _ => true
  | _ :: _, [] => false
  | a :: needle', b :: s' => (a =? b) && startsWith needle' s'
  end.

(** [s.includes(needle)] *)
Fixpoint includes (needle s : jsstring) : bool :=
  startsWith needle s ||
  match s with
  | [] => false
  | _ :: s' => includes needle s'
  end.

(** [String(n)] for a non-negative integer. *)
Definition ofNumber (n : N) : jsstring :=
  lit (DecimalString.NilEmpty.string_of_uint (N.to_uint n)).

(** [arr.slice(-n)]: the last [n] elements. *)
Definition sliceLast {A} (n : nat) (l : list A) : list A :=
  drop (length l - n)%nat l.

(** [arr.slice(0, n)] *)
Definition sliceFirst {A} (n : nat) (l : list A) : list A := take n l.

End JS.
Import JS.

(* ===================================================================== *)
(** * Abrupt completions and the [async] monad *)
(* ===================================================================== *)

(** A thrown value: an [Error] with its [message], and the [status] that
    the SDK errors of the providers carry. *)
Record JsError := mkError { message : jsstring; status : option N }.

Definition Error (msg : jsstring) : JsError :=
  {| message := msg; status := None |}.

(** The errors the runtime itself throws carry no [status]. Their texts
    are those of Node (V8, and undici for [Response]). *)
Definition TypeError (msg : jsstring) : JsError := Error msg.

Definition RangeError (msg : jsstring) : JsError := Error msg.

Inductive Completion (A : Type) : Type :=
| Normal (a : A)
| Throw (e : JsError).
Arguments Normal {A} a.
Arguments Throw {A} e.

(* ===================================================================== *)
(** * utils/types.ts *)
(* ===================================================================== *)

Inductive ChatRole := user | assistant.

Record ChatMessage := mkChatMessage {
  role : ChatRole;
  content : jsstring;
  timestamp : option N
}.

Module SupermemoryConfig.
Record t := mk {
  apiKey : jsstring;
  container : jsstring;
  baseUrl : option jsstring
}.
End SupermemoryConfig.

Inductive LLMProvider := anthropic | openai | custom.

Module LLMConfig.
Record t := mk {
  provider : LLMProvider;
  apiKey : jsstring;
  model : option jsstring;
  systemPrompt : option jsstring;
  temperature : option Q;
  maxTokens : option N;
  baseURL : option jsstring
}.
End LLMConfig.

(** Legacy config of the Manual RAG handler. *)
Record PortfolioConfig := mkPortfolioConfig {
  memory : SupermemoryConfig.t;
  llm : LLMConfig.t
}.

(** Config of the Memory Router and backend handlers. [llmProvider] is
    the string found at run time: both handlers test it against the
    supported names. A required string that is absent is the empty
    string here: the handlers only ever test such a field with [!]. *)
Record MemoryRouterConfig := mkMemoryRouterConfig {
  llmProvider : jsstring;
  llmApiKey : jsstring;
  llmModel : option jsstring;
  supermemoryApiKey : jsstring;
  supermemoryContainer : jsstring;
  systemPrompt : option jsstring;
  temperature : option Q;
  maxTokens : option N;
  streaming : option bool;
  openRouterReferer : option jsstring;
  openRouterTitle : option jsstring
}.

(** The [history] of a request body. Its declared type is an array, but
    the body is parsed JSON and nothing checks it: what arrives can also
    be [null], or a string, a number, a boolean or an object, none of
    which has the array methods. For such a value [positive] is what
    [history.length > 0] evaluates to. *)
Inductive History (H : Type) : Type :=
| HArray (entries : list H)
| HNull
| HOther (positive : bool).
Arguments HArray {H} entries.
Arguments HNull {H}.
Arguments HOther {H} positive.

(** [h.length]: reading a property of [null] throws. *)
Definition read_length {H} (h : History H) : Completion unit :=
  match h with
  | HNull =>
      Throw (TypeError
               (lit "Cannot read properties of null (reading 'length')"))
  | _ => Normal tt
  end.

(** [h.length > 0] *)
Definition length_positive {H} (h : History H) : Completion bool :=
  match h with
  | HArray entries => Normal (0 <? length entries)%nat
  | HNull =>
      Throw (TypeError
               (lit "Cannot read properties of null (reading 'length')"))
  | HOther positive => Normal positive
  end.

(** [h.method(...)] for an array method, [filter] or [map]: defined on
    the entries of an array, a [TypeError] on any other value. [name] is
    the expression [h] as the source writes it. *)
Definition array_method {H} (name method : string) (h : History H)
  : Completion (list H) :=
  match h with
  | HArray entries => Normal entries
  | HNull =>
      Throw (TypeError
               (lit "Cannot read properties of null (reading '"
                ++ lit method ++ lit "')"))
  | HOther _ =>
      Throw (TypeError
               (lit name ++ lit "." ++ lit method
                ++ lit " is not a function"))
  end.

(** The parsed body of a chat request; [H] is the shape of a history
    entry as the handler reads it. [req_message] and [req_sessionId] are
    the strings of the body, [None] when the field is missing or [null].
    [req_history] is [None] when the body has no [history], which is when
    the default [[]] of the destructuring applies. *)
Record ChatRequest (H : Type) := mkChatRequest {
  req_message : option jsstring;
  req_sessionId : option jsstring;
  req_history : option (History H)
}.
Arguments mkChatRequest {H}.
Arguments req_message {H}.
Arguments req_sessionId {H}.
Arguments req_history {H}.

(** A [Request]: all the handlers do with it is [await req.json()],
    followed by the destructuring of the body. A body that does not parse,
    or that is [null] so that the destructuring throws, is a [Throw]. *)
Record Request (H : Type) := mkRequest { json : Completion (ChatRequest H) }.
Arguments mkRequest {H}.
Arguments json {H}.

Record UploadOptions := mkUploadOptions {
  file : option jsstring;       (* a File or Buffer, by its bytes *)
  text : option jsstring;
  title : jsstring;
  type : option jsstring;
  up_container : option jsstring
}.

(* ===================================================================== *)
(** * The external collaborators *)
(* ===================================================================== *)

(** ** Document search of the memory service *)

Record SearchArgs := mkSearchArgs {
  q : jsstring;
  containerTags : list jsstring;
  limit : N;
  includeFullDocs : bool;
  includeSummary : bool;
  rerank : bool
}.

Record SearchClient := mkSearchClient {
  sc_apiKey : jsstring;
  sc_baseURL : jsstring
}.

Record Metadata := mkMetadata {
  md_summary : option jsstring;
  md_description : option jsstring
}.

(** A retrieved document. [doc_content] is [Some] when
    [typeof doc.content === 'string']; [doc_chunks] is [Some] when
    [doc.chunks] is an array, whose entries may be nullish ([None]) and
    have a string [content] or not. *)
Record Doc := mkDoc {
  doc_content : option jsstring;
  doc_summary : option jsstring;
  doc_metadata : option Metadata;
  doc_chunks : option (list (option (option jsstring)))
}.

(** What the search resolves to: [Some docs] when [results] is an array,
    [None] for any other shape. *)
Definition SearchResponse := option (list Doc).

(** ** Anthropic messages API (Manual RAG) *)

Record AnthropicMessage := mkAnthropicMessage {
  am_role : ChatRole;
  am_content : jsstring
}.

Record AnthropicArgs := mkAnthropicArgs {
  a_apiKey : jsstring;
  a_model : jsstring;
  a_max_tokens : N;
  a_temperature : Q;
  a_system : jsstring;
  a_messages : list AnthropicMessage
}.

Inductive ContentBlock := TextBlock (text : jsstring) | OtherBlock.

(** ** The [ai] SDK: provider models and [streamText] *)

Inductive Role := RUser | RAssistant | RSystem.

Record Message := mkMessage { m_role : Role; m_content : jsstring }.

Inductive Sdk := SdkAnthropic | SdkOpenAI | SdkGoogle.

Record ProviderModel := mkProviderModel {
  pm_sdk : Sdk;
  pm_apiKey : jsstring;
  pm_baseURL : option jsstring;
  pm_headers : list (jsstring * jsstring);
  pm_model : jsstring
}.

Record StreamTextArgs := mkStreamTextArgs {
  st_model : ProviderModel;
  st_system : jsstring;
  st_messages : list Message;
  st_temperature : Q
}.

(** The result of [streamText]: the chunks of [toTextStreamResponse()]
    and the promise [result.text]. *)
Record StreamTextResult := mkStreamTextResult {
  textStream : list jsstring;
  fullText : Completion jsstring
}.

(** ** [fetch] and the upload endpoint *)

Record FetchArgs := mkFetchArgs {
  f_url : jsstring;
  f_authorization : jsstring;
  f_data : jsstring;
  f_title : jsstring;
  f_type : jsstring;
  f_tags : list jsstring
}.

Record UploadData := mkUploadData {
  memoryId : option jsstring;
  data_id : option jsstring
}.

Record FetchResponse := mkFetchResponse {
  ok : bool;
  res_status : N;
  res_json : Completion (option UploadData)
}.

Record UploadFileArgs := mkUploadFileArgs {
  uf_apiKey : jsstring;
  uf_file : jsstring;
  uf_containerTags : jsstring
}.

Record UploadFileResponse := mkUploadFileResponse {
  ufr_id : option jsstring;
  ufr_document_id : option jsstring
}.

(** ** Calls and oracles *)

Inductive Event :=
| SearchDocuments (c : SearchClient) (a : SearchArgs)
| AnthropicCreate (a : AnthropicArgs)
| StreamText (a : StreamTextArgs)
| UploadFile (a : UploadFileArgs)
| Fetch (a : FetchArgs).

Record World := mkWorld {
  search_documents : SearchClient → SearchArgs → Completion SearchResponse;
  anthropic_create : AnthropicArgs → Completion (list ContentBlock);
  stream_text : StreamTextArgs → Completion StreamTextResult;
  upload_file : UploadFileArgs → Completion (option UploadFileResponse);
  fetch : FetchArgs → Completion FetchResponse;
  clock : nat → N
}.

(** ** Process state *)

Record State := mkState {
  sessionStore : gmap jsstring (list ChatMessage);
  calls : list Event;
  ticks : nat
}.

Definition Async (A : Type) : Type := State → Completion A * State.

Definition ret {A} (a : A) : Async A := fun s => (Normal a, s).

Definition throw {A} (e : JsError) : Async A := fun s => (Throw e, s).

Definition bind {A B} (m : Async A) (k : A → Async B) : Async B :=
  fun s =>
    match m s with
    | (Normal a, s') => k a s'
    | (Throw e, s') => (Throw e, s')
    end.

(** [try { m } catch (error) { h error }] *)
Definition try_catch {A} (m : Async A) (h : JsError → Async A) : Async A :=
  fun s =>
    match m s with
    | (Normal a, s') => (Normal a, s')
    | (Throw e, s') => h e s'
    end.

(** [await p] for a promise already settled. *)
Definition await {A} (c : Completion A) : Async A := fun s => (c, s).

Notation "'let*' x ':=' m 'in' k" := (bind m (fun x => k))
  (at level 10, x name, m at level 100, k at level 200).
Notation "'let*' ' p ':=' m 'in' k" :=
  (bind m (fun x => match x with p => k end))
  (at level 10, p pattern, m at level 100, k at level 200).
Notation "m ';;' k" := (bind m (fun _ => k))
  (at level 100, k at level 200, right associativity).

(** A call to a collaborator is logged, then answered by its oracle. *)
Definition call {A} (ev : Event) (answer : Completion A) : Async A :=
  fun s =>
    (answer,
     {| sessionStore := sessionStore s;
        calls := calls s ++ [ev];
        ticks := ticks s |}).

(** [Date.now()] *)
Definition Date_now (W : World) : Async N :=
  fun s =>
    (Normal (clock W (ticks s)),
     {| sessionStore := sessionStore s;
        calls := calls s;
        ticks := S (ticks s) |}).

(** [sessionStore.get(id)] and [sessionStore.set(id, h)] *)
Definition store_get (id : jsstring) : Async (option (list ChatMessage)) :=
  fun s => (Normal (sessionStore s !! id), s).

Definition store_set (id : jsstring) (h : list ChatMessage) : Async unit :=
  fun s =>
    (Normal tt,
     {| sessionStore := <[id := h]> (sessionStore s);
        calls := calls s;
        ticks := ticks s |}).

(** ** Responses *)

Inductive ResponseBody :=
| ErrorJson (error : jsstring)
| ChatJson (answer : jsstring) (sources : option (list Doc))
           (sessionId : jsstring) (error : option jsstring)
| TextStreamBody (chunks : list jsstring)
| StatusJson (fields : list (jsstring * jsstring)).

Record Response := mkResponse {
  resp_status : N;
  resp_body : ResponseBody
}.

(** [Response.json(body)]: status 200. *)
Definition Response_json (body : ResponseBody) : Response :=
  {| resp_status := 200; resp_body := body |}.

(** The conversion of [init.status] to the [unsigned short] of
    [ResponseInit]: modulo 2^16. *)
Definition unsigned_short (st : N) : N := st mod 65536.

(** The statuses of a response that cannot have a body (101 and 103 are
    out of range before this test is reached). *)
Definition null_body_status (st : N) : bool :=
  (st =? 204) || (st =? 205) || (st =? 304).

(** [Response.json(body, { status })]. The constructor throws a
    [RangeError] for a status outside 200..599, and a [TypeError] for a
    null-body status, since the response has a body. *)
Definition Response_json_status (body : ResponseBody) (st : N)
  : Completion Response :=
  let st := unsigned_short st in
  if (st <? 200) || (599 <? st) then
    Throw (RangeError
             (lit "init[" ++ [34] ++ lit "status" ++ [34]
              ++ lit "] must be in the range of 200 to 599, inclusive."))
  else if null_body_status st then
    Throw (TypeError
             (lit "Response constructor: Invalid response status code "
              ++ ofNumber st))
  else
    Normal {| resp_status := st; resp_body := body |}.

Record Handler (H : Type) := mkHandler {
  POST : Request H → Async Response;
  GET : Async Response
}.
Arguments mkHandler {H}.
Arguments POST {H}.
Arguments GET {H}.

(* ===================================================================== *)
(** * server/uploadToSupermemory.ts *)
(* ===================================================================== *)

Module Upload.

Record UploadResult := mkUploadResult {
  success : bool;
  documentId : option jsstring;
  error : option jsstring
}.

Section WithWorld.
Variable W : World.

(** The body of the [try] block. *)
Definition upload_try (apiKey : jsstring) (options : UploadOptions)
  : Async UploadResult :=
  let container := or_default (up_container options) (lit "portfolio") in
  match file options with
  | Some f =>
      let args := {| uf_apiKey := apiKey; uf_file := f;
                     uf_containerTags := container |} in
      let* response := call (UploadFile args) (upload_file W args) in
      ret {| success := true;
             documentId := or_else (response ≫= ufr_id)
                                   (response ≫= ufr_document_id);
             error := None |}
  | None =>
      if truthy_opt (text options) then
        let apiUrl := lit "https://api.supermemory.ai/v1/add" in
        let args := {| f_url := apiUrl;
                       f_authorization := lit "Bearer " ++ apiKey;
                       f_data := default [] (text options);
                       f_title := title options;
                       f_type := or_default (type options) (lit "document");
                       f_tags := [container] |} in
        let* res := call (Fetch args) (fetch W args) in
        if negb (ok res) then
          throw (Error (lit "API error: " ++ ofNumber (res_status res)))
        else
          let* data := await (res_json res) in
          ret {| success := true;
                 documentId := or_else (data ≫= memoryId) (data ≫= data_id);
                 error := None |}
      else
        ret {| success := false;
               documentId := None;
               error := Some (lit "Either file or text must be provided") |}
  end.

(** The [catch] block. *)
Definition upload_catch (e : JsError) : Async UploadResult :=
  ret {| success := false;
         documentId := None;
         error := Some (or_default (Some (message e)) (lit "Upload failed")) |}.

Definition uploadToSupermemory (apiKey : jsstring) (options : UploadOptions)
  : Async UploadResult :=
  try_catch (upload_try apiKey options) upload_catch.

End WithWorld.
End Upload.

(* ===================================================================== *)
(** * Retrieval and prompt framing

    The Manual RAG handler and the backend handler carry the same text
    for the search arguments, the extraction of the context and the
    framing of the user turn; it is embedded once. *)
(* ===================================================================== *)

Module Retrieval.

Definition searchArgs (message container : jsstring) : SearchArgs :=
  {| q := message;
     containerTags := [container];
     limit := 5;
     includeFullDocs := true;
     includeSummary := true;
     rerank := true |}.

(** The callback of [documents.flatMap]. *)
Definition segments (doc : Doc) : list jsstring :=
  let s1 := match doc_content doc with Some c => [c] | None => [] end in
  let s2 := if truthy_opt (doc_summary doc)
            then s1 ++ [default [] (doc_summary doc)] else s1 in
  let md_s := doc_metadata doc ≫= md_summary in
  let md_d := doc_metadata doc ≫= md_description in
  let s3 := if truthy_opt md_s || truthy_opt md_d
            then s2 ++ [default [] (nullish md_s md_d)] else s2 in
  let s4 := match doc_chunks doc with
            | Some chunks =>
                s3 ++ omap (fun chunk => chunk ≫= id) chunks
            | None => s3
            end in
  List.filter truthy s4.

Definition separator : jsstring := nl ++ nl ++ lit "---" ++ nl ++ nl.

Definition extractContext (documents : list Doc) : jsstring :=
  join separator (List.filter truthy (flat_map segments documents)).

Definition fallbackPrompt : jsstring :=
  lit "No specific context found. Answer based on general knowledge if appropriate.".

Definition contextPrompt (context : jsstring) : jsstring :=
  if truthy context
  then lit "Here is relevant information from the portfolio:" ++ nl ++ nl
       ++ context ++ nl ++ nl ++ lit "Now answer the user's question."
  else fallbackPrompt.

(** [`${contextPrompt}\n\nQuestion: ${message}`] *)
Definition userTurn (context message : jsstring) : jsstring :=
  contextPrompt context ++ nl ++ nl ++ lit "Question: " ++ message.

Definition defaultSystemPrompt : jsstring :=
  lit "You are a helpful AI assistant for a portfolio website." ++ nl ++
  lit "Use the provided context from the person's resume and documents to answer questions accurately." ++ nl ++
  lit "Be concise, professional, and friendly. If you don't have enough information, say so honestly.".

(** [config.maxTokens || 1024] *)
Definition maxTokens_or (o : option N) (d : N) : N :=
  match o with
  | Some n => if n =? 0 then d else n
  | None => d
  end.

End Retrieval.

(* ===================================================================== *)
(** * server/manual-rag/createManualRAGHandler.ts *)
(* ===================================================================== *)

Module ManualRAG.
Import Retrieval.

Section WithWorld.
Variable W : World.
Variable config : PortfolioConfig.

Definition supermemory : SearchClient :=
  {| sc_apiKey := SupermemoryConfig.apiKey (memory config);
     sc_baseURL := or_default (SupermemoryConfig.baseUrl (memory config))
                              (lit "https://api.supermemory.ai") |}.

Definition model : jsstring :=
  or_default (LLMConfig.model (llm config)) (lit "claude-sonnet-4-20250514").

Definition temperature : Q :=
  default (7 # 10)%Q (LLMConfig.temperature (llm config)).

Definition maxTokens : N :=
  maxTokens_or (LLMConfig.maxTokens (llm config)) 1024.

Definition systemPrompt : jsstring :=
  or_default (LLMConfig.systemPrompt (llm config)) defaultSystemPrompt.

(** The message list sent to Claude. *)
Definition buildMessages (sessionHistory : list ChatMessage)
    (context message : jsstring) : list AnthropicMessage :=
  List.map (fun msg => {| am_role := role msg; am_content := content msg |})
           sessionHistory
  ++ [{| am_role := user; am_content := userTurn context message |}].

(** The argument of [anthropic.messages.create]. *)
Definition createArgs (messages : list AnthropicMessage) : AnthropicArgs :=
  {| a_apiKey := LLMConfig.apiKey (llm config);
     a_model := model;
     a_max_tokens := maxTokens;
     a_temperature := temperature;
     a_system := systemPrompt;
     a_messages := messages |}.

(** [response.content[0]?.type === 'text' ? ... : 'No response generated'] *)
Definition answerOf (response : list ContentBlock) : jsstring :=
  match response with
  | TextBlock t :: _ => t
  | _ => lit "No response generated"
  end.

(** "Keep only last 20 messages" *)
Definition truncate (sessionHistory : list ChatMessage) : list ChatMessage :=
  if (20 <? length sessionHistory)%nat
  then sliceLast 20 sessionHistory
  else sessionHistory.

(** The [try] block of [POST]. The two [push] calls act on the array
    read from the store when the request carries no history; nothing can
    throw between them and [sessionStore.set], so the store changes in
    one step, at [store_set]. *)
Definition POST_try (req : Request ChatMessage) : Async Response :=
  let* body := await (json req) in
  let history := default (HArray []) (req_history body) in
  if negb (truthy_opt (req_message body))
     || negb (truthy_opt (req_sessionId body))
  then
    await (Response_json_status
             (ErrorJson (lit "Missing message or sessionId")) 400)
  else
    let message := default [] (req_message body) in
    let sessionId := default [] (req_sessionId body) in
    let* stored := store_get sessionId in
    let sessionHistory := HArray (default [] stored) in
    let* positive := await (length_positive history) in
    let sessionHistory := if positive then history else sessionHistory in
    let args := searchArgs message (SupermemoryConfig.container (memory config)) in
    let* docResults :=
      call (SearchDocuments supermemory args)
           (search_documents W supermemory args) in
    let documents := default [] docResults in
    let context := extractContext documents in
    let* sessionHistory :=
      await (array_method "sessionHistory" "map" sessionHistory) in
    let messages := buildMessages sessionHistory context message in
    let create := createArgs messages in
    let* response := call (AnthropicCreate create) (anthropic_create W create) in
    let answer := answerOf response in
    let* t1 := Date_now W in
    let sessionHistory :=
      sessionHistory ++ [{| role := user; content := message;
                            timestamp := Some t1 |}] in
    let* t2 := Date_now W in
    let sessionHistory :=
      sessionHistory ++ [{| role := assistant; content := answer;
                            timestamp := Some t2 |}] in
    let sessionHistory := truncate sessionHistory in
    store_set sessionId sessionHistory ;;
    ret (Response_json
           (ChatJson answer (Some (sliceFirst 3 documents)) sessionId None)).

Definition POST_catch (error : JsError) : Async Response :=
  await (Response_json_status
           (ErrorJson (or_default (Some (message error))
                                  (lit "Internal server error"))) 500).

Definition POST (req : Request ChatMessage) : Async Response :=
  try_catch (POST_try req) POST_catch.

Definition GET : Async Response :=
  ret (Response_json
         (StatusJson [(lit "status", lit "ok");
                      (lit "message",
                       lit "Portfolio chat API (Manual RAG) is running")])).

Definition createManualRAGHandler : Handler ChatMessage :=
  mkHandler POST GET.

End WithWorld.
End ManualRAG.

(* ===================================================================== *)
(** * Provider names shared by the two multi-provider handlers *)
(* ===================================================================== *)

Module Providers.

(** [s === 'literal'] *)
Definition streq (s : jsstring) (literal : string) : bool :=
  bool_decide (s = lit literal).

(** [getDefaultModel]: the same text in both handler files. *)
Definition getDefaultModel (provider : jsstring) : jsstring :=
  if streq provider "anthropic" then lit "claude-sonnet-4-20250514"
  else if streq provider "openai" then lit "gpt-4o"
  else if streq provider "groq" then lit "llama-3.3-70b-versatile"
  else if streq provider "openrouter" then lit "anthropic/claude-3.5-sonnet"
  else if streq provider "google" then lit "gemini-1.5-flash"
  else lit "claude-sonnet-4-20250514".

(** The names of [MemoryRouterConfig['llmProvider']]. *)
Definition supported : list jsstring :=
  [lit "anthropic"; lit "openai"; lit "groq"; lit "openrouter"; lit "google"].

Definition roleOf (r : ChatRole) : Role :=
  match r with user => RUser | assistant => RAssistant end.

Definition toMessage (msg : ChatMessage) : Message :=
  {| m_role := roleOf (role msg); m_content := content msg |}.

(** [error.status || 500] *)
Definition status_or_500 (st : option N) : N :=
  match st with
  | Some n => if n =? 0 then 500 else n
  | None => 500
  end.

(** [error.status === n] *)
Definition status_is (st : option N) (n : N) : bool :=
  match st with Some m => m =? n | None => false end.

(** [result.toTextStreamResponse()] *)
Definition toTextStreamResponse (result : StreamTextResult) : Response :=
  {| resp_status := 200; resp_body := TextStreamBody (textStream result) |}.

End Providers.

(* ===================================================================== *)
(** * server/createPortfolioHandler.ts (Memory Router) *)
(* ===================================================================== *)

Module MemoryRouter.
Import Retrieval Providers.

Definition MEMORY_ROUTER_URLS : list (jsstring * jsstring) :=
  [(lit "anthropic", lit "https://api.supermemory.ai/v3/https://api.anthropic.com/v1");
   (lit "openai", lit "https://api.supermemory.ai/v3/https://api.openai.com/v1");
   (lit "groq", lit "https://api.supermemory.ai/v3/https://api.groq.com/openai/v1");
   (lit "openrouter", lit "https://api.supermemory.ai/v3/https://openrouter.ai/api/v1");
   (lit "google", lit "https://api.supermemory.ai/v3/https://generativelanguage.googleapis.com/v1beta")].

(** [MEMORY_ROUTER_URLS] is an object literal: reading a key it does not
    own falls through to [Object.prototype], whose members are functions
    (or, for [__proto__], the prototype object), all truthy. *)
Definition Object_prototype_names : list jsstring :=
  [lit "constructor"; lit "toString"; lit "toLocaleString"; lit "valueOf";
   lit "hasOwnProperty"; lit "isPrototypeOf"; lit "propertyIsEnumerable";
   lit "__proto__"; lit "__defineGetter__"; lit "__defineSetter__";
   lit "__lookupGetter__"; lit "__lookupSetter__"].

Inductive Property :=
| Own (value : jsstring)
| Inherited.

Fixpoint own (o : list (jsstring * jsstring)) (key : jsstring)
  : option jsstring :=
  match o with
  | [] => None
  | (k, v) :: o' => if bool_decide (k = key) then Some v else own o' key
  end.

(** [o[key]] *)
Definition get (o : list (jsstring * jsstring)) (key : jsstring)
  : option Property :=
  match own o key with
  | Some v => Some (Own v)
  | None =>
      if bool_decide (key ∈ Object_prototype_names)
      then Some Inherited else None
  end.

(** Truthiness of a property read. *)
Definition truthy_property (p : option Property) : bool :=
  match p with
  | Some (Own v) => truthy v
  | Some Inherited => true
  | None => false
  end.

(** The property where a URL string is expected. *)
Definition as_url (p : option Property) : option jsstring :=
  match p with Some (Own v) => Some v | _ => None end.

Definition emptyResponseAnswer : jsstring :=
  lit "I apologize, but I'm having trouble generating a response. This might be because:"
  ++ nl ++ nl ++
  lit "1. The memory container is empty (no documents uploaded)" ++ nl ++
  lit "2. There's an issue with the Memory Router connection" ++ nl ++
  lit "3. The API configuration needs to be checked"
  ++ nl ++ nl ++
  lit "Please check the server logs for more details.".

(** "Build conversation messages (filter out empty messages)": the
    [filter] and [map] applied to [history]. The objects built by [map]
    have a [role] and a [content] and no [timestamp]. *)
Definition filterHistory (history : list ChatMessage) : list ChatMessage :=
  List.map
    (fun msg => {| role := role msg; content := trim (content msg);
                   timestamp := None |})
    (List.filter
       (fun msg => truthy (content msg)
                   && (0 <? length (trim (content msg)))%nat)
       history).

Definition buildMessages (history : list ChatMessage) (message : jsstring)
  : list Message :=
  List.map toMessage (filterHistory history)
  ++ [{| m_role := RUser; m_content := trim message |}].

Section WithWorld.
Variable W : World.
Variable config : MemoryRouterConfig.

(** [const baseURL = MEMORY_ROUTER_URLS[config.llmProvider ...]] *)
Definition baseURL : option Property :=
  get MEMORY_ROUTER_URLS (llmProvider config).

Definition model : jsstring :=
  or_default (llmModel config) (getDefaultModel (llmProvider config)).

Definition temperature_ : Q := default (7 # 10)%Q (temperature config).

Definition maxTokens_ : N := maxTokens_or (maxTokens config) 1024.

Definition streaming_ : bool := default true (streaming config).

Definition headers : list (jsstring * jsstring) :=
  [(lit "x-supermemory-api-key", supermemoryApiKey config);
   (lit "x-sm-user-id", lit "config.supermemoryContainer")].

Definition getProviderModel : Completion ProviderModel :=
  let provider := llmProvider config in
  if streq provider "anthropic" then
    Normal {| pm_sdk := SdkAnthropic; pm_apiKey := llmApiKey config;
              pm_baseURL := as_url baseURL; pm_headers := headers;
              pm_model := model |}
  else if streq provider "openai" || streq provider "groq"
          || streq provider "openrouter" then
    Normal {| pm_sdk := SdkOpenAI; pm_apiKey := llmApiKey config;
              pm_baseURL := as_url baseURL; pm_headers := headers;
              pm_model := model |}
  else if streq provider "google" then
    Normal {| pm_sdk := SdkGoogle; pm_apiKey := llmApiKey config;
              pm_baseURL := as_url baseURL; pm_headers := headers;
              pm_model := model |}
  else
    Throw (Error (lit "Unsupported provider: " ++ provider)).

Definition systemPrompt_ : jsstring :=
  or_default (systemPrompt config) defaultSystemPrompt.

(** The [try] block of [POST]. The log line before the validation reads
    [history.length]. *)
Definition POST_try (req : Request ChatMessage) : Async Response :=
  let* body := await (json req) in
  let history := default (HArray []) (req_history body) in
  await (read_length history) ;;
  if negb (truthy_opt (req_message body))
     || negb (truthy_opt (req_sessionId body))
  then
    await (Response_json_status
             (ErrorJson (lit "Missing message or sessionId")) 400)
  else
    let message := default [] (req_message body) in
    let sessionId := default [] (req_sessionId body) in
    if (length (trim message) =? 0)%nat then
      await (Response_json_status
               (ErrorJson (lit "Message cannot be empty")) 400)
    else
      let* history := await (array_method "history" "filter" history) in
      let messages := buildMessages history message in
      let* providerModel := await getProviderModel in
      let args := {| st_model := providerModel;
                     st_system := systemPrompt_;
                     st_messages := messages;
                     st_temperature := temperature_ |} in
      if streaming_ then
        let* result := call (StreamText args) (stream_text W args) in
        ret (toTextStreamResponse result)
      else
        let* result := call (StreamText args) (stream_text W args) in
        let* fullText := await (fullText result) in
        if negb (truthy fullText) || (length (trim fullText) =? 0)%nat then
          ret (Response_json
                 (ChatJson emptyResponseAnswer None sessionId
                           (Some (lit "Empty response from LLM"))))
        else
          ret (Response_json (ChatJson fullText None sessionId None)).

Definition POST_catch (error : JsError) : Async Response :=
  let errorMessage :=
    or_default (Some (message error)) (lit "Internal server error") in
  let errorMessage :=
    if status_is (status error) 401 then
      lit "Invalid API key. Please check your LLM or Supermemory API key."
    else if status_is (status error) 404 then
      lit "Model not found. Please check your model name."
    else if includes (lit "container") (message error) then
      lit "Supermemory container not found. Please check your container name."
    else errorMessage in
  await (Response_json_status (ErrorJson errorMessage)
                              (status_or_500 (status error))).

Definition POST (req : Request ChatMessage) : Async Response :=
  try_catch (POST_try req) POST_catch.

Definition GET : Async Response :=
  ret (Response_json
         (StatusJson [(lit "status", lit "ok");
                      (lit "message", lit "Portfolio chat API with Memory Router");
                      (lit "provider", llmProvider config);
                      (lit "model", model);
                      (lit "container", supermemoryContainer config);
                      (lit "streaming",
                       if streaming_ then lit "true" else lit "false")])).

(** [createPortfolioHandler(config)]: the validation of the config, then
    the two route functions. *)
Definition createPortfolioHandler : Completion (Handler ChatMessage) :=
  if negb (truthy (llmApiKey config)) then
    Throw (Error (lit "LLM API key is required"))
  else if negb (truthy (supermemoryApiKey config)) then
    Throw (Error (lit "Supermemory API key is required"))
  else if negb (truthy (supermemoryContainer config)) then
    Throw (Error (lit "Supermemory container is required"))
  else if negb (truthy_property baseURL) then
    Throw (Error (lit "Unsupported LLM provider: " ++ llmProvider config
                  ++ lit ". Supported: anthropic, openai, groq, openrouter, google"))
  else
    Normal (mkHandler POST GET).

End WithWorld.
End MemoryRouter.

(* ===================================================================== *)
(** * server/createBackendHandler.ts (read-only backend) *)
(* ===================================================================== *)

Module Backend.
Import Retrieval Providers.

(** ** History entries as the filter reads them

    The filter of the backend handler does not trust the declared type
    of [history]: it tests each entry for nullishness, its [role] against
    three names and its [content] for being an array of parts. *)

(** An element [c] of an array [content]: a string, or anything else,
    given by [c?.text] when that is truthy. *)
Inductive ContentPart :=
| PartString (s : jsstring)
| PartObject (text : option jsstring).

(** [msg.content]: a string, an array, or any other value, given by its
    truthiness and its image by [String]. *)
Inductive RawContent :=
| ContentString (s : jsstring)
| ContentArray (parts : list ContentPart)
| ContentOther (truthy : bool) (image : jsstring).

Record RawMessage := mkRawMessage {
  raw_role : jsstring;
  raw_content : RawContent;
  raw_timestamp : option N
}.

(** An entry of [history]; [None] is [null] or [undefined]. *)
Definition HistoryEntry := option RawMessage.

(** [!!msg.content] *)
Definition truthy_content (c : RawContent) : bool :=
  match c with
  | ContentString s => truthy s
  | ContentArray _ => true
  | ContentOther b _ => b
  end.

(** [typeof c === 'string' ? c : (c?.text || '')] *)
Definition partText (c : ContentPart) : jsstring :=
  match c with
  | PartString s => s
  | PartObject text => or_default text []
  end.

(** [Array.isArray(msg.content) ? msg.content.map(...).join(' ')
                                : String(msg.content)] *)
Definition contentStr (c : RawContent) : jsstring :=
  match c with
  | ContentArray parts => join (lit " ") (List.map partText parts)
  | ContentString s => s
  | ContentOther _ image => image
  end.

Definition parseRole (r : jsstring) : option Role :=
  if streq r "user" then Some RUser
  else if streq r "assistant" then Some RAssistant
  else if streq r "system" then Some RSystem
  else None.

Definition roleName (r : Role) : jsstring :=
  match r with
  | RUser => lit "user"
  | RAssistant => lit "assistant"
  | RSystem => lit "system"
  end.

(** The callback of [history.filter]. *)
Definition keep (entry : HistoryEntry) : bool :=
  match entry with
  | None => false
  | Some msg =>
      if negb (truthy_content (raw_content msg)) then false
      else if negb (streq (raw_role msg) "user")
              && negb (streq (raw_role msg) "assistant")
              && negb (streq (raw_role msg) "system") then false
      else (0 <? length (trim (contentStr (raw_content msg))))%nat
  end.

(** The callback of [.map] after the filter. The cast of [msg.role]
    does nothing at run time; on an entry that passed [keep] the role is
    one of the three names. *)
Definition convert (entry : HistoryEntry) : option Message :=
  msg ← entry;
  r ← parseRole (raw_role msg);
  Some {| m_role := r; m_content := trim (contentStr (raw_content msg)) |}.

Definition processHistory (history : list HistoryEntry) : list Message :=
  omap convert (List.filter keep history).

(** An object [{ role, content }] of the processed history, read again
    as a history entry. *)
Definition asEntry (m : Message) : HistoryEntry :=
  Some {| raw_role := roleName (m_role m);
          raw_content := ContentString (m_content m);
          raw_timestamp := None |}.

(** A well-typed [ChatMessage] as a history entry. *)
Definition ofChatMessage (msg : ChatMessage) : HistoryEntry :=
  Some {| raw_role := roleName (roleOf (role msg));
          raw_content := ContentString (content msg);
          raw_timestamp := timestamp msg |}.

Definition isRole (r : Role) (m : Message) : bool :=
  match r, m_role m with
  | RUser, RUser | RAssistant, RAssistant | RSystem, RSystem => true
  | _, _ => false
  end.

(** The OpenRouter branch: "Only send system prompt + current user
    message (no history)". The content of every message is a string
    here, so of the three cases on [currentUserMsg.content] only the
    first one runs. *)
Definition simplifyForOpenRouter (messages : list Message) : list Message :=
  let systemMsg := List.find (isRole RSystem) messages in
  let currentUserMsg := last (List.filter (isRole RUser) messages) in
  let simplifiedMessages :=
    match systemMsg with
    | Some m =>
        if (0 <? length (trim (m_content m)))%nat
        then [{| m_role := RSystem; m_content := trim (m_content m) |}]
        else []
    | None => []
    end in
  match currentUserMsg with
  | Some m =>
      let contentStr := trim (m_content m) in
      if truthy contentStr && (0 <? length contentStr)%nat
      then simplifiedMessages ++ [{| m_role := RUser; m_content := contentStr |}]
      else simplifiedMessages
  | None => simplifiedMessages
  end.

(** [getBaseURL] *)
Definition getBaseURL (provider : jsstring) : option jsstring :=
  if streq provider "groq" then Some (lit "https://api.groq.com/openai/v1")
  else if streq provider "openrouter" then Some (lit "https://openrouter.ai/api/v1")
  else None.

Section WithWorld.
Variable W : World.
Variable config : MemoryRouterConfig.

Definition model : jsstring :=
  or_default (llmModel config) (getDefaultModel (llmProvider config)).

Definition temperature_ : Q := default (7 # 10)%Q (temperature config).

Definition streaming_ : bool := default true (streaming config).

Definition supermemory : SearchClient :=
  {| sc_apiKey := supermemoryApiKey config;
     sc_baseURL := lit "https://api.supermemory.ai" |}.

Definition getProviderModel : Completion ProviderModel :=
  let provider := llmProvider config in
  if streq provider "anthropic" then
    Normal {| pm_sdk := SdkAnthropic; pm_apiKey := llmApiKey config;
              pm_baseURL := None; pm_headers := []; pm_model := model |}
  else if streq provider "openai" || streq provider "groq" then
    Normal {| pm_sdk := SdkOpenAI; pm_apiKey := llmApiKey config;
              pm_baseURL := getBaseURL provider; pm_headers := [];
              pm_model := model |}
  else if streq provider "openrouter" then
    Normal {| pm_sdk := SdkOpenAI; pm_apiKey := llmApiKey config;
              pm_baseURL := Some (lit "https://openrouter.ai/api/v1");
              pm_headers :=
                [(lit "HTTP-Referer",
                  or_default (openRouterReferer config)
                             (lit "https://portfolio-sdk.com"));
                 (lit "X-Title",
                  or_default (openRouterTitle config) (lit "Portfolio Chat"))];
              pm_model := model |}
  else if streq provider "google" then
    Normal {| pm_sdk := SdkGoogle; pm_apiKey := llmApiKey config;
              pm_baseURL := None; pm_headers := []; pm_model := model |}
  else
    Throw (Error (lit "Unsupported provider: " ++ provider)).

Definition systemPrompt_ : jsstring :=
  or_default (systemPrompt config) defaultSystemPrompt.

(** Steps 4 of [POST]: the message list handed to [streamText]. *)
Definition buildMessages (history : list HistoryEntry)
    (context message : jsstring) : list Message :=
  let processedHistory := processHistory history in
  let messages :=
    processedHistory
    ++ [{| m_role := RUser; m_content := userTurn context message |}] in
  if streq (llmProvider config) "openrouter"
  then simplifyForOpenRouter messages
  else messages.

Definition POST_try (req : Request HistoryEntry) : Async Response :=
  let* body := await (json req) in
  let history := default (HArray []) (req_history body) in
  if negb (truthy_opt (req_message body))
     || negb (truthy_opt (req_sessionId body))
  then
    await (Response_json_status
             (ErrorJson (lit "Missing message or sessionId")) 400)
  else
    let message := default [] (req_message body) in
    let sessionId := default [] (req_sessionId body) in
    if (length (trim message) =? 0)%nat then
      await (Response_json_status
               (ErrorJson (lit "Message cannot be empty")) 400)
    else
      let args := searchArgs message (supermemoryContainer config) in
      let* docResults :=
        call (SearchDocuments supermemory args)
             (search_documents W supermemory args) in
      let documents := default [] docResults in
      let context := extractContext documents in
      let* history := await (array_method "history" "filter" history) in
      let messages := buildMessages history context message in
      let* providerModel := await getProviderModel in
      let args := {| st_model := providerModel;
                     st_system := systemPrompt_;
                     st_messages := messages;
                     st_temperature := temperature_ |} in
      if streaming_ then
        let* result := call (StreamText args) (stream_text W args) in
        ret (toTextStreamResponse result)
      else
        let* result := call (StreamText args) (stream_text W args) in
        let* fullText := await (fullText result) in
        ret (Response_json (ChatJson fullText None sessionId None)).

Definition POST_catch (error : JsError) : Async Response :=
  let errorMessage :=
    or_default (Some (message error)) (lit "Internal server error") in
  let errorMessage :=
    if status_is (status error) 401 then
      lit "Invalid API key. Please check your LLM or Supermemory API key."
    else errorMessage in
  await (Response_json_status (ErrorJson errorMessage)
                              (status_or_500 (status error))).

Definition POST (req : Request HistoryEntry) : Async Response :=
  try_catch (POST_try req) POST_catch.

Definition GET : Async Response :=
  ret (Response_json
         (StatusJson [(lit "status", lit "ok");
                      (lit "message", lit "Flexible RAG API (Read-Only)");
                      (lit "provider", llmProvider config);
                      (lit "model", model);
                      (lit "container", supermemoryContainer config);
                      (lit "streaming",
                       if streaming_ then lit "true" else lit "false");
                      (lit "mode", lit "read-only")])).

Definition createBackendHandler : Completion (Handler HistoryEntry) :=
  if negb (truthy (llmApiKey config)) then
    Throw (Error (lit "LLM API key is required"))
  else if negb (truthy (supermemoryApiKey config)) then
    Throw (Error (lit "Supermemory API key is required"))
  else if negb (truthy (supermemoryContainer config)) then
    Throw (Error (lit "Supermemory container is required"))
  else
    Normal (mkHandler POST GET).

End WithWorld.
End Backend.

(* ===================================================================== *)
(** * components/AutoChat.tsx: the streaming branch of [sendMessage] *)
(* ===================================================================== *)

Module AutoChat.

(** The "thinking" indicator: three U+25CF. *)
Definition thinkingIndicator : jsstring := [9679; 9679; 9679].

(** [newMessages[newMessages.length - 1] = entry] on a copy of [prev].
    On an empty array the index is -1, which is not an element index: the
    array keeps no element. *)
Definition setLast (prev : list ChatMessage) (entry : ChatMessage)
  : list ChatMessage :=
  <[(length prev - 1)%nat := entry]> prev.

(** The transcript put on screen before the request is sent:
    [[...messages, userEntry, thinkingEntry]]. *)
Definition beginTurn (messages : list ChatMessage) (message : jsstring)
    (t_user t_thinking : N) : list ChatMessage :=
  messages
  ++ [{| role := user; content := message; timestamp := Some t_user |};
      {| role := assistant; content := thinkingIndicator;
         timestamp := Some t_thinking |}].

(** The [messages] state together with the locals of the read loop. *)
Record Loop := mkLoop {
  messages : list ChatMessage;
  streamedContent : jsstring;
  chunkCount : nat
}.

Section WithClock.
(** [clock n]: the value of [Date.now()] at the update that follows the
    [n]-th read. *)
Variable clock : nat → N.

(** One turn of [while (true)] on a read that is not [done]; [chunk] is
    the text given by [decoder.decode(value, { stream: true })]. *)
Definition onChunk (st : Loop) (chunk : jsstring) : Loop :=
  let chunkCount := S (chunkCount st) in
  let streamedContent := streamedContent st ++ chunk in
  {| messages :=
       setLast (messages st)
               {| role := assistant; content := streamedContent;
                  timestamp := Some (clock chunkCount) |};
     streamedContent := streamedContent;
     chunkCount := chunkCount |}.

(** The states of the loop after each read, in order. *)
Fixpoint readLoop (st : Loop) (chunks : list jsstring) : list Loop :=
  match chunks with
  | [] => []
  | chunk :: rest => let st' := onChunk st chunk in st' :: readLoop st' rest
  end.

(** The state when the reader reports [done]. *)
Definition afterLoop (st : Loop) (chunks : list jsstring) : Loop :=
  fold_left onChunk chunks st.

(** "Final update with complete content" *)
Definition finalUpdate (st : Loop) : list ChatMessage :=
  if truthy (streamedContent st) then
    setLast (messages st)
            {| role := assistant; content := streamedContent st;
               timestamp := Some (clock (S (chunkCount st))) |}
  else messages st.

(** The streaming branch as a whole, from the transcript on screen. *)
Definition startLoop (history : list ChatMessage) : Loop :=
  {| messages := history; streamedContent := []; chunkCount := 0 |}.

Definition streamInto (history : list ChatMessage) (chunks : list jsstring)
  : list ChatMessage :=
  finalUpdate (afterLoop (startLoop history) chunks).

End WithClock.

(** What the transcript shows for the message in progress (its last
    entry). *)
Definition inProgress (messages : list ChatMessage) : option jsstring :=
  content <$> last messages.

(** The texts shown for the message in progress after each read. *)
Definition renderedStates (clock : nat → N) (history : list ChatMessage)
    (chunks : list jsstring) : list (option jsstring) :=
  List.map (fun st => inProgress (messages st))
           (readLoop clock (startLoop history) chunks).

End AutoChat.

(* ===================================================================== *)
(** * Reading the log of calls *)
(* ===================================================================== *)

Definition isSearch (ev : Event) : bool :=
  match ev with SearchDocuments _ _ => true | _ => false end.

(** A call to a text generation service. *)
Definition isGeneration (ev : Event) : bool :=
  match ev with AnthropicCreate _ | StreamText _ => true | _ => false end.


Definition initialState : State :=
  {| sessionStore := ∅; calls := []; ticks := 0 |}.

(* ===================================================================== *)
(** * components/AutoChat.tsx: the session id and [sendMessage] *)
(* ===================================================================== *)

Module Widget.

(** What [generateSessionId] draws from the browser: the value of
    [crypto.randomUUID()] when that function exists, and the texts
    [Math.random().toString(36).slice(2)] and [Date.now().toString(36)]. *)
Record Entropy := mkEntropy {
  randomUUID : option jsstring;
  random36 : jsstring;
  now36 : jsstring
}.

Definition generateSessionId (e : Entropy) : jsstring :=
  match randomUUID e with
  | Some uuid => uuid
  | None => lit "session_" ++ random36 e ++ lit "_" ++ now36 e
  end.

(** The effect "Initialize session", in a browser. [stored] is
    [localStorage.getItem('portfolioSessionId')]; the result is the
    session id put in the state and the item after the effect. *)
Definition initSession (e : Entropy) (stored : option jsstring)
  : jsstring * option jsstring :=
  if truthy_opt stored then (default [] stored, stored)
  else
    let newId := generateSessionId e in
    (newId, Some newId).

(** The state of the component that [sendMessage] reads and writes. *)
Record State := mkState {
  sessionId : option jsstring;
  messages : list ChatMessage;
  input : jsstring;
  isExpanded : bool;
  isSending : bool;
  error : option jsstring
}.

(** The body posted to [apiPath]. *)
Record ChatCall := mkChatCall {
  c_apiPath : jsstring;
  c_message : jsstring;
  c_sessionId : jsstring;
  c_history : list ChatMessage
}.

(** The reader of a streamed body: the texts decoded from its reads, and
    whether the read after them throws instead of reporting [done]. *)
Record Reader := mkReader {
  chunks : list jsstring;
  fails : bool
}.

(** The response of [fetch], as far as [sendMessage] looks at it.
    [body] is [response.body?.getReader()]; [json] is the [answer] field
    of [await response.json()], [None] when it is nullish, and a [Throw]
    when the body does not parse to an object. *)
Record HttpResponse := mkHttpResponse {
  ok : bool;
  status : N;
  contentType : option jsstring;
  body : option Reader;
  json : Completion (option jsstring)
}.

(** [contentType?.includes('text/event-stream')
     || contentType?.includes('text/plain')] *)
Definition isStreaming (contentType : option jsstring) : bool :=
  match contentType with
  | Some c => includes (lit "text/event-stream") c
              || includes (lit "text/plain") c
  | None => false
  end.

Definition userEntry (message : jsstring) (t : N) : ChatMessage :=
  {| role := user; content := message; timestamp := Some t |}.

Section SendMessage.
Variable apiPath : jsstring.
(** [fetch(apiPath, ...)], resolved or rejected. *)
Variable fetch : ChatCall → Completion HttpResponse.
(** The clock at the user entry and at the thinking entry; [clock n] is
    the clock at the [n]-th update after the response arrived. *)
Variable t_user t_thinking : N.
Variable clock : nat → N.

(** The [catch] block of [sendMessage]. *)
Definition onFailure (w : State) : State :=
  {| sessionId := sessionId w;
     messages :=
       messages w
       ++ [{| role := assistant;
              content := lit "Sorry, something went wrong. Please try again.";
              timestamp := Some (clock 0) |}];
     input := input w;
     isExpanded := isExpanded w;
     isSending := isSending w;
     error := Some (lit "Failed to get response. Please try again.") |}.

Definition setMessages (w : State) (f : list ChatMessage → list ChatMessage)
  : State :=
  {| sessionId := sessionId w;
     messages := f (messages w);
     input := input w;
     isExpanded := isExpanded w;
     isSending := isSending w;
     error := error w |}.

(** The [try] block once [fetch] has settled. A read that throws is
    caught inside the streaming branch, which then goes on to its final
    update as after [done]. *)
Definition onSettled (w : State) (settled : Completion HttpResponse) : State :=
  match settled with
  | Throw _ => onFailure w
  | Normal response =>
      if negb (ok response) then onFailure w
      else if isStreaming (contentType response) then
        match body response with
        | Some reader =>
            setMessages w (fun prev => AutoChat.streamInto clock prev (chunks reader))
        | None => w
        end
      else
        match json response with
        | Throw _ => onFailure w
        | Normal answer =>
            setMessages w (fun prev =>
              prev ++ [{| role := assistant;
                          content := default (lit "No response available.") answer;
                          timestamp := Some (clock 0) |}])
        end
  end.

(** [sendMessage]: the state when the promise settles, and the requests
    sent. *)
Definition sendMessage (w : State) : State * list ChatCall :=
  if negb (truthy (trim (input w)))
     || negb (truthy_opt (sessionId w))
     || isSending w
  then (w, [])
  else
    let message := trim (input w) in
    let history :=
      AutoChat.beginTurn (messages w) message t_user t_thinking in
    let w1 := {| sessionId := sessionId w;
                 messages := history;
                 input := [];
                 isExpanded := true;
                 isSending := true;
                 error := None |} in
    let request := {| c_apiPath := apiPath;
                      c_message := message;
                      c_sessionId := default [] (sessionId w);
                      c_history := messages w ++ [userEntry message t_user] |} in
    let w2 := onSettled w1 (fetch request) in
    ({| sessionId := sessionId w2;
        messages := messages w2;
        input := input w2;
        isExpanded := isExpanded w2;
        isSending := false;
        error := error w2 |},
     [request]).

(** [handleInputClick] *)
Definition handleInputClick (w : State) : State :=
  if (0 <? length (messages w))%nat
  then {| sessionId := sessionId w; messages := messages w;
          input := input w; isExpanded := true;
          isSending := isSending w; error := error w |}
  else w.

End SendMessage.
End Widget.

(* ===================================================================== *)
(** * components/ChatInput.tsx: [handleSubmit] *)
(* ===================================================================== *)

Module ChatInput.

Record State := mkState {
  input : jsstring;
  isLoading : bool
}.

(** [handleSubmit] with the prop [disabled] and the callback [onSend],
    given by what its promise settles to: the state when the handler has
    run to its end, and the messages passed to [onSend]. A rejection of
    [onSend] is caught and logged. *)
Definition handleSubmit (disabled : bool)
    (onSend : jsstring → Completion unit) (st : State)
  : State * list jsstring :=
  if negb (truthy (trim (input st))) || isLoading st || disabled
  then (st, [])
  else
    let message := trim (input st) in
    match onSend message with
    | Normal _ | Throw _ =>
        ({| input := []; isLoading := false |}, [message])
    end.

End ChatInput.

(* ===================================================================== *)
(** * Vocabulary of the properties *)
(* ===================================================================== *)

Module UploadSpec.
Import Upload.

(** The two failure records of [uploadToSupermemory]. *)
Definition nothingProvided : UploadResult :=
  {| success := false; documentId := None;
     error := Some (lit "Either file or text must be provided") |}.

Definition failed (e : JsError) : UploadResult :=
  {| success := false; documentId := None;
     error := Some (or_default (Some (message e)) (lit "Upload failed")) |}.

End UploadSpec.

Module Examples.

(** A world whose upload endpoint is unreachable. *)
Definition offline : World :=
  {| search_documents := fun _ _ => Throw (Error (lit "offline"));
     anthropic_create := fun _ => Throw (Error (lit "offline"));
     stream_text := fun _ => Throw (Error (lit "offline"));
     upload_file := fun _ => Throw (Error (lit "offline"));
     fetch := fun _ => Throw (Error (lit "fetch failed"));
     clock := fun n => N.of_nat n |}.

(** A world where every service answers: no document is found, Claude
    says "ok", and the streamed text is "Hello world" in three chunks. *)
Definition friendly : World :=
  {| search_documents := fun _ _ => Normal (Some []);
     anthropic_create := fun _ => Normal [TextBlock (lit "ok")];
     stream_text := fun _ =>
       Normal {| textStream := [lit "Hel"; lit "lo wo"; lit "rld"];
                 fullText := Normal (lit "Hello world") |};
     upload_file := fun _ =>
       Normal (Some {| ufr_id := Some (lit "doc1"); ufr_document_id := None |});
     fetch := fun _ =>
       Normal {| ok := true; res_status := 200;
                 res_json := Normal (Some {| memoryId := Some (lit "m1");
                                             data_id := None |}) |};
     clock := fun n => N.of_nat n |}.

Definition manualConfig : PortfolioConfig :=
  {| memory := {| SupermemoryConfig.apiKey := lit "sm-key";
                  SupermemoryConfig.container := lit "portfolio";
                  SupermemoryConfig.baseUrl := None |};
     llm := {| LLMConfig.provider := anthropic;
               LLMConfig.apiKey := lit "llm-key";
               LLMConfig.model := None;
               LLMConfig.systemPrompt := None;
               LLMConfig.temperature := None;
               LLMConfig.maxTokens := None;
               LLMConfig.baseURL := None |} |}.


(** The memory service is down; the providers answer as in [friendly]. *)
Definition searchDown : World :=
  {| search_documents := fun _ _ => Throw (Error (lit "search failed"));
     anthropic_create := anthropic_create friendly;
     stream_text := stream_text friendly;
     upload_file := upload_file friendly;
     fetch := fetch friendly;
     clock := clock friendly |}.


(** The provider generates no text at all. *)
Definition silent : World :=
  {| search_documents := search_documents friendly;
     anthropic_create := anthropic_create friendly;
     stream_text := fun _ =>
       Normal {| textStream := []; fullText := Normal [] |};
     upload_file := upload_file friendly;
     fetch := fetch friendly;
     clock := clock friendly |}.

(** A complete config for the two multi-provider handlers. *)
Definition routerConfig (provider : string) (stream : bool)
  : MemoryRouterConfig :=
  {| llmProvider := lit provider;
     llmApiKey := lit "llm-key";
     llmModel := None;
     supermemoryApiKey := lit "sm-key";
     supermemoryContainer := lit "portfolio";
     systemPrompt := None;
     temperature := None;
     maxTokens := None;
     streaming := Some stream;
     openRouterReferer := None;
     openRouterTitle := None |}.

(** The same config without the LLM API key. *)
Definition keylessConfig (provider : string) : MemoryRouterConfig :=
  {| llmProvider := lit provider;
     llmApiKey := [];
     llmModel := None;
     supermemoryApiKey := lit "sm-key";
     supermemoryContainer := lit "portfolio";
     systemPrompt := None;
     temperature := None;
     maxTokens := None;
     streaming := None;
     openRouterReferer := None;
     openRouterTitle := None |}.

(** A history that opens with a system entry. *)
Definition systemHistory : list Backend.HistoryEntry :=
  [Some {| Backend.raw_role := lit "system";
           Backend.raw_content := Backend.ContentString (lit "be brief");
           Backend.raw_timestamp := None |};
   Some {| Backend.raw_role := lit "user";
           Backend.raw_content := Backend.ContentString (lit "hi");
           Backend.raw_timestamp := None |}].

(** The body [{ message, sessionId: 's1', history }]. *)
Definition chat {H} (message : jsstring) (history : list H) : Request H :=
  mkRequest (Normal {| req_message := Some message;
                       req_sessionId := Some (lit "s1");
                       req_history := Some (HArray history) |}).

(** Five earlier turns. *)
Definition fiveTurns : list ChatMessage :=
  [{| role := user; content := lit "hi"; timestamp := Some 1 |};
   {| role := assistant; content := lit "hello"; timestamp := Some 2 |};
   {| role := user; content := lit "who are you"; timestamp := Some 3 |};
   {| role := assistant; content := lit "a portfolio assistant"; timestamp := Some 4 |};
   {| role := user; content := lit "thanks"; timestamp := Some 5 |}].

Definition noOptions : UploadOptions :=
  {| file := None; text := None; title := lit "cv"; type := None;
     up_container := None |}.

Definition textOptions : UploadOptions :=
  {| file := None; text := Some (lit "hello"); title := lit "cv";
     type := None; up_container := None |}.

End Examples.

Module ManualSpec.
Import ManualRAG.

(** Every stored history holds at most 20 messages. *)
Definition storeCapped (s : State) : Prop :=
  map_Forall (fun _ (h : list ChatMessage) => (length h ≤ 20)%nat)
             (sessionStore s).

(** The states the process can be in: from the initial state, any
    route of any handler built from any config may serve any request, and
    any upload may run. *)
Inductive Reachable (W : World) : State → Prop :=
| reach_init : Reachable W initialState
| reach_manual config req s :
    Reachable W s → Reachable W (POST W config req s).2
| reach_router config req s :
    Reachable W s → Reachable W (MemoryRouter.POST W config req s).2
| reach_backend config req s :
    Reachable W s → Reachable W (Backend.POST W config req s).2
| reach_upload apiKey options s :
    Reachable W s →
    Reachable W (Upload.uploadToSupermemory W apiKey options s).2.

(** The history the two new turns are pushed on: the one of the request
    when it has entries, else the stored one, else an empty one. *)
Definition baseHistory (s : State) (sessionId : jsstring)
    (history : list ChatMessage) : list ChatMessage :=
  if (0 <? length history)%nat then history
  else default [] (sessionStore s !! sessionId).

(** One exchange appended to a history, as [POST] does it. *)
Definition appendTurns (h turns : list ChatMessage) : list ChatMessage :=
  truncate (h ++ turns).

(** A request of a conversation whose history is held by the server:
    the body has no [history]. *)
Definition ask (sessionId message : jsstring) : Request ChatMessage :=
  mkRequest (Normal {| req_message := Some message;
                       req_sessionId := Some sessionId;
                       req_history := None |}).

(** The state after the messages of such a conversation were sent to
    the route one after the other. *)
Fixpoint converse (W : World) (config : PortfolioConfig)
    (sessionId : jsstring) (messages : list jsstring) (s : State) : State :=
  match messages with
  | [] => s
  | m :: rest =>
      converse W config sessionId rest (POST W config (ask sessionId m) s).2
  end.

(** A world whose search and Claude always answer. *)
Definition Answers (W : World) : Prop :=
  (∀ c a, ∃ r, search_documents W c a = Normal r) ∧
  (∀ a, ∃ r, anthropic_create W a = Normal r).

(** The turns of a list of exchanges, in chronological order. *)
Definition turnsOf (exchanges : list (ChatMessage * ChatMessage))
  : list ChatMessage :=
  flat_map (fun x => [x.1; x.2]) exchanges.

(** An exchange: the user turn with the text sent, then an assistant
    turn. *)
Definition isExchange (message : jsstring) (x : ChatMessage * ChatMessage)
  : Prop :=
  role x.1 = user ∧ content x.1 = message ∧ role x.2 = assistant.

End ManualSpec.

Module RequestSpec.

(** The message of the body is empty once trimmed (or is missing). *)
Definition blankMessage {H} (body : ChatRequest H) : Prop :=
  trim (default [] (req_message body)) = [].

(** A body with a message that is not blank and a session id. *)
Definition wellFormed {H} (body : ChatRequest H)
    (message sessionId : jsstring) : Prop :=
  req_message body = Some message ∧ trim message ≠ [] ∧
  req_sessionId body = Some sessionId ∧ sessionId ≠ [].

(** The history the handler works on is the array [history]: the body
    has an array, or has no [history] and [history] is empty. *)
Definition arrayHistory {H} (body : ChatRequest H) (history : list H)
  : Prop :=
  default (HArray []) (req_history body) = HArray history.

(** The entries of the history of a body; none when the body has no
    array there. *)
Definition historyEntries {H} (body : ChatRequest H) : list H :=
  match req_history body with
  | Some (HArray entries) => entries
  | _ => []
  end.

(** The [history] of the body is not [null]. *)
Definition historyNotNull {H} (body : ChatRequest H) : Prop :=
  req_history body ≠ Some HNull.

(** A status a response with a body can have. *)
Definition answerable (st : N) : Prop :=
  200 ≤ st ≤ 599 ∧ st ≠ 204 ∧ st ≠ 205 ∧ st ≠ 304.

(** A body with a message and a session id, both truthy. *)
Definition present {H} (body : ChatRequest H)
    (message sessionId : jsstring) : Prop :=
  req_message body = Some message ∧ message ≠ [] ∧
  req_sessionId body = Some sessionId ∧ sessionId ≠ [].

(** The response [{ error }] with status 400. *)
Definition badRequest (error : jsstring) : Response :=
  {| resp_status := 400; resp_body := ErrorJson error |}.

(** The calls a run has added to the log. *)
Definition newCalls (before after : State) : list Event :=
  drop (length (calls before)) (calls after).




End RequestSpec.

Module BackendSpec.
Import Backend.

(** A processed message that the filter maps to itself: its content is
    trimmed and not empty. *)
Definition stable (m : Message) : Prop :=
  trim (m_content m) = m_content m ∧ m_content m ≠ [].

(** The first system entry of a processed history, as a list. *)
Definition systemEntry (processed : list Message) : list Message :=
  match List.find (isRole RSystem) processed with
  | Some m => [m]
  | None => []
  end.

(** What the filter can keep of a history entry: its role and its
    content, flattened and trimmed. *)
Definition entryView (entry : HistoryEntry) : option (jsstring * jsstring) :=
  msg ← entry;
  Some (raw_role msg, trim (contentStr (raw_content msg))).

Definition messageView (m : Message) : jsstring * jsstring :=
  (roleName (m_role m), m_content m).

End BackendSpec.

Module AutoChatSpec.
Import AutoChat.

(** The texts obtained by appending the chunks one after the other to
    [acc]: for [acc] empty, the non-empty prefixes of the whole text cut
    at the chunk boundaries. *)
Fixpoint prefixesFrom (acc : jsstring) (chunks : list jsstring)
  : list jsstring :=
  match chunks with
  | [] => []
  | chunk :: rest => (acc ++ chunk) :: prefixesFrom (acc ++ chunk) rest
  end.

Definition prefixes (chunks : list jsstring) : list jsstring :=
  prefixesFrom [] chunks.

(** The transcript shows, for the message in progress, the text
    accumulated so far. *)
Definition synced (st : Loop) : Prop :=
  inProgress (messages st) = Some (streamedContent st).

End AutoChatSpec.

Module WidgetSpec.
Import Widget.

(** The request did not bring an answer: [fetch] rejected, the status
    was not ok, or the body of a response that is not a stream did not
    parse. *)
Definition failed (settled : Completion HttpResponse) : bool :=
  match settled with
  | Throw _ => true
  | Normal response =>
      negb (ok response)
      || (negb (isStreaming (contentType response))
          && match json response with Throw _ => true | Normal _ => false end)
  end.

(** The entries that follow the user entry once the promise of
    [sendMessage] has settled. *)
Definition tailAfter (clock : nat → N) (t_thinking : N)
    (settled : Completion HttpResponse) : list ChatMessage :=
  let thinking := {| role := assistant; content := AutoChat.thinkingIndicator;
                     timestamp := Some t_thinking |} in
  if failed settled then
    [thinking;
     {| role := assistant;
        content := lit "Sorry, something went wrong. Please try again.";
        timestamp := Some (clock 0%nat) |}]
  else
    match settled with
    | Throw _ => []
    | Normal response =>
        if isStreaming (contentType response) then
          match body response with
          | Some reader => AutoChat.streamInto clock [thinking] (chunks reader)
          | None => [thinking]
          end
        else
          [thinking;
           {| role := assistant;
              content := default (lit "No response available.")
                           (match json response with
                            | Normal answer => answer
                            | Throw _ => None
                            end);
              timestamp := Some (clock 0%nat) |}]
    end.

(** A send can start: there is text to send, a session, and no send in
    flight. *)
Definition canSend (w : State) : Prop :=
  trim (input w) ≠ [] ∧ (∃ id, sessionId w = Some id ∧ id ≠ []) ∧
  isSending w = false.

(** The request [sendMessage] posts from the state [w]. *)
Definition requestOf (apiPath : jsstring) (t_user : N) (w : State) : ChatCall :=
  {| c_apiPath := apiPath;
     c_message := trim (input w);
     c_sessionId := default [] (sessionId w);
     c_history := messages w ++ [userEntry (trim (input w)) t_user] |}.

(** A widget with the session 's1', "  hello " typed in, and one earlier
    exchange on screen. *)
Definition typed : State :=
  {| sessionId := Some (lit "s1");
     messages := [{| role := user; content := lit "hi"; timestamp := Some 1 |};
                  {| role := assistant; content := lit "hey"; timestamp := Some 2 |}];
     input := lit "  hello ";
     isExpanded := false;
     isSending := false;
     error := None |}.

(** A server that streams "Hello world" in three chunks. *)
Definition streamingServer (call : ChatCall) : Completion HttpResponse :=
  Normal {| ok := true; status := 200;
            contentType := Some (lit "text/plain; charset=utf-8");
            body := Some {| chunks := [lit "Hel"; lit "lo wo"; lit "rld"];
                            fails := false |};
            json := Throw (Error (lit "not JSON")) |}.

(** A server that answers with JSON. *)
Definition jsonServer (call : ChatCall) : Completion HttpResponse :=
  Normal {| ok := true; status := 200;
            contentType := Some (lit "application/json");
            body := None;
            json := Normal (Some (lit "Hello world")) |}.

(** A server that answers 500. *)
Definition brokenServer (call : ChatCall) : Completion HttpResponse :=
  Normal {| ok := false; status := 500;
            contentType := Some (lit "application/json");
            body := None;
            json := Normal None |}.

Definition failureBanner : jsstring :=
  lit "Failed to get response. Please try again.".

Definition apology : jsstring :=
  lit "Sorry, something went wrong. Please try again.".

End WidgetSpec.

Module RouteSpec.

(** The response [{ error }] with a status. *)
Definition errorResponse (st : N) (error : jsstring) : Response :=
  {| resp_status := st; resp_body := ErrorJson error |}.

(** The two turns an exchange appends. *)
Definition exchangeTurns (message answer : jsstring) (t1 t2 : N)
  : list ChatMessage :=
  [{| role := user; content := message; timestamp := Some t1 |};
   {| role := assistant; content := answer; timestamp := Some t2 |}].

Definition invalidKeyHint : jsstring :=
  lit "Invalid API key. Please check your LLM or Supermemory API key.".

Definition modelNotFoundHint : jsstring :=
  lit "Model not found. Please check your model name.".

Definition containerHint : jsstring :=
  lit "Supermemory container not found. Please check your container name.".

(** The error is one the [catch] block of a route can report: its
    status, or 500 when it has none, is a status a response can have. *)
Definition reportable (e : JsError) : Prop :=
  RequestSpec.answerable
    (unsigned_short (Providers.status_or_500 (status e))).

(** The error is thrown by a service of the world: by the search, by
    the Claude call, by [streamText], or by the promise of the text. *)
Definition thrownBy (W : World) (e : JsError) : Prop :=
  (∃ c a, search_documents W c a = Throw e) ∨
  (∃ a, anthropic_create W a = Throw e) ∨
  (∃ a, stream_text W a = Throw e) ∨
  (∃ a result, stream_text W a = Normal result ∧ fullText result = Throw e).

(** The provider rejects the credentials. *)
Definition unauthorized : World :=
  {| search_documents := fun _ _ => Normal (Some []);
     anthropic_create := fun _ => Throw (mkError (lit "401 Unauthorized") (Some 401));
     stream_text := fun _ => Throw (mkError (lit "401 Unauthorized") (Some 401));
     upload_file := fun _ => Throw (mkError (lit "401 Unauthorized") (Some 401));
     fetch := fun _ => Throw (Error (lit "fetch failed"));
     clock := fun n => N.of_nat n |}.


End RouteSpec.

Module UploadExamples.

(** The upload endpoint answers 502. *)
Definition badGateway : World :=
  {| search_documents := fun _ _ => Normal (Some []);
     anthropic_create := fun _ => Normal [];
     stream_text := fun _ => Throw (Error (lit "offline"));
     upload_file := fun _ => Normal None;
     fetch := fun _ =>
       Normal {| ok := false; res_status := 502;
                 res_json := Normal None |};
     clock := fun n => N.of_nat n |}.

(** Both a file and a text. *)
Definition fileAndText : UploadOptions :=
  {| file := Some (lit "%PDF"); text := Some (lit "hello");
     title := lit "cv"; type := None; up_container := Some (lit "resume") |}.

End UploadExamples.

(* ===================================================================== *)
(** * Facts about JavaScript strings *)
(* ===================================================================== *)

Module JSFacts.

Example trim_both_ends : trim (lit "  a b  ") = lit "a b".
Proof. reflexivity. Qed.

(** Tab, line feed, no-break space and U+FEFF are blanks. *)
Example trim_blanks : trim ([9; 10; 160; 65279] ++ lit "x" ++ [8233]) = lit "x".
Proof. reflexivity. Qed.

Example join_three :
  join (lit ", ") [lit "a"; lit "b"; lit "c"] = lit "a, b, c".
Proof. reflexivity. Qed.

Example includes_container :
  includes (lit "container") (lit "no such container: cv") = true.
Proof. reflexivity. Qed.

Example sliceLast_two : sliceLast 2 [1; 2; 3] = [2; 3].
Proof. reflexivity. Qed.

Lemma trimStart_idemp s : trimStart (trimStart s) = trimStart s.
Proof.
  induction s as [|c s IH]; simpl; [done|].
  destruct (isWhiteSpace c) eqn:E; [done|]. simpl. by rewrite E.
Qed.

Lemma trimStart_snoc s c :
  isWhiteSpace c = false → trimStart (s ++ [c]) = trimStart s ++ [c].
Proof.
  intros Hc. induction s as [|d s IH]; simpl.
  - by rewrite Hc.
  - destruct (isWhiteSpace d); done.
Qed.

Lemma trimEnd_cons c s :
  isWhiteSpace c = false → trimEnd (c :: s) = c :: trimEnd s.
Proof.
  intros Hc. unfold trimEnd. simpl.
  rewrite trimStart_snoc by done. by rewrite rev_app_distr.
Qed.

Lemma trimEnd_idemp s : trimEnd (trimEnd s) = trimEnd s.
Proof. unfold trimEnd. by rewrite rev_involutive, trimStart_idemp. Qed.

(** A string produced by [trimStart] is empty or starts with a
    non-blank. *)
Lemma trimStart_head s :
  trimStart s = [] ∨ ∃ c t, trimStart s = c :: t ∧ isWhiteSpace c = false.
Proof.
  induction s as [|c s IH]; simpl; [by left|].
  destruct (isWhiteSpace c) eqn:E; [done|]. right. by exists c, s.
Qed.

Lemma trimStart_trimEnd_trimStart s :
  trimStart (trimEnd (trimStart s)) = trimEnd (trimStart s).
Proof.
  destruct (trimStart_head s) as [->|(c & t & -> & Hc)]; [done|].
  rewrite trimEnd_cons by done. simpl. by rewrite Hc.
Qed.

Lemma trim_idemp s : trim (trim s) = trim s.
Proof.
  unfold trim. by rewrite trimStart_trimEnd_trimStart, trimEnd_idemp.
Qed.

Lemma trimStart_all_blank s :
  forallb isWhiteSpace s = true → trimStart s = [].
Proof.
  induction s as [|c s IH]; simpl; [done|].
  intros [-> Hs]%andb_prop. auto.
Qed.

Lemma trim_all_blank s : forallb isWhiteSpace s = true → trim s = [].
Proof. intros H. unfold trim. by rewrite trimStart_all_blank. Qed.

Lemma truthy_length s : truthy s = negb (length s =? 0)%nat.
Proof. by destruct s. Qed.

Lemma sliceLast_length {A} n (l : list A) :
  (length (sliceLast n l) ≤ n)%nat.
Proof. unfold sliceLast. rewrite length_drop. lia. Qed.

Lemma sliceLast_short {A} n (l : list A) :
  (length l ≤ n)%nat → sliceLast n l = l.
Proof.
  intros H. unfold sliceLast.
  replace (length l - n)%nat with 0%nat by lia. done.
Qed.




Lemma trim_blank_length s : (length (trim s) =? 0)%nat = true ↔ trim s = [].
Proof.
  rewrite Nat.eqb_eq. split; [apply length_zero_iff_nil|by intros ->].
Qed.

Lemma trim_nonblank_truthy s : trim s ≠ [] → truthy s = true.
Proof. destruct s; [by intros []|done]. Qed.

Lemma truthy_nonempty s : truthy s = true ↔ s ≠ [].
Proof. by destruct s. Qed.

Lemma length_pos_nonempty {A} (l : list A) :
  (0 <? length l)%nat = true ↔ l ≠ [].
Proof. rewrite Nat.ltb_lt. destruct l; simpl; split; (done || lia). Qed.

End JSFacts.
Import JSFacts.

(* ===================================================================== *)
(** * The [async] monad *)
(* ===================================================================== *)

Lemma try_catch_normal {A} (m : Async A) h s a s' :
  m s = (Normal a, s') → try_catch m h s = (Normal a, s').
Proof. intros H. unfold try_catch. by rewrite H. Qed.

Lemma try_catch_throw {A} (m : Async A) h s e s' :
  m s = (Throw e, s') → try_catch m h s = h e s'.
Proof. intros H. unfold try_catch. by rewrite H. Qed.

(** A [try] whose handler returns always completes normally. *)
Lemma try_catch_total {A} (m : Async A) (h : JsError → A) s :
  ∃ a s', try_catch m (fun e => ret (h e)) s = (Normal a, s').
Proof.
  unfold try_catch. destruct (m s) as [[a|e] s']; eauto.
Qed.

(* ===================================================================== *)
(** * [Response.json] *)
(* ===================================================================== *)

Module ResponseFacts.
Import RequestSpec.

Lemma unsigned_short_small st : st < 65536 → unsigned_short st = st.
Proof. intros H. unfold unsigned_short. by apply N.mod_small. Qed.

Lemma unsigned_short_bound st : unsigned_short st < 65536.
Proof. unfold unsigned_short. by apply N.mod_lt. Qed.

(** [Response.json(body, { status })] builds the response when the
    status, as an unsigned short, is one a body can go with. *)
Lemma Response_json_status_answerable body st :
  answerable (unsigned_short st) →
  Response_json_status body st
  = Normal {| resp_status := unsigned_short st; resp_body := body |}.
Proof.
  intros ([Hlo Hhi] & H204 & H205 & H304). unfold Response_json_status.
  cbv zeta.
  assert ((unsigned_short st <? 200) = false) as -> by by apply N.ltb_ge.
  assert ((599 <? unsigned_short st) = false) as -> by by apply N.ltb_ge.
  unfold null_body_status.
  by rewrite !(proj2 (N.eqb_neq _ _)).
Qed.

(** And throws for any other. *)
Lemma Response_json_status_refused body st :
  ¬ answerable (unsigned_short st) →
  ∃ e, Response_json_status body st = Throw e.
Proof.
  intros Hno. unfold Response_json_status. cbv zeta.
  destruct ((unsigned_short st <? 200) || (599 <? unsigned_short st))
    eqn:Hrange; [by eexists|].
  destruct (null_body_status (unsigned_short st)) eqn:Hnull; [by eexists|].
  exfalso. apply Hno.
  apply orb_false_elim in Hrange as [Hlo Hhi].
  apply N.ltb_ge in Hlo, Hhi.
  unfold null_body_status in Hnull.
  apply orb_false_elim in Hnull as [Hnull H304].
  apply orb_false_elim in Hnull as [H204 H205].
  apply N.eqb_neq in H204, H205, H304. done.
Qed.

Lemma answerable_dec st : answerable st ∨ ¬ answerable st.
Proof.
  unfold answerable.
  destruct (decide (200 ≤ st)); [|right; tauto].
  destruct (decide (st ≤ 599)); [|right; tauto].
  destruct (decide (st = 204)); [right; tauto|].
  destruct (decide (st = 205)); [right; tauto|].
  destruct (decide (st = 304)); [right; tauto|].
  left. tauto.
Qed.

Lemma answerable_400 : answerable (unsigned_short 400).
Proof. by vm_compute. Qed.

Lemma answerable_500 : answerable (unsigned_short 500).
Proof. by vm_compute. Qed.

Lemma Response_json_status_400 body :
  Response_json_status body 400
  = Normal {| resp_status := 400; resp_body := body |}.
Proof. reflexivity. Qed.

Lemma Response_json_status_500 body :
  Response_json_status body 500
  = Normal {| resp_status := 500; resp_body := body |}.
Proof. reflexivity. Qed.

End ResponseFacts.

(* ===================================================================== *)
(** * uploadToSupermemory *)
(* ===================================================================== *)

Module UploadFacts.
Import Upload UploadSpec Examples.

Lemma upload_try_nothing W apiKey options s :
  file options = None → truthy_opt (text options) = false →
  upload_try W apiKey options s = (Normal nothingProvided, s).
Proof. intros Hf Ht. unfold upload_try. by rewrite Hf, Ht. Qed.

(** C10. [uploadToSupermemory] never rejects: for every world, key,
    options and state it resolves to a result record. With neither a file
    nor a (non-empty) text the record is the failure 'Either file or text
    must be provided', reached without any call; and when the body throws
    an exception the record is the failure carrying its message, or
    'Upload failed' when the message is empty. *)
Theorem uploadToSupermemory_total W apiKey options s :
  ∃ r s',
    uploadToSupermemory W apiKey options s = (Normal r, s') ∧
    (file options = None → truthy_opt (text options) = false →
     r = nothingProvided ∧ s' = s) ∧
    (∀ e s0, upload_try W apiKey options s = (Throw e, s0) →
     r = failed e ∧ success r = false).
Proof.
  unfold uploadToSupermemory, try_catch.
  destruct (upload_try W apiKey options s) as [[r|e] s1] eqn:E.
  - exists r, s1. split; [done|]. split; [|done].
    intros Hf Ht. rewrite upload_try_nothing in E by done.
    by inversion E.
  - exists (failed e), s1. split; [done|]. split.
    + intros Hf Ht. rewrite upload_try_nothing in E by done. done.
    + intros e' s0 [= <- <-]. done.
Qed.

Lemma uploadToSupermemory_total_witness :
  (∃ r s', uploadToSupermemory offline (lit "key") noOptions initialState
           = (Normal r, s') ∧ r = nothingProvided) ∧
  (∃ r s', uploadToSupermemory offline (lit "key") textOptions initialState
           = (Normal r, s') ∧ error r = Some (lit "fetch failed")).
Proof.
  split.
  - destruct (uploadToSupermemory_total offline (lit "key") noOptions
                initialState) as (r & s' & Hr & Hn & _).
    exists r, s'. split; [exact Hr|]. apply Hn; reflexivity.
  - destruct (uploadToSupermemory_total offline (lit "key") textOptions
                initialState) as (r & s' & Hr & _ & Hf).
    exists r, s'. split; [exact Hr|].
    destruct (Hf (Error (lit "fetch failed"))
                 {| sessionStore := ∅;
                    calls := [Fetch {| f_url := lit "https://api.supermemory.ai/v1/add";
                                       f_authorization := lit "Bearer key";
                                       f_data := lit "hello";
                                       f_title := lit "cv";
                                       f_type := lit "document";
                                       f_tags := [lit "portfolio"] |}];
                    ticks := 0 |} eq_refl) as [-> _].
    reflexivity.
Defined.

End UploadFacts.

(* ===================================================================== *)
(** * The Manual RAG handler *)
(* ===================================================================== *)

(** Unfolds the monad on a goal about one run of a route function. *)
Ltac async :=
  unfold bind, await, call, ret, throw, try_catch,
         store_get, store_set, Date_now; simpl.

Module RetrievalFacts.
Import Retrieval.

(** A document with a content, a summary and two chunks, one of them
    without text. *)
Example segments_of_document :
  segments {| doc_content := Some (lit "CV");
              doc_summary := Some (lit "a resume");
              doc_metadata := None;
              doc_chunks := Some [Some (Some (lit "part 1")); None;
                                  Some None] |}
  = [lit "CV"; lit "a resume"; lit "part 1"].
Proof. reflexivity. Qed.

(** [metadata.summary ?? metadata.description] keeps an empty summary,
    which [filter(Boolean)] then drops. *)
Example segments_empty_metadata_summary :
  segments {| doc_content := None;
              doc_summary := None;
              doc_metadata := Some {| md_summary := Some [];
                                      md_description := Some (lit "d") |};
              doc_chunks := None |}
  = [].
Proof. reflexivity. Qed.

Example extractContext_two_segments :
  extractContext [{| doc_content := Some (lit "A"); doc_summary := None;
                     doc_metadata := None; doc_chunks := None |};
                  {| doc_content := Some (lit "B"); doc_summary := None;
                     doc_metadata := None; doc_chunks := None |}]
  = lit "A" ++ nl ++ nl ++ lit "---" ++ nl ++ nl ++ lit "B".
Proof. reflexivity. Qed.

Lemma extractContext_none : extractContext [] = [].
Proof. reflexivity. Qed.

End RetrievalFacts.

Module ManualFacts.
Import Retrieval ManualRAG ManualSpec Examples.

Lemma truncate_sliceLast h : truncate h = sliceLast 20 h.
Proof.
  unfold truncate. destruct (20 <? length h)%nat eqn:E; [done|].
  apply Nat.ltb_ge in E. by rewrite sliceLast_short.
Qed.

Lemma truncate_length h : (length (truncate h) ≤ 20)%nat.
Proof. rewrite truncate_sliceLast. apply sliceLast_length. Qed.

(** Past 20 entries the result has exactly 20, and they are the end of
    the list, in the same order: the head of the list is what is lost. *)
Lemma truncate_long h :
  (20 < length h)%nat →
  length (truncate h) = 20%nat ∧
  h = take (length h - 20) h ++ truncate h.
Proof.
  intros H. rewrite truncate_sliceLast. unfold sliceLast. split.
  - rewrite length_drop. lia.
  - by rewrite take_drop.
Qed.

Lemma sliceLast_app_sliceLast {A} n (h t : list A) :
  sliceLast n (sliceLast n h ++ t) = sliceLast n (h ++ t).
Proof.
  destruct (decide (length h ≤ n)%nat) as [Hle|Hgt].
  - by rewrite (sliceLast_short n h).
  - unfold sliceLast.
    rewrite !length_app, length_drop.
    replace (length h - (length h - n) + length t - n)%nat
      with (length t) by lia.
    replace (length h + length t - n)%nat
      with ((length h - n) + length t)%nat by lia.
    rewrite <- drop_drop. f_equal.
    rewrite drop_app_le by lia. done.
Qed.

(** Exchanges appended one after the other leave the last 20 messages of
    everything appended. *)
Lemma appendTurns_fold (exchanges : list (list ChatMessage)) h :
  (length h ≤ 20)%nat →
  fold_left appendTurns exchanges h = sliceLast 20 (h ++ concat exchanges).
Proof.
  revert h. induction exchanges as [|t ts IH]; intros h Hh; simpl.
  - rewrite app_nil_r. by rewrite sliceLast_short.
  - rewrite IH by apply truncate_length.
    unfold appendTurns. rewrite truncate_sliceLast.
    rewrite sliceLast_app_sliceLast. by rewrite <- app_assoc.
Qed.

(** What a run of [POST] does to the session store: nothing, or one
    [set] of a truncated history. *)
Lemma POST_store W config req s :
  let s' := (POST W config req s).2 in
  sessionStore s' = sessionStore s ∨
  ∃ id h, sessionStore s' = <[id := truncate h]> (sessionStore s).
Proof.
  unfold POST, POST_try. async.
  destruct (json req) as [body|e]; simpl; [|by left].
  destruct (negb (truthy_opt (req_message body))
            || negb (truthy_opt (req_sessionId body))); simpl; [by left|].
  destruct (length_positive _) as [positive|e]; simpl; [|by left].
  destruct (search_documents W _ _) as [docResults|e]; simpl; [|by left].
  destruct (array_method _ _ _) as [entries|e]; simpl; [|by left].
  destruct (anthropic_create W _) as [response|e]; simpl; [|by left].
  right. eauto.
Qed.

(** The same, with the value written: the last 20 messages of the base
    history followed by the two turns of the exchange. *)
Lemma POST_store_exact W config req s :
  let s' := (POST W config req s).2 in
  sessionStore s' = sessionStore s ∨
  ∃ body id message exchange,
    json req = Normal body ∧ req_sessionId body = Some id ∧
    req_message body = Some message ∧ isExchange message exchange ∧
    sessionStore s'
    = <[id := sliceLast 20
                (baseHistory s id (RequestSpec.historyEntries body)
                 ++ [exchange.1; exchange.2])]> (sessionStore s).
Proof.
  unfold POST, POST_try. async.
  destruct (json req) as [body|e] eqn:Hj; simpl; [|by left].
  destruct (req_message body) as [message|] eqn:Hm; simpl; [|by left].
  destruct (req_sessionId body) as [id|] eqn:Hs; simpl;
    [|rewrite orb_true_r; by left].
  destruct (negb (truthy message) || negb (truthy id)); simpl; [by left|].
  unfold RequestSpec.historyEntries, baseHistory.
  destruct (req_history body) as [[entries| |[|]]|] eqn:Hh; simpl;
    try (by left);
    try destruct (0 <? length entries)%nat eqn:Hpos; simpl;
    (destruct (search_documents W _ _) as [docResults|e]; simpl;
     [|by left]);
    try (by left);
    (destruct (anthropic_create W _) as [response|e]; simpl; [|by left]);
    right; eexists body, id, message, (_, _);
    (split; [done|]); (split; [done|]); (split; [done|]);
    (split;
     [|rewrite Hh, ?Hpos; simpl;
       rewrite <- truncate_sliceLast, <- app_assoc; reflexivity]);
    done.
Qed.

Lemma POST_keeps_cap W config req s :
  storeCapped s → storeCapped (POST W config req s).2.
Proof.
  intros Hs. unfold storeCapped.
  destruct (POST_store W config req s) as [->|(id & h & ->)]; [done|].
  apply map_Forall_insert_2; [apply truncate_length|done].
Qed.

(** The other routes and the upload leave the session store alone. *)
Lemma router_POST_store W config req s :
  sessionStore (MemoryRouter.POST W config req s).2 = sessionStore s.
Proof.
  unfold MemoryRouter.POST, MemoryRouter.POST_try. async.
  destruct (json req) as [body|e]; simpl; [|done].
  destruct (read_length _); simpl; [|done].
  destruct (negb (truthy_opt (req_message body))
            || negb (truthy_opt (req_sessionId body))); simpl; [done|].
  destruct (length (trim (default [] (req_message body))) =? 0)%nat;
    simpl; [done|].
  destruct (array_method _ _ _) as [history|e]; simpl; [|done].
  destruct (MemoryRouter.getProviderModel config) as [pm|e]; simpl; [|done].
  destruct (MemoryRouter.streaming_ config); simpl;
    destruct (stream_text W _) as [result|e]; simpl; try done.
  destruct (fullText result) as [text|e]; simpl; [|done].
  by destruct (negb (truthy text) || (length (trim text) =? 0)%nat).
Qed.

Lemma backend_POST_store W config req s :
  sessionStore (Backend.POST W config req s).2 = sessionStore s.
Proof.
  unfold Backend.POST, Backend.POST_try. async.
  destruct (json req) as [body|e]; simpl; [|done].
  destruct (negb (truthy_opt (req_message body))
            || negb (truthy_opt (req_sessionId body))); simpl; [done|].
  destruct (length (trim (default [] (req_message body))) =? 0)%nat;
    simpl; [done|].
  destruct (search_documents W _ _) as [docResults|e]; simpl; [|done].
  destruct (array_method _ _ _) as [history|e]; simpl; [|done].
  destruct (Backend.getProviderModel config) as [pm|e]; simpl; [|done].
  destruct (Backend.streaming_ config); simpl;
    destruct (stream_text W _) as [result|e]; simpl; try done.
  by destruct (fullText result) as [text|e].
Qed.

Lemma upload_store W apiKey options s :
  sessionStore (Upload.uploadToSupermemory W apiKey options s).2
  = sessionStore s.
Proof.
  unfold Upload.uploadToSupermemory, Upload.upload_try, Upload.upload_catch.
  async. destruct (file options) as [f|]; simpl.
  { by destruct (upload_file W _). }
  destruct (truthy_opt (text options)); simpl; [|done].
  destruct (fetch W _) as [res|e]; simpl; [|done].
  destruct (ok res); simpl; [|done].
  by destruct (res_json res).
Qed.

Lemma Reachable_capped W s : Reachable W s → storeCapped s.
Proof.
  induction 1 as [|config req s _ IH|config req s _ IH|config req s _ IH
                  |apiKey options s _ IH].
  - unfold storeCapped. simpl. apply map_Forall_empty.
  - by apply POST_keeps_cap.
  - unfold storeCapped. by rewrite router_POST_store.
  - unfold storeCapped. by rewrite backend_POST_store.
  - unfold storeCapped. by rewrite upload_store.
Qed.

(** The history the route works on, when reading it does not throw, is
    the base history of the request. *)
Lemma sessionHistory_base s sessionId (body : ChatRequest ChatMessage)
    positive base :
  let history := default (HArray []) (req_history body) in
  length_positive history = Normal positive →
  array_method "sessionHistory" "map"
    (if positive then history
     else HArray (default [] (sessionStore s !! sessionId)))
  = Normal base →
  base = baseHistory s sessionId (RequestSpec.historyEntries body).
Proof.
  unfold RequestSpec.historyEntries, baseHistory.
  destruct (req_history body) as [[entries| |[|]]|]; simpl; try done.
  - intros [= <-]. destruct (0 <? length entries)%nat; by intros [= <-].
  - intros [= <-]. by intros [= <-].
  - intros [= <-]. by intros [= <-].
  - intros [= <-]. by intros [= <-].
Qed.

Lemma sessionHistory_array s sessionId (body : ChatRequest ChatMessage)
    history :
  RequestSpec.arrayHistory body history →
  length_positive (default (HArray []) (req_history body))
  = Normal (0 <? length history)%nat ∧
  array_method "sessionHistory" "map"
    (if (0 <? length history)%nat
     then default (HArray []) (req_history body)
     else HArray (default [] (sessionStore s !! sessionId)))
  = Normal (baseHistory s sessionId history).
Proof.
  unfold RequestSpec.arrayHistory, baseHistory. intros ->. simpl.
  split; [done|]. by destruct (0 <? length history)%nat.
Qed.

(** The run of [POST] on a request that passes validation, whose
    history can be read, and whose search and generation both answer. *)
Lemma POST_completed_from W config req s body message sessionId positive base
    docResults response :
  json req = Normal body →
  req_message body = Some message → truthy message = true →
  req_sessionId body = Some sessionId → truthy sessionId = true →
  length_positive (default (HArray []) (req_history body))
  = Normal positive →
  array_method "sessionHistory" "map"
    (if positive then default (HArray []) (req_history body)
     else HArray (default [] (sessionStore s !! sessionId)))
  = Normal base →
  let search := searchArgs message (SupermemoryConfig.container (memory config)) in
  let documents := default [] docResults in
  let create :=
    createArgs config (buildMessages base (extractContext documents) message) in
  search_documents W (supermemory config) search = Normal docResults →
  anthropic_create W create = Normal response →
  POST W config req s =
    (Normal (Response_json
               (ChatJson (answerOf response) (Some (sliceFirst 3 documents))
                         sessionId None)),
     {| sessionStore :=
          <[sessionId :=
              truncate (base
                        ++ [{| role := user; content := message;
                               timestamp := Some (clock W (ticks s)) |};
                            {| role := assistant; content := answerOf response;
                               timestamp := Some (clock W (S (ticks s))) |}])]>
            (sessionStore s);
        calls := calls s ++ [SearchDocuments (supermemory config) search;
                             AnthropicCreate create];
        ticks := S (S (ticks s)) |}).
Proof.
  intros Hj Hm Htm Hs Hts Hpos Hmap search documents create Hsearch Hcreate.
  unfold POST, POST_try. async. rewrite Hj. simpl.
  rewrite Hm, Hs. simpl. rewrite Htm, Hts. simpl.
  rewrite Hpos. simpl.
  fold search. rewrite Hsearch. simpl.
  rewrite Hmap. simpl. fold documents create.
  rewrite Hcreate. simpl.
  by rewrite <- !app_assoc.
Qed.

(** The same for a request whose history is an array, or absent. *)
Lemma POST_completed W config req s body message sessionId history
    docResults response :
  json req = Normal body →
  req_message body = Some message → truthy message = true →
  req_sessionId body = Some sessionId → truthy sessionId = true →
  RequestSpec.arrayHistory body history →
  let base := baseHistory s sessionId history in
  let search := searchArgs message (SupermemoryConfig.container (memory config)) in
  let documents := default [] docResults in
  let create :=
    createArgs config (buildMessages base (extractContext documents) message) in
  search_documents W (supermemory config) search = Normal docResults →
  anthropic_create W create = Normal response →
  POST W config req s =
    (Normal (Response_json
               (ChatJson (answerOf response) (Some (sliceFirst 3 documents))
                         sessionId None)),
     {| sessionStore :=
          <[sessionId :=
              truncate (base
                        ++ [{| role := user; content := message;
                               timestamp := Some (clock W (ticks s)) |};
                            {| role := assistant; content := answerOf response;
                               timestamp := Some (clock W (S (ticks s))) |}])]>
            (sessionStore s);
        calls := calls s ++ [SearchDocuments (supermemory config) search;
                             AnthropicCreate create];
        ticks := S (S (ticks s)) |}).
Proof.
  intros Hj Hm Htm Hs Hts Hh base search documents create Hsearch Hcreate.
  destruct (sessionHistory_array s sessionId body history Hh) as [Hpos Hmap].
  by apply (POST_completed_from W config req s body message sessionId
              (0 <? length history)%nat base docResults response).
Qed.

Lemma newCalls_app s new st tk :
  RequestSpec.newCalls s {| sessionStore := st; calls := calls s ++ new;
                            ticks := tk |} = new.
Proof. unfold RequestSpec.newCalls. simpl. apply drop_app_length. Qed.




Lemma turnsOf_length exchanges :
  length (turnsOf exchanges) = (2 * length exchanges)%nat.
Proof. induction exchanges as [|x xs IH]; simpl; lia. Qed.

(** A conversation held by the server: the store has the last 20 of the
    turns exchanged so far. *)
Lemma converse_stored W config id msgs :
  Answers W → truthy id = true → Forall (fun m => truthy m = true) msgs →
  ∀ s turns0,
    default [] (sessionStore s !! id) = sliceLast 20 turns0 →
    ∃ exchanges,
      Forall2 isExchange msgs exchanges ∧
      default [] (sessionStore (converse W config id msgs s) !! id)
      = sliceLast 20 (turns0 ++ turnsOf exchanges).
Proof.
  intros [Hsearch Hcreate] Hid. induction 1 as [|m ms Hm _ IH]; intros s turns0 Hs.
  - exists []. split; [constructor|]. simpl. by rewrite app_nil_r.
  - simpl.
    destruct (Hsearch (supermemory config)
                (searchArgs m (SupermemoryConfig.container (memory config))))
      as [docResults Hd].
    set (base := baseHistory s id []).
    destruct (Hcreate (createArgs config
                (buildMessages base (extractContext (default [] docResults)) m)))
      as [response Hr].
    rewrite (POST_completed W config (ask id m) s _ m id [] docResults response
               eq_refl eq_refl Hm eq_refl Hid eq_refl Hd Hr).
    simpl. fold base.
    set (u := {| role := user; content := m;
                 timestamp := Some (clock W (ticks s)) |}).
    set (a := {| role := assistant; content := answerOf response;
                 timestamp := Some (clock W (S (ticks s))) |}).
    set (s1 := {| sessionStore := _; calls := _; ticks := _ |}).
    destruct (IH s1 (turns0 ++ [u; a])) as (exs & Hexs & Hstored).
    + unfold s1. simpl. rewrite lookup_insert_eq. simpl.
      rewrite truncate_sliceLast. unfold base, baseHistory. simpl.
      rewrite Hs. apply sliceLast_app_sliceLast.
    + exists ((u, a) :: exs). split.
      * constructor; [done|exact Hexs].
      * rewrite Hstored. simpl. by rewrite <- app_assoc.
Qed.

(** C6. The histories of the session store never exceed 20 messages, in
    any state the process can reach. Each run of the route leaves the
    store as it is or sets the session of the request to the last 20
    messages of its base history followed by the new user and assistant
    turns. And once a conversation held by the server has appended its
    turns, two per message sent, the stored history is the last 20 of
    them in their order: past 20 turns it has exactly 20 entries and what
    was lost is the oldest part. *)
Theorem session_history_capped W config sessionId messages :
  Answers W → truthy sessionId = true →
  Forall (fun m => truthy m = true) messages →
  (∀ s id h, Reachable W s → sessionStore s !! id = Some h →
             (length h ≤ 20)%nat) ∧
  (∀ req s,
     let s' := (POST W config req s).2 in
     sessionStore s' = sessionStore s ∨
     ∃ body id message exchange,
       json req = Normal body ∧ req_sessionId body = Some id ∧
       req_message body = Some message ∧ isExchange message exchange ∧
       sessionStore s'
       = <[id := sliceLast 20
                   (baseHistory s id (RequestSpec.historyEntries body)
                    ++ [exchange.1; exchange.2])]> (sessionStore s)) ∧
  ∃ exchanges,
    Forall2 isExchange messages exchanges ∧
    let turns := turnsOf exchanges in
    let stored :=
      default [] (sessionStore (converse W config sessionId messages
                                         initialState) !! sessionId) in
    stored = sliceLast 20 turns ∧
    (length stored ≤ 20)%nat ∧
    ((20 < length turns)%nat →
     length stored = 20%nat ∧
     turns = take (length turns - 20) turns ++ stored).
Proof.
  intros HW Hid Hmsgs. split; [|split].
  - intros s id h Hs Hh. by apply (Reachable_capped W s Hs id h).
  - intros req s. apply POST_store_exact.
  - destruct (converse_stored W config sessionId messages HW Hid Hmsgs
                initialState []) as (exs & Hexs & Hstored); [done|].
    exists exs. split; [exact Hexs|]. simpl in *. rewrite Hstored.
    split; [done|]. split; [apply sliceLast_length|].
    intros Hlong. rewrite <- truncate_sliceLast.
    by apply truncate_long.
Qed.

Lemma session_history_capped_witness :
  Answers friendly ∧
  ∃ exchanges,
    Forall2 isExchange (replicate 11 (lit "hi")) exchanges ∧
    length (default []
              (sessionStore (converse friendly manualConfig (lit "s1")
                               (replicate 11 (lit "hi")) initialState)
               !! lit "s1")) = 20%nat.
Proof.
  assert (HW : Answers friendly) by (split; intros; eexists; reflexivity).
  split; [exact HW|].
  destruct (session_history_capped friendly manualConfig (lit "s1")
              (replicate 11 (lit "hi")) HW eq_refl)
    as (_ & _ & exs & Hexs & Hstored & _ & Hlong).
  - repeat constructor.
  - exists exs. split; [exact Hexs|].
    apply Hlong. rewrite turnsOf_length.
    rewrite <- (Forall2_length _ _ _ Hexs). simpl. lia.
Defined.

End ManualFacts.

(* ===================================================================== *)
(** * The Memory Router handler *)
(* ===================================================================== *)

Module RouterFacts.
Import Retrieval Providers MemoryRouter Examples RequestSpec.

(** The headers do not depend on the provider. *)
Lemma getProviderModel_headers config pm :
  getProviderModel config = Normal pm → pm_headers pm = headers config.
Proof.
  unfold getProviderModel.
  repeat (case_match; simpl); by intros [= <-].
Qed.

(** C2. The header [x-sm-user-id] of the Memory Router handler is the
    quoted text of the expression and not its value: with the container
    'portfolio', the model handed to [streamText] carries
    'config.supermemoryContainer', which is not the container. *)
Theorem user_id_header_is_literal :
  let config := routerConfig "anthropic" true in
  ∃ a s',
    (POST friendly config (chat (lit "hi") []) initialState).2 = s' ∧
    calls s' = [StreamText a] ∧
    own (pm_headers (st_model a)) (lit "x-sm-user-id")
    = Some (lit "config.supermemoryContainer") ∧
    lit "config.supermemoryContainer" ≠ supermemoryContainer config.
Proof.
  simpl. eexists _, _. split; [reflexivity|].
  split; [reflexivity|]. split; [reflexivity|]. discriminate.
Qed.

Lemma read_length_not_null {H} (body : ChatRequest H) :
  historyNotNull body →
  read_length (default (HArray []) (req_history body)) = Normal tt.
Proof.
  unfold historyNotNull. by destruct (req_history body) as [[| |]|].
Qed.

Lemma read_length_array {H} (body : ChatRequest H) history :
  arrayHistory body history →
  read_length (default (HArray []) (req_history body)) = Normal tt.
Proof. unfold arrayHistory. by intros ->. Qed.

Lemma array_method_array {H} (body : ChatRequest H) history name method :
  arrayHistory body history →
  array_method name method (default (HArray []) (req_history body))
  = Normal history.
Proof. unfold arrayHistory. by intros ->. Qed.

(** A request with a blank message, and a history that is not [null], is
    answered 400 before any call. *)
Lemma router_POST_blank W config req body s :
  json req = Normal body → historyNotNull body → blankMessage body →
  ∃ error, POST W config req s = (Normal (badRequest error), s).
Proof.
  intros Hj Hh Hb. unfold POST, POST_try. async. rewrite Hj. simpl.
  rewrite (read_length_not_null body Hh). simpl.
  destruct (negb (truthy_opt (req_message body))
            || negb (truthy_opt (req_sessionId body))) eqn:E; simpl.
  - by eexists.
  - unfold blankMessage in Hb. rewrite Hb. simpl. by eexists.
Qed.

(** Buffered mode: a text that is empty once trimmed is answered with
    the diagnostic and the error flag, status 200. *)
Lemma POST_empty_text W config req body message sessionId history pm result
    text s :
  json req = Normal body → wellFormed body message sessionId →
  arrayHistory body history →
  streaming_ config = false →
  getProviderModel config = Normal pm →
  let args := {| st_model := pm; st_system := systemPrompt_ config;
                 st_messages := buildMessages history message;
                 st_temperature := temperature_ config |} in
  stream_text W args = Normal result →
  fullText result = Normal text → trim text = [] →
  POST W config req s =
    (Normal {| resp_status := 200;
               resp_body :=
                 ChatJson emptyResponseAnswer None sessionId
                          (Some (lit "Empty response from LLM")) |},
     {| sessionStore := sessionStore s;
        calls := calls s ++ [StreamText args];
        ticks := ticks s |}).
Proof.
  intros Hj (Hm & Hnb & Hs & Hsid) Hh Hstr Hpm args Hst Hft Htrim.
  unfold POST, POST_try. async. rewrite Hj. simpl.
  rewrite (read_length_array body history Hh). simpl. rewrite Hm, Hs. simpl.
  rewrite (trim_nonblank_truthy _ Hnb).
  apply truthy_nonempty in Hsid. rewrite Hsid. simpl.
  destruct (length (trim message) =? 0)%nat eqn:E.
  { apply trim_blank_length in E. done. }
  rewrite (array_method_array body history _ _ Hh). simpl.
  rewrite Hpm, Hstr. simpl. fold args. rewrite Hst. simpl. rewrite Hft.
  simpl. rewrite Htrim. simpl. by rewrite orb_true_r.
Qed.

Lemma emptyResponseAnswer_nonempty : emptyResponseAnswer ≠ [].
Proof. discriminate. Qed.

(** The filter of the Memory Router route is idempotent. *)
Lemma filterHistory_idemp history :
  filterHistory (filterHistory history) = filterHistory history.
Proof.
  unfold filterHistory. induction history as [|msg h IH]; simpl; [done|].
  destruct (truthy (content msg)
            && (0 <? length (trim (content msg)))%nat) eqn:E; simpl; [|done].
  apply andb_prop in E as [_ Hpos]. rewrite trim_idemp, Hpos.
  assert (truthy (trim (content msg)) = true) as ->.
  { apply truthy_nonempty. by apply length_pos_nonempty. }
  simpl. by rewrite trim_idemp, IH.
Qed.

Lemma own_absent key :
  key ∉ supported → own MEMORY_ROUTER_URLS key = None.
Proof.
  unfold supported. rewrite !not_elem_of_cons. intros (?&?&?&?&?&_).
  simpl. by rewrite !bool_decide_eq_false_2.
Qed.

(** C9, as [createPortfolioHandler] has it. With the three required
    fields present, a provider name outside the supported five, and
    outside the names every object inherits from [Object.prototype], makes
    the construction of the Memory Router handler fail, before any
    request, with an error that gives the name and the supported ones.
    When a required field is missing the construction fails with the
    error of that field instead, whatever the provider: of the LLM API
    key first, then of the API key of the memory service, then of the
    container. *)
Theorem createPortfolioHandler_unsupported W config :
  (llmApiKey config ≠ [] → supermemoryApiKey config ≠ [] →
   supermemoryContainer config ≠ [] →
   llmProvider config ∉ supported →
   llmProvider config ∉ Object_prototype_names →
   createPortfolioHandler W config =
     Throw (Error (lit "Unsupported LLM provider: " ++ llmProvider config
                   ++ lit ". Supported: anthropic, openai, groq, openrouter, google"))) ∧
  (llmApiKey config = [] →
   createPortfolioHandler W config =
     Throw (Error (lit "LLM API key is required"))) ∧
  (llmApiKey config ≠ [] → supermemoryApiKey config = [] →
   createPortfolioHandler W config =
     Throw (Error (lit "Supermemory API key is required"))) ∧
  (llmApiKey config ≠ [] → supermemoryApiKey config ≠ [] →
   supermemoryContainer config = [] →
   createPortfolioHandler W config =
     Throw (Error (lit "Supermemory container is required"))).
Proof.
  unfold createPortfolioHandler. repeat split.
  - intros Hk Hsk Hc Hp Hproto.
    apply truthy_nonempty in Hk, Hsk, Hc. rewrite Hk, Hsk, Hc. simpl.
    unfold baseURL, get. rewrite own_absent by done.
    by rewrite bool_decide_eq_false_2.
  - by intros ->.
  - intros Hk ->. apply truthy_nonempty in Hk. by rewrite Hk.
  - intros Hk Hsk ->. apply truthy_nonempty in Hk, Hsk. by rewrite Hk, Hsk.
Qed.

Lemma createPortfolioHandler_unsupported_witness :
  createPortfolioHandler friendly (routerConfig "mistral" true) =
    Throw (Error (lit "Unsupported LLM provider: mistral. Supported: anthropic, openai, groq, openrouter, google")) ∧
  createPortfolioHandler friendly (keylessConfig "mistral") =
    Throw (Error (lit "LLM API key is required")).
Proof.
  split.
  - apply (proj1 (createPortfolioHandler_unsupported friendly
                    (routerConfig "mistral" true))); try discriminate.
    + unfold supported. rewrite !not_elem_of_cons.
      repeat split; try discriminate. apply not_elem_of_nil.
    + unfold Object_prototype_names. rewrite !not_elem_of_cons.
      repeat split; try discriminate. apply not_elem_of_nil.
  - apply (proj1 (proj2 (createPortfolioHandler_unsupported friendly
                           (keylessConfig "mistral")))).
    reflexivity.
Defined.

End RouterFacts.

(* ===================================================================== *)
(** * The backend handler *)
(* ===================================================================== *)

Module BackendFacts.
Import Retrieval Providers Backend BackendSpec Examples RequestSpec.

(** ** The history filter *)

Lemma parseRole_roleName r : parseRole (roleName r) = Some r.
Proof. by destruct r. Qed.

Lemma keep_asEntry m : stable m → keep (asEntry m) = true.
Proof.
  intros [Htrim Hne]. destruct m as [r c]. simpl in *.
  apply truthy_nonempty in Hne as Ht. rewrite Ht. simpl.
  rewrite Htrim.
  assert ((0 <? length c)%nat = true) as -> by by apply length_pos_nonempty.
  by destruct r.
Qed.

Lemma convert_asEntry m : stable m → convert (asEntry m) = Some m.
Proof.
  intros [Htrim _]. destruct m as [r c]. unfold convert. simpl in *.
  rewrite parseRole_roleName. simpl. by rewrite Htrim.
Qed.

Lemma convert_stable entry m :
  keep entry = true → convert entry = Some m → stable m.
Proof.
  destruct entry as [msg|]; [|done]. unfold convert. simpl.
  destruct (negb (truthy_content (raw_content msg))); [done|].
  destruct (negb (streq (raw_role msg) "user") && _ && _); [done|].
  intros Hpos. destruct (parseRole (raw_role msg)) as [r|]; [|done].
  simpl. intros [= <-]. split; simpl.
  - apply trim_idemp.
  - by apply length_pos_nonempty.
Qed.

Lemma processHistory_cons entry history :
  processHistory (entry :: history) =
  if keep entry
  then match convert entry with
       | Some m => m :: processHistory history
       | None => processHistory history
       end
  else processHistory history.
Proof.
  unfold processHistory at 1.
  change (List.filter keep (entry :: history))
    with (if keep entry then entry :: List.filter keep history
          else List.filter keep history).
  destruct (keep entry); [|done].
  change (omap convert (entry :: List.filter keep history))
    with (match convert entry with
          | Some m => m :: omap convert (List.filter keep history)
          | None => omap convert (List.filter keep history)
          end).
  done.
Qed.

Lemma processHistory_stable history : Forall stable (processHistory history).
Proof.
  induction history as [|entry h IH]; [constructor|].
  rewrite processHistory_cons.
  destruct (keep entry) eqn:K; [|done].
  destruct (convert entry) as [m|] eqn:C; [|done].
  constructor; [by eapply convert_stable|done].
Qed.

(** A processed history read again as a history passes the filter
    unchanged. *)
Lemma processHistory_fixpoint processed :
  Forall stable processed →
  processHistory (List.map asEntry processed) = processed.
Proof.
  induction 1 as [|m l Hm _ IH]; [done|].
  change (List.map asEntry (m :: l)) with (asEntry m :: List.map asEntry l).
  rewrite processHistory_cons, keep_asEntry, convert_asEntry by done.
  by rewrite IH.
Qed.

(** C8. Filtering a history that was already filtered gives the same
    sequence. For the backend handler, whose filter drops the nullish
    entries, those with an empty or blank content and those whose role is
    not user, assistant or system, and flattens the content to a trimmed
    string: the objects it builds, read again as history entries, pass it
    unchanged. For the Memory Router handler, whose filter drops the
    entries with an empty or blank content and trims the others: the
    same. *)
Theorem history_filter_idempotent :
  (∀ history : list HistoryEntry,
     processHistory (List.map asEntry (processHistory history))
     = processHistory history) ∧
  (∀ history : list ChatMessage,
     MemoryRouter.filterHistory (MemoryRouter.filterHistory history)
     = MemoryRouter.filterHistory history).
Proof.
  split.
  - intros history. apply processHistory_fixpoint, processHistory_stable.
  - apply RouterFacts.filterHistory_idemp.
Qed.

(** ** Validation *)

(** A request with a blank message is answered 400 before any call. *)
Lemma backend_POST_blank W config req body s :
  json req = Normal body → blankMessage body →
  ∃ error, POST W config req s = (Normal (badRequest error), s).
Proof.
  intros Hj Hb. unfold POST, POST_try. async. rewrite Hj. simpl.
  destruct (negb (truthy_opt (req_message body))
            || negb (truthy_opt (req_sessionId body))) eqn:E; simpl.
  - by eexists.
  - unfold blankMessage in Hb. rewrite Hb. simpl. by eexists.
Qed.

(** ** The OpenRouter branch *)

(** The user turn starts with a letter, so trimming it leaves text. *)
Lemma userTurn_head context message :
  ∃ c rest, userTurn context message = c :: rest ∧ isWhiteSpace c = false.
Proof.
  unfold userTurn, contextPrompt, fallbackPrompt.
  destruct (truthy context); simpl; eexists _, _; split; reflexivity.
Qed.

Lemma trim_userTurn_nonempty context message :
  trim (userTurn context message) ≠ [].
Proof.
  destruct (userTurn_head context message) as (c & rest & -> & Hc).
  unfold trim. simpl. rewrite Hc. by rewrite trimEnd_cons.
Qed.



Lemma systemEntry_stable processed :
  Forall stable processed →
  match List.find (isRole RSystem) processed with
  | Some m =>
      if (0 <? length (trim (m_content m)))%nat
      then [{| m_role := RSystem; m_content := trim (m_content m) |}]
      else []
  | None => []
  end = systemEntry processed.
Proof.
  intros Hst. unfold systemEntry.
  destruct (List.find (isRole RSystem) processed) as [m|] eqn:F; [|done].
  apply find_some in F as [Hin Hrole].
  rewrite Forall_forall in Hst. apply list_elem_of_In, Hst in Hin.
  destruct Hin as [Htrim Hne]. rewrite Htrim.
  assert ((0 <? length (m_content m))%nat = true) as ->
    by by apply length_pos_nonempty.
  destruct m as [[] c]; done.
Qed.

Lemma find_snoc_user processed x :
  m_role x = RUser →
  List.find (isRole RSystem) (processed ++ [x])
  = List.find (isRole RSystem) processed.
Proof.
  intros Hx. induction processed as [|m l IH]; simpl.
  - unfold isRole. by rewrite Hx.
  - by rewrite IH.
Qed.

Lemma last_user_snoc processed x :
  m_role x = RUser →
  last (List.filter (isRole RUser) (processed ++ [x])) = Some x.
Proof.
  intros Hx. rewrite List.filter_app.
  assert (List.filter (isRole RUser) [x] = [x]) as ->.
  { simpl. unfold isRole. by rewrite Hx. }
  apply last_snoc.
Qed.

(** The OpenRouter branch on a processed history followed by the user
    turn: the first system entry of the history, if any, then the turn,
    trimmed. *)
Lemma simplifyForOpenRouter_shape processed x :
  Forall stable processed → m_role x = RUser → trim (m_content x) ≠ [] →
  simplifyForOpenRouter (processed ++ [x])
  = systemEntry processed
    ++ [{| m_role := RUser; m_content := trim (m_content x) |}].
Proof.
  intros Hst Hx Hne. unfold simplifyForOpenRouter.
  rewrite last_user_snoc, find_snoc_user by done.
  rewrite systemEntry_stable by done.
  assert (truthy (trim (m_content x)) = true) as ->
    by by apply truthy_nonempty.
  assert ((0 <? length (trim (m_content x)))%nat = true) as ->
    by by apply length_pos_nonempty.
  done.
Qed.

Lemma buildMessages_openrouter config history context message :
  llmProvider config = lit "openrouter" →
  buildMessages config history context message
  = systemEntry (processHistory history)
    ++ [{| m_role := RUser; m_content := trim (userTurn context message) |}].
Proof.
  intros Hp. unfold buildMessages. rewrite Hp.
  change (streq (lit "openrouter") "openrouter") with true. cbv iota.
  rewrite simplifyForOpenRouter_shape; [done| |done|].
  - apply processHistory_stable.
  - apply trim_userTurn_nonempty.
Qed.

Lemma systemEntry_length processed : (length (systemEntry processed) ≤ 1)%nat.
Proof. unfold systemEntry. destruct (List.find _ _); simpl; lia. Qed.

(** A history of well-typed messages has no system entry. *)
Lemma systemEntry_typed (typed : list ChatMessage) :
  systemEntry (processHistory (List.map ofChatMessage typed)) = [].
Proof.
  unfold systemEntry.
  destruct (List.find _ _) as [m|] eqn:F; [|done].
  apply find_some in F as [Hin Hrole]. exfalso.
  induction typed as [|msg l IH]; [done|].
  change (List.map ofChatMessage (msg :: l))
    with (ofChatMessage msg :: List.map ofChatMessage l) in Hin.
  rewrite processHistory_cons in Hin.
  destruct (keep (ofChatMessage msg)); [|auto].
  unfold convert in Hin. simpl in Hin.
  rewrite parseRole_roleName in Hin. simpl in Hin.
  destruct Hin as [<-|Hin]; [|auto].
  by destruct msg as [[] c t].
Qed.

(** ** The log of a run *)



(** Whatever the request, a run logs nothing, the search alone, or the
    search and one [streamText] on the messages built for the body. *)
Lemma POST_log W config req s :
  let new := newCalls s (POST W config req s).2 in
  Forall (fun ev => isGeneration ev = false) new ∨
  ∃ body search a context,
    json req = Normal body ∧ new = [search; StreamText a] ∧
    isSearch search = true ∧
    st_messages a
    = buildMessages config (historyEntries body) context
        (default [] (req_message body)).
Proof.
  unfold POST, POST_try, newCalls, historyEntries. async.
  destruct (json req) as [body|e]; simpl.
  2: { left. rewrite drop_all. constructor. }
  destruct (negb (truthy_opt (req_message body))
            || negb (truthy_opt (req_sessionId body))); simpl.
  { left. rewrite drop_all. constructor. }
  destruct (length (trim (default [] (req_message body))) =? 0)%nat; simpl.
  { left. rewrite drop_all. constructor. }
  destruct (search_documents W _ _) as [docResults|e]; simpl.
  2: { left. rewrite drop_app_length. by repeat constructor. }
  destruct (req_history body) as [[entries| |positive]|] eqn:Hh; simpl;
    try (left; rewrite drop_app_length; by repeat constructor).
  all: destruct (getProviderModel config) as [pm|e]; simpl.
  all: try (left; rewrite drop_app_length; by repeat constructor).
  all: right; exists body; rewrite Hh.
  all:
  destruct (streaming_ config); simpl;
    destruct (stream_text W _) as [result|e]; simpl;
    try destruct (fullText result); simpl;
    rewrite <- ?app_assoc, drop_app_length;
    eexists _, _, _; (split; [reflexivity|]); (split; [reflexivity|]);
    split; reflexivity.
Qed.

(** ** Retrieval failures *)



End BackendFacts.

(* ===================================================================== *)
(** * The streaming loop of the chat widget *)
(* ===================================================================== *)

Module AutoChatFacts.
Import AutoChat AutoChatSpec.

Lemma setLast_snoc l x entry : setLast (l ++ [x]) entry = l ++ [entry].
Proof.
  unfold setLast. rewrite length_app. simpl.
  replace (length l + 1 - 1)%nat with (length l + 0)%nat by lia.
  by rewrite insert_app_r.
Qed.

Lemma inProgress_setLast prev entry :
  prev ≠ [] → inProgress (setLast prev entry) = Some (content entry).
Proof.
  intros Hne. destruct (exists_last Hne) as (l & x & ->).
  rewrite setLast_snoc. unfold inProgress. by rewrite last_snoc.
Qed.

Lemma setLast_nonempty prev entry : prev ≠ [] → setLast prev entry ≠ [].
Proof.
  intros Hne. destruct (exists_last Hne) as (l & x & ->).
  rewrite setLast_snoc. by destruct l.
Qed.

Lemma onChunk_synced clock st chunk :
  messages st ≠ [] →
  synced (onChunk clock st chunk) ∧ messages (onChunk clock st chunk) ≠ [].
Proof.
  intros Hne. unfold synced, onChunk. simpl.
  split; [by apply inProgress_setLast|by apply setLast_nonempty].
Qed.

Lemma readLoop_rendered clock chunks :
  ∀ st, messages st ≠ [] →
    List.map (fun st => inProgress (messages st)) (readLoop clock st chunks)
    = List.map Some (prefixesFrom (streamedContent st) chunks).
Proof.
  induction chunks as [|chunk rest IH]; intros st Hne; simpl; [done|].
  destruct (onChunk_synced clock st chunk Hne) as [Hs Hne'].
  rewrite IH by done. by rewrite Hs.
Qed.

Lemma afterLoop_content clock chunks :
  ∀ st, streamedContent (afterLoop clock st chunks)
        = streamedContent st ++ concat chunks.
Proof.
  unfold afterLoop.
  induction chunks as [|chunk rest IH]; intros st; simpl.
  - by rewrite app_nil_r.
  - rewrite IH. simpl. by rewrite <- app_assoc.
Qed.

Lemma afterLoop_synced clock chunks :
  ∀ st, messages st ≠ [] → synced st →
    synced (afterLoop clock st chunks)
    ∧ messages (afterLoop clock st chunks) ≠ [].
Proof.
  unfold afterLoop.
  induction chunks as [|chunk rest IH]; intros st Hne Hs; simpl; [done|].
  destruct (onChunk_synced clock st chunk Hne) as [Hs' Hne'].
  by apply IH.
Qed.

Lemma finalUpdate_synced clock st :
  messages st ≠ [] → synced st →
  inProgress (finalUpdate clock st) = Some (streamedContent st).
Proof.
  intros Hne Hs. unfold finalUpdate.
  destruct (truthy (streamedContent st)); [|exact Hs].
  by rewrite inProgress_setLast.
Qed.

Lemma beginTurn_nonempty messages message t1 t2 :
  beginTurn messages message t1 t2 ≠ [].
Proof. unfold beginTurn. by destruct messages. Qed.

Lemma inProgress_beginTurn messages message t1 t2 :
  inProgress (beginTurn messages message t1 t2) = Some thinkingIndicator.
Proof.
  unfold inProgress, beginTurn.
  change [?u; ?t] with ([u] ++ [t]). by rewrite app_assoc, last_snoc.
Qed.

(** C7, as the widget has it. After each chunk, in arrival order, the
    message in progress shows the text accumulated so far, so the states
    shown are the prefixes of the answer cut at the chunk boundaries; and
    when the stream ends after at least one chunk the message shows the
    concatenation of all the chunks. When the stream ends without any
    chunk, nothing was shown in between and the message keeps the
    thinking indicator. *)
Theorem streaming_accumulates clock messages message t1 t2 chunks :
  let history := beginTurn messages message t1 t2 in
  renderedStates clock history chunks = List.map Some (prefixes chunks) ∧
  inProgress (streamInto clock history chunks)
  = Some (match chunks with
          | [] => thinkingIndicator
          | _ :: _ => concat chunks
          end).
Proof.
  intros history. split.
  - unfold renderedStates, prefixes.
    by rewrite readLoop_rendered by apply beginTurn_nonempty.
  - unfold streamInto. destruct chunks as [|chunk rest].
    + simpl. unfold finalUpdate. simpl. apply inProgress_beginTurn.
    + pose proof (beginTurn_nonempty messages message t1 t2) as Hne.
      destruct (onChunk_synced clock (startLoop history) chunk Hne)
        as [Hs Hne'].
      destruct (afterLoop_synced clock rest _ Hne' Hs) as [Hs2 Hne2].
      change (afterLoop clock (startLoop history) (chunk :: rest))
        with (afterLoop clock (onChunk clock (startLoop history) chunk) rest).
      rewrite finalUpdate_synced by done.
      by rewrite afterLoop_content.
Qed.

(** The example of the specification. *)
Example streaming_hello_world clock :
  renderedStates clock (beginTurn [] (lit "hi") 0 0)
                 [lit "Hel"; lit "lo wo"; lit "rld"]
  = [Some (lit "Hel"); Some (lit "Hello wo"); Some (lit "Hello world")].
Proof. reflexivity. Qed.

(** A stream that ends before any chunk leaves the thinking indicator on
    screen, which is not the concatenation of no chunk. *)
Lemma empty_stream_keeps_indicator :
  inProgress (streamInto (fun n => N.of_nat n)
                         (beginTurn [] (lit "hi") 0 0) [])
  = Some thinkingIndicator ∧
  thinkingIndicator ≠ concat [].
Proof. split; [reflexivity|discriminate]. Qed.

End AutoChatFacts.

(* ===================================================================== *)
(** * Properties across the handlers *)
(* ===================================================================== *)

Module PipelineFacts.
Import Retrieval Providers Examples RequestSpec BackendSpec.

(** ** Retrieval failures *)




(** ** Validation *)

(** C3. A message made of blanks passes the validation of the Manual
    RAG handler, which only tests [!message]: the request is answered 200
    after a search and a call to Claude. (The Memory Router and backend
    routes answer 400 before any call: [RouterFacts.router_POST_blank],
    [BackendFacts.backend_POST_blank].) *)
Theorem manual_accepts_blank_message :
  let run :=
    ManualRAG.POST friendly manualConfig (chat (lit "   ") []) initialState in
  trim (lit "   ") = [] ∧
  run.1 = Normal {| resp_status := 200;
                    resp_body := ChatJson (lit "ok") (Some []) (lit "s1") None |} ∧
  ∃ search create,
    calls run.2 = [search; create] ∧
    isSearch search = true ∧ isGeneration create = true.
Proof.
  simpl. split; [reflexivity|]. split; [reflexivity|].
  eexists _, _. split; [reflexivity|]. split; reflexivity.
Qed.

(** ** Empty generations *)

(** C4. In buffered mode the backend handler returns the generated text
    as it is: a generation that yields no text is answered 200 with an
    empty answer and no error field. (The Memory Router route answers
    with the diagnostic and the error flag: [RouterFacts.POST_empty_text].) *)
Theorem backend_returns_empty_answer :
  (Backend.POST silent (routerConfig "anthropic" false)
     (chat (lit "hi") []) initialState).1
  = Normal {| resp_status := 200;
              resp_body := ChatJson [] None (lit "s1") None |}.
Proof. reflexivity. Qed.

(** ** The OpenRouter branch *)

(** C5, as the backend handler has it. Configured with 'openrouter', the
    backend route hands to [streamText] at most two messages, whatever
    the history: the first system entry of the filtered history when
    there is one, then the current user turn, trimmed, with its context
    framing. No user or assistant entry of the history is sent, and for a
    history of well-typed chat messages the user turn is sent alone. *)
Theorem openrouter_backend_sends_current_turn W config req s a :
  llmProvider config = lit "openrouter" →
  StreamText a ∈ newCalls s (Backend.POST W config req s).2 →
  ∃ body context,
    json req = Normal body ∧
    let history := historyEntries body in
    let message := default [] (req_message body) in
    let turn := {| m_role := RUser;
                   m_content := trim (userTurn context message) |} in
    st_messages a = systemEntry (Backend.processHistory history) ++ [turn] ∧
    (length (st_messages a) ≤ 2)%nat ∧
    (∀ typed, history = List.map Backend.ofChatMessage typed →
              st_messages a = [turn]).
Proof.
  intros Hp Hin.
  destruct (BackendFacts.POST_log W config req s)
    as [Hnone|(body & search & a' & context & Hj & Hnew & Hsearch & Hmsgs)].
  - rewrite Forall_forall in Hnone. by apply Hnone in Hin.
  - rewrite Hnew in Hin.
    apply elem_of_cons in Hin as [<-|Hin]; [done|].
    apply list_elem_of_singleton in Hin as [= <-].
    exists body, context. split; [exact Hj|]. simpl.
    rewrite Hmsgs, BackendFacts.buildMessages_openrouter by done.
    split; [done|]. split.
    + rewrite length_app. simpl.
      pose proof (BackendFacts.systemEntry_length
                    (Backend.processHistory (historyEntries body))).
      lia.
    + intros typed ->. by rewrite BackendFacts.systemEntry_typed.
Qed.

Lemma openrouter_backend_sends_current_turn_witness :
  ∃ a,
    newCalls initialState
      (Backend.POST friendly (routerConfig "openrouter" true)
         (chat (lit "hello") (List.map Backend.ofChatMessage fiveTurns))
         initialState).2
    = [SearchDocuments
         (Backend.supermemory (routerConfig "openrouter" true))
         (searchArgs (lit "hello") (lit "portfolio"));
       StreamText a] ∧
    st_messages a
    = [{| m_role := RUser; m_content := userTurn [] (lit "hello") |}].
Proof.
  eexists. split; [reflexivity|].
  destruct (openrouter_backend_sends_current_turn friendly
              (routerConfig "openrouter" true)
              (chat (lit "hello") (List.map Backend.ofChatMessage fiveTurns))
              initialState _ eq_refl
              (list_elem_of_further _ _ _ (list_elem_of_here _ _)))
    as (body & context & Hj & _ & _ & Htyped).
  reflexivity.
Defined.

(** Two requests under 'openrouter' whose history is not dropped. The
    Memory Router handler has no OpenRouter branch: a request with five
    earlier turns hands six messages to [streamText]. The backend handler
    keeps the first system entry of the history next to the user turn. *)
Lemma openrouter_history_not_always_dropped :
  (∃ a,
     calls (MemoryRouter.POST friendly (routerConfig "openrouter" true)
              (chat (lit "hello") fiveTurns) initialState).2
     = [StreamText a] ∧
     length (st_messages a) = 6%nat ∧
     List.map toMessage fiveTurns `prefix_of` st_messages a) ∧
  (∃ search a,
     calls (Backend.POST friendly (routerConfig "openrouter" true)
              (chat (lit "hello") systemHistory) initialState).2
     = [search; StreamText a] ∧
     st_messages a
     = [{| m_role := RSystem; m_content := lit "be brief" |};
        {| m_role := RUser; m_content := userTurn [] (lit "hello") |}]).
Proof.
  split.
  - eexists. split; [reflexivity|]. split; [reflexivity|]. by eexists.
  - eexists _, _. split; reflexivity.
Qed.

(** ** Unsupported providers *)

(** [createBackendHandler] does not look at the provider: with the
    three required fields present and the provider 'mistral' it returns
    its handler, and the name is refused only when a request reaches the
    choice of the model, after the search, with a 500 response whose
    message does not list the supported providers. *)
Lemma backend_accepts_unsupported_provider :
  let config := routerConfig "mistral" true in
  (llmProvider config ∉ supported) ∧
  (∃ handler, Backend.createBackendHandler friendly config = Normal handler) ∧
  let run := Backend.POST friendly config (chat (lit "hi") []) initialState in
  run.1 = Normal {| resp_status := 500;
                    resp_body := ErrorJson (lit "Unsupported provider: mistral") |} ∧
  ∃ search, calls run.2 = [search] ∧ isSearch search = true.
Proof.
  simpl. split.
  - unfold supported. rewrite !not_elem_of_cons.
    repeat split; try discriminate. apply not_elem_of_nil.
  - split; [by eexists|]. split; [reflexivity|by eexists].
Qed.

(** Three configs with a provider outside the supported five whose
    construction does not end with the unsupported-provider error: the
    Memory Router handler without LLM API key fails on the key; the
    backend handler is built; the Memory Router handler is built for a
    name that [MEMORY_ROUTER_URLS] inherits. *)
Lemma unsupported_provider_not_always_refused :
  MemoryRouter.createPortfolioHandler friendly (keylessConfig "mistral")
  = Throw (Error (lit "LLM API key is required")) ∧
  (∃ handler,
     Backend.createBackendHandler friendly (routerConfig "mistral" true)
     = Normal handler) ∧
  (∃ handler,
     MemoryRouter.createPortfolioHandler friendly
       (routerConfig "constructor" true)
     = Normal handler) ∧
  (lit "mistral" ∉ supported) ∧ (lit "constructor" ∉ supported).
Proof.
  split; [reflexivity|]. split; [by eexists|]. split; [by eexists|].
  unfold supported. rewrite !not_elem_of_cons.
  repeat split; try discriminate; apply not_elem_of_nil.
Qed.

End PipelineFacts.

(* ===================================================================== *)
(** * The chat widget: session, [sendMessage], [ChatInput] *)
(* ===================================================================== *)

Module WidgetFacts.
Import Widget WidgetSpec.

(** Streaming into a transcript rewrites its last entry and nothing
    else. *)
Lemma afterLoop_snoc clock pre chunks :
  ∀ st e, AutoChat.messages st = pre ++ [e] →
    ∃ e', AutoChat.messages (AutoChat.afterLoop clock st chunks) = pre ++ [e'].
Proof.
  unfold AutoChat.afterLoop.
  induction chunks as [|chunk rest IH]; intros st e Hst; simpl; [by eexists|].
  apply (IH _ {| role := assistant;
                 content := AutoChat.streamedContent st ++ chunk;
                 timestamp := Some (clock (S (AutoChat.chunkCount st))) |}).
  simpl. rewrite Hst. apply AutoChatFacts.setLast_snoc.
Qed.

Lemma streamInto_snoc clock pre x chunks :
  ∃ y, AutoChat.streamInto clock (pre ++ [x]) chunks = pre ++ [y].
Proof.
  unfold AutoChat.streamInto.
  destruct (afterLoop_snoc clock pre chunks
              (AutoChat.startLoop (pre ++ [x])) x eq_refl) as [e He].
  unfold AutoChat.finalUpdate. rewrite He.
  destruct (truthy _); [|by eexists].
  rewrite AutoChatFacts.setLast_snoc. by eexists.
Qed.

(** The same streaming loop run on a longer transcript. *)
Lemma afterLoop_prefix clock pre chunks :
  ∀ st st', AutoChat.messages st' = pre ++ AutoChat.messages st →
    AutoChat.messages st ≠ [] →
    AutoChat.streamedContent st' = AutoChat.streamedContent st →
    AutoChat.chunkCount st' = AutoChat.chunkCount st →
    let r := AutoChat.afterLoop clock st chunks in
    let r' := AutoChat.afterLoop clock st' chunks in
    AutoChat.messages r' = pre ++ AutoChat.messages r ∧
    AutoChat.messages r ≠ [] ∧
    AutoChat.streamedContent r' = AutoChat.streamedContent r ∧
    AutoChat.chunkCount r' = AutoChat.chunkCount r.
Proof.
  unfold AutoChat.afterLoop.
  induction chunks as [|chunk rest IH]; intros st st' Hm Hne Hs Hc; simpl;
    [done|].
  apply IH; simpl; try congruence.
  - destruct (exists_last Hne) as (l & x & Hl).
    rewrite Hm, Hl, app_assoc, !AutoChatFacts.setLast_snoc, Hs, Hc.
    by rewrite app_assoc.
  - by apply AutoChatFacts.setLast_nonempty.
Qed.

Lemma streamInto_prefix clock pre history chunks :
  history ≠ [] →
  AutoChat.streamInto clock (pre ++ history) chunks
  = pre ++ AutoChat.streamInto clock history chunks.
Proof.
  intros Hne. unfold AutoChat.streamInto.
  destruct (afterLoop_prefix clock pre chunks (AutoChat.startLoop history)
              (AutoChat.startLoop (pre ++ history)) eq_refl Hne eq_refl eq_refl)
    as (Hm & Hne' & Hs & Hc).
  unfold AutoChat.finalUpdate. rewrite Hs, Hc, Hm.
  destruct (truthy _); [|done].
  destruct (exists_last Hne') as (l & x & ->).
  by rewrite app_assoc, !AutoChatFacts.setLast_snoc, app_assoc.
Qed.

(** The entry rewritten by the loop is an assistant entry that shows the
    text accumulated. *)
Lemma afterLoop_last clock pre chunks :
  ∀ st e, AutoChat.messages st = pre ++ [e] →
    role e = assistant → content e = AutoChat.streamedContent st →
    ∃ e', AutoChat.messages (AutoChat.afterLoop clock st chunks) = pre ++ [e']
          ∧ role e' = assistant
          ∧ content e' = AutoChat.streamedContent
                           (AutoChat.afterLoop clock st chunks).
Proof.
  unfold AutoChat.afterLoop.
  induction chunks as [|chunk rest IH]; intros st e Hst Hr Hc; simpl;
    [by exists e|].
  apply (IH _ {| role := assistant;
                 content := AutoChat.streamedContent st ++ chunk;
                 timestamp := Some (clock (S (AutoChat.chunkCount st))) |});
    [|done|done].
  simpl. rewrite Hst. apply AutoChatFacts.setLast_snoc.
Qed.

(** The streaming branch as a whole: the entries before the last one
    stay, and the last one is left alone by an empty stream and otherwise
    becomes an assistant entry with the whole text. *)
Lemma streamInto_shape clock pre x chunks :
  ∃ y, AutoChat.streamInto clock (pre ++ [x]) chunks = pre ++ [y] ∧
       match chunks with
       | [] => y = x
       | _ :: _ => role y = assistant ∧ content y = concat chunks
       end.
Proof.
  unfold AutoChat.streamInto. destruct chunks as [|chunk rest].
  - exists x. by split.
  - change (AutoChat.afterLoop clock (AutoChat.startLoop (pre ++ [x]))
              (chunk :: rest))
      with (AutoChat.afterLoop clock
              (AutoChat.onChunk clock (AutoChat.startLoop (pre ++ [x])) chunk)
              rest).
    set (st1 := AutoChat.onChunk clock (AutoChat.startLoop (pre ++ [x])) chunk).
    destruct (afterLoop_last clock pre rest st1
                {| role := assistant; content := chunk;
                   timestamp := Some (clock 1%nat) |})
      as (e & He & Hr & Hc); [apply AutoChatFacts.setLast_snoc|done|done|].
    pose proof (AutoChatFacts.afterLoop_content clock rest st1) as Hcontent.
    simpl in Hcontent.
    unfold AutoChat.finalUpdate. rewrite He.
    destruct (truthy _).
    + rewrite AutoChatFacts.setLast_snoc. eexists. split; [done|].
      simpl. by rewrite Hcontent.
    + exists e. split; [done|]. split; [done|]. by rewrite Hc, Hcontent.
Qed.

Lemma canSend_guard w :
  canSend w ↔
  negb (truthy (trim (Widget.input w)))
  || negb (truthy_opt (Widget.sessionId w))
  || Widget.isSending w = false.
Proof.
  unfold canSend. rewrite !orb_false_iff, !negb_false_iff.
  rewrite truthy_nonempty. split.
  - intros (Ht & (id & -> & Hid) & Hs). simpl.
    by rewrite truthy_nonempty.
  - intros [[Ht Hid] Hs]. split; [done|]. split; [|done].
    destruct (Widget.sessionId w) as [id|]; [|done].
    exists id. split; [done|]. by apply truthy_nonempty.
Qed.

(** X1. [sendMessage] posts at most one request, and posts it exactly when
    there is text to send, a session and no send in flight; otherwise it
    changes nothing. The request carries the trimmed text, the session id
    and the transcript followed by the new user entry, without the
    thinking placeholder. *)
Theorem sendMessage_request apiPath fetch t_user t_thinking clock w :
  let run := Widget.sendMessage apiPath fetch t_user t_thinking clock w in
  (canSend w ∧ run.2 = [requestOf apiPath t_user w]
   ∧ c_message (requestOf apiPath t_user w) ≠ []
   ∧ trim (c_message (requestOf apiPath t_user w))
     = c_message (requestOf apiPath t_user w)
   ∧ Widget.sessionId w = Some (c_sessionId (requestOf apiPath t_user w)))
  ∨ (¬ canSend w ∧ run = (w, [])).
Proof.
  unfold Widget.sendMessage.
  destruct (negb (truthy (trim (Widget.input w)))
            || negb (truthy_opt (Widget.sessionId w))
            || Widget.isSending w) eqn:G.
  - right. split; [|done]. rewrite canSend_guard. by rewrite G.
  - left. apply canSend_guard in G as Hc. split; [done|].
    destruct Hc as (Ht & (id & Hid & _) & _).
    split; [done|]. split; [done|]. split; [apply trim_idemp|].
    simpl. by rewrite Hid.
Qed.

Lemma failureBanner_not_empty : failureBanner ≠ [].
Proof. discriminate. Qed.

(** The run of [sendMessage] from a state that can send. *)
Lemma sendMessage_started apiPath fetch t_user t_thinking clock w :
  canSend w →
  let w1 := {| sessionId := sessionId w;
               messages := AutoChat.beginTurn (messages w) (trim (input w))
                             t_user t_thinking;
               input := []; isExpanded := true; isSending := true;
               error := None |} in
  let w2 := onSettled clock w1 (fetch (requestOf apiPath t_user w)) in
  (sendMessage apiPath fetch t_user t_thinking clock w).1
  = {| sessionId := sessionId w2; messages := messages w2;
       input := input w2; isExpanded := isExpanded w2;
       isSending := false; error := error w2 |}.
Proof.
  intros Hc. apply canSend_guard in Hc.
  unfold sendMessage. by rewrite Hc.
Qed.

Lemma beginTurn_split msgs message t_user t_thinking :
  AutoChat.beginTurn msgs message t_user t_thinking
  = (msgs ++ [userEntry message t_user])
    ++ [{| role := assistant; content := AutoChat.thinkingIndicator;
           timestamp := Some t_thinking |}].
Proof. unfold AutoChat.beginTurn. by rewrite <- app_assoc. Qed.

(** X2. A send that starts always comes to its end: the widget is idle
    again, expanded, with the input cleared and the same session; the
    transcript is the earlier one followed by the user entry and one or
    two assistant entries; and the error banner is up, after an apology
    as last entry, exactly when the request failed. *)
Theorem sendMessage_settles apiPath fetch t_user t_thinking clock w :
  canSend w →
  let settled := fetch (requestOf apiPath t_user w) in
  let w' := (sendMessage apiPath fetch t_user t_thinking clock w).1 in
  isSending w' = false ∧ input w' = [] ∧ isExpanded w' = true ∧
  sessionId w' = sessionId w ∧
  (∃ tail,
     messages w' = messages w ++ userEntry (trim (input w)) t_user :: tail ∧
     (1 ≤ length tail ≤ 2)%nat ∧
     Forall (fun m => role m = assistant) tail) ∧
  (failed settled = true →
   error w' = Some failureBanner ∧
   AutoChat.inProgress (messages w') = Some apology) ∧
  (failed settled = false → error w' = None).
Proof.
  intros Hc settled w'. unfold w'.
  rewrite sendMessage_started by done. simpl.
  fold settled. unfold onSettled, failed.
  rewrite beginTurn_split.
  set (pre := messages w ++ [userEntry (trim (input w)) t_user]).
  set (thinking := {| role := assistant;
                      content := AutoChat.thinkingIndicator;
                      timestamp := Some t_thinking |}).
  assert (Hfail : ∀ x, role x = assistant →
            ∃ tail, (pre ++ [thinking]) ++ [x]
                    = messages w ++ userEntry (trim (input w)) t_user :: tail
                    ∧ (1 ≤ length tail ≤ 2)%nat
                    ∧ Forall (fun m => role m = assistant) tail).
  { intros x Hx. exists [thinking; x]. unfold pre.
    split; [by rewrite <- !app_assoc|]. split; [simpl; lia|].
    by repeat constructor. }
  destruct settled as [response|e]; simpl.
  2: { repeat split; try done.
       - by apply Hfail.
       - unfold AutoChat.inProgress. by rewrite last_snoc. }
  destruct (ok response); simpl.
  2: { repeat split; try done.
       - by apply Hfail.
       - unfold AutoChat.inProgress. by rewrite last_snoc. }
  destruct (isStreaming (contentType response)); simpl.
  - repeat split; try (by destruct (body response)); try done.
    destruct (body response) as [reader|]; simpl.
    + destruct (streamInto_shape clock pre thinking (chunks reader))
        as (y & -> & Hy).
      exists [y]. unfold pre. split; [by rewrite <- app_assoc|].
      split; [simpl; lia|]. constructor; [|done].
      destruct (chunks reader); [by subst|by destruct Hy].
    + exists [thinking]. unfold pre. split; [by rewrite <- app_assoc|].
      split; [simpl; lia|]. by repeat constructor.
  - destruct (json response) as [answer|e]; simpl.
    + repeat split; try done. by apply Hfail.
    + repeat split; try done.
      * by apply Hfail.
      * unfold AutoChat.inProgress. by rewrite last_snoc.
Qed.

Lemma sendMessage_settles_witness :
  canSend typed ∧
  error (sendMessage (lit "/api/chat") brokenServer 3 4
           (fun n => N.of_nat n) typed).1 = Some failureBanner ∧
  error (sendMessage (lit "/api/chat") streamingServer 3 4
           (fun n => N.of_nat n) typed).1 = None.
Proof.
  assert (Hc : canSend typed).
  { split; [discriminate|]. split; [|reflexivity].
    exists (lit "s1"). split; [reflexivity|discriminate]. }
  split; [exact Hc|]. split.
  - apply (sendMessage_settles (lit "/api/chat") brokenServer 3 4
             (fun n => N.of_nat n) typed Hc). reflexivity.
  - apply (sendMessage_settles (lit "/api/chat") streamingServer 3 4
             (fun n => N.of_nat n) typed Hc). reflexivity.
Defined.

(** X3. Where the answer lands. For a streamed response with at least one
    chunk, the thinking placeholder is replaced: the transcript ends with
    the user entry and one assistant entry holding the whole text. For a
    JSON response the answer (or 'No response available.' when the body
    has none) is appended after the placeholder, which stays. *)
Theorem sendMessage_shows_answer apiPath fetch t_user t_thinking clock w response :
  canSend w →
  fetch (requestOf apiPath t_user w) = Normal response → ok response = true →
  let w' := (sendMessage apiPath fetch t_user t_thinking clock w).1 in
  let user := userEntry (trim (input w)) t_user in
  let thinking := {| role := assistant;
                     content := AutoChat.thinkingIndicator;
                     timestamp := Some t_thinking |} in
  (∀ reader, isStreaming (contentType response) = true →
     body response = Some reader → chunks reader ≠ [] →
     ∃ y, messages w' = messages w ++ [user; y] ∧
          role y = assistant ∧ content y = concat (chunks reader)) ∧
  (∀ answer, isStreaming (contentType response) = false →
     json response = Normal answer →
     messages w'
     = messages w
       ++ [user; thinking;
           {| role := assistant;
              content := default (lit "No response available.") answer;
              timestamp := Some (clock 0%nat) |}]).
Proof.
  intros Hc Hf Hok w' user thinking. unfold w'.
  rewrite sendMessage_started by done. simpl.
  rewrite Hf. unfold onSettled. rewrite Hok. simpl. split.
  - intros reader -> -> Hne. simpl. subst user thinking.
    rewrite beginTurn_split.
    destruct (streamInto_shape clock
                (messages w ++ [userEntry (trim (input w)) t_user])
                {| role := assistant; content := AutoChat.thinkingIndicator;
                   timestamp := Some t_thinking |}
                (chunks reader)) as (y & -> & Hy).
    exists y. rewrite <- app_assoc. split; [done|].
    by destruct (chunks reader).
  - intros answer -> ->. simpl. unfold AutoChat.beginTurn.
    by rewrite <- app_assoc.
Qed.

Lemma sendMessage_shows_answer_witness :
  (∃ y, messages (sendMessage (lit "/api/chat") streamingServer 3 4
                    (fun n => N.of_nat n) typed).1
        = messages typed ++ [userEntry (lit "hello") 3; y] ∧
        content y = lit "Hello world") ∧
  length (messages (sendMessage (lit "/api/chat") jsonServer 3 4
                      (fun n => N.of_nat n) typed).1) = 5%nat.
Proof.
  assert (Hc : canSend typed).
  { split; [discriminate|]. split; [|reflexivity].
    exists (lit "s1"). split; [reflexivity|discriminate]. }
  split.
  - destruct (proj1 (sendMessage_shows_answer (lit "/api/chat")
                       streamingServer 3 4 (fun n => N.of_nat n) typed _
                       Hc eq_refl eq_refl) _ eq_refl eq_refl)
      as (y & Hm & _ & Hy); [discriminate|].
    exists y. split; [exact Hm|exact Hy].
  - rewrite (proj2 (sendMessage_shows_answer (lit "/api/chat")
                      jsonServer 3 4 (fun n => N.of_nat n) typed _
                      Hc eq_refl eq_refl) _ eq_refl eq_refl).
    reflexivity.
Defined.

(** X4. The text shown when a stream ends does not depend on how the
    transport cut it: two non-empty sequences of chunks with the same
    concatenation leave the same transcript, up to the last entry's
    timestamp. *)
Theorem streamInto_rechunk clock history chunks1 chunks2 :
  history ≠ [] → chunks1 ≠ [] → chunks2 ≠ [] →
  concat chunks1 = concat chunks2 →
  ∃ pre y1 y2,
    AutoChat.streamInto clock history chunks1 = pre ++ [y1] ∧
    AutoChat.streamInto clock history chunks2 = pre ++ [y2] ∧
    role y1 = role y2 ∧ content y1 = content y2 ∧
    length pre = (length history - 1)%nat ∧ pre `prefix_of` history.
Proof.
  intros Hh H1 H2 Hcat.
  destruct (exists_last Hh) as (pre & x & ->).
  destruct (streamInto_shape clock pre x chunks1) as (y1 & E1 & Hy1).
  destruct (streamInto_shape clock pre x chunks2) as (y2 & E2 & Hy2).
  exists pre, y1, y2. split; [done|]. split; [done|].
  destruct chunks1; [done|]. destruct chunks2; [done|].
  destruct Hy1 as [R1 C1], Hy2 as [R2 C2].
  split; [congruence|]. split; [congruence|].
  split; [rewrite length_app; simpl; lia|by eexists].
Qed.

Lemma streamInto_rechunk_witness :
  ∃ pre y1 y2,
    AutoChat.streamInto (fun n => N.of_nat n)
      (AutoChat.beginTurn [] (lit "hi") 0 0) [lit "Hel"; lit "lo"]
    = pre ++ [y1] ∧
    AutoChat.streamInto (fun n => N.of_nat n)
      (AutoChat.beginTurn [] (lit "hi") 0 0) [lit "H"; lit "ell"; lit "o"]
    = pre ++ [y2] ∧
    content y1 = content y2.
Proof.
  destruct (streamInto_rechunk (fun n => N.of_nat n)
              (AutoChat.beginTurn [] (lit "hi") 0 0)
              [lit "Hel"; lit "lo"] [lit "H"; lit "ell"; lit "o"])
    as (pre & y1 & y2 & E1 & E2 & _ & Hc & _); try discriminate.
  - reflexivity.
  - exists pre, y1, y2. split; [exact E1|]. split; [exact E2|exact Hc].
Defined.

(** X5. The session id survives a reload: the id chosen by the first run of
    the effect is the one every later run reads back from the storage,
    whatever the browser would generate then. The generated id is never
    empty when [crypto.randomUUID] is missing. *)
Theorem initSession_persists e1 e2 stored :
  randomUUID e1 ≠ Some [] →
  let first := initSession e1 stored in
  first.1 ≠ [] ∧ first.2 = Some first.1 ∧
  initSession e2 first.2 = first ∧
  (∀ id, stored = Some id → id ≠ [] → first.1 = id).
Proof.
  intros Hu. unfold initSession.
  destruct stored as [id|]; simpl.
  - destruct (truthy id) eqn:T; simpl.
    + rewrite T. apply truthy_nonempty in T. repeat split; try done.
      by intros ? [= ->].
    + assert (Hg : generateSessionId e1 ≠ []).
      { unfold generateSessionId. destruct (randomUUID e1) as [[|]|]; done. }
      apply truthy_nonempty in Hg as Ht. rewrite Ht.
      repeat split; try done. intros id' [= <-] Hne.
      apply truthy_nonempty in Hne. congruence.
  - assert (Hg : generateSessionId e1 ≠ []).
    { unfold generateSessionId. destruct (randomUUID e1) as [[|]|]; done. }
    apply truthy_nonempty in Hg as Ht. rewrite Ht.
    repeat split; done.
Qed.

Lemma initSession_persists_witness :
  let e1 := {| randomUUID := None; random36 := lit "k3x9";
               now36 := lit "lq2z" |} in
  let e2 := {| randomUUID := Some (lit "0b6e-uuid"); random36 := [];
               now36 := [] |} in
  (initSession e1 None).1 = lit "session_k3x9_lq2z" ∧
  initSession e2 (initSession e1 None).2 = initSession e1 None.
Proof.
  intros e1 e2. split; [reflexivity|].
  apply (initSession_persists e1 e2 None). discriminate.
Defined.

(** X6. [ChatInput] hands to [onSend] at most one message per submit, only a
    trimmed text that is not empty, and never while a send is in flight
    or the input is disabled; and when it did, the input is cleared and
    the loading flag is down again whether [onSend] resolved or
    rejected. *)
Theorem handleSubmit_sends_trimmed disabled onSend st :
  let run := ChatInput.handleSubmit disabled onSend st in
  (run.2 = [] ∧ run.1 = st ∧
   (trim (ChatInput.input st) = [] ∨ ChatInput.isLoading st = true
    ∨ disabled = true))
  ∨ (∃ m, run.2 = [m] ∧ m = trim (ChatInput.input st) ∧ m ≠ [] ∧ trim m = m ∧
          ChatInput.isLoading st = false ∧ disabled = false ∧
          run.1 = {| ChatInput.input := []; ChatInput.isLoading := false |}).
Proof.
  unfold ChatInput.handleSubmit.
  destruct (truthy (trim (ChatInput.input st))) eqn:T; simpl.
  - destruct (ChatInput.isLoading st) eqn:L; simpl;
      [left; repeat split; auto|].
    destruct disabled; simpl; [left; repeat split; auto|].
    right. apply truthy_nonempty in T. eexists.
    split; [by destruct (onSend _)|]. repeat split; try done.
    + apply trim_idemp.
    + by destruct (onSend _).
  - left. repeat split; try done. left.
    destruct (trim (ChatInput.input st)); done.
Qed.

End WidgetFacts.

(* ===================================================================== *)
(** * More on the Manual RAG route *)
(* ===================================================================== *)

Module ManualRouteFacts.
Import Retrieval ManualRAG ManualSpec RequestSpec RouteSpec Examples.

Lemma or_default_nonempty o d : d ≠ [] → or_default o d ≠ [].
Proof.
  intros Hd. unfold or_default. destruct o as [s|]; [|done].
  destruct (truthy s) eqn:T; [by apply truthy_nonempty|done].
Qed.

Lemma if_truthy_nonempty (m d : jsstring) :
  d ≠ [] → (if truthy m then m else d) ≠ [].
Proof. intros Hd. destruct (truthy m) eqn:T; [by apply truthy_nonempty|done]. Qed.

(** Every run of the route ends in one of two ways: an error response,
    400 or 500, with the store as it was; or the completed exchange. *)
Lemma manual_POST_cases W config req s :
  let run := POST W config req s in
  (∃ st error, run.1 = Normal (errorResponse st error) ∧
               (st = 400 ∨ st = 500) ∧ error ≠ [] ∧
               sessionStore run.2 = sessionStore s) ∨
  (∃ body message sessionId docResults response,
     json req = Normal body ∧ present body message sessionId ∧
     let documents := default [] docResults in
     let base := baseHistory s sessionId (historyEntries body) in
     run =
       (Normal (Response_json
                  (ChatJson (answerOf response) (Some (sliceFirst 3 documents))
                            sessionId None)),
        {| sessionStore :=
             <[sessionId :=
                 truncate (base
                           ++ exchangeTurns message (answerOf response)
                                (clock W (ticks s)) (clock W (S (ticks s))))]>
               (sessionStore s);
           calls := calls s
                    ++ [SearchDocuments (supermemory config)
                          (searchArgs message
                             (SupermemoryConfig.container (memory config)));
                        AnthropicCreate
                          (createArgs config
                             (buildMessages base (extractContext documents)
                                            message))];
           ticks := S (S (ticks s)) |})).
Proof.
  intros run.
  destruct (json req) as [body|e] eqn:Hj.
  2: { left. unfold run, POST, POST_try. async. rewrite Hj. simpl.
       eexists 500, _. split; [reflexivity|]. split; [by right|].
       split; [by apply if_truthy_nonempty|done]. }
  destruct (req_message body) as [message|] eqn:Hm.
  2: { left. unfold run, POST, POST_try. async. rewrite Hj. simpl.
       rewrite Hm. simpl. eexists 400, _. split; [reflexivity|].
       split; [by left|]. by split. }
  destruct (req_sessionId body) as [sessionId|] eqn:Hs.
  2: { left. unfold run, POST, POST_try. async. rewrite Hj. simpl.
       rewrite Hm, Hs. simpl. rewrite orb_true_r.
       eexists 400, _. split; [reflexivity|]. split; [by left|]. by split. }
  destruct (negb (truthy message) || negb (truthy sessionId)) eqn:G.
  { left. unfold run, POST, POST_try. async. rewrite Hj. simpl.
    rewrite Hm, Hs. simpl. rewrite G.
    eexists 400, _. split; [reflexivity|]. split; [by left|]. by split. }
  apply orb_false_iff in G as [Gm Gs].
  apply negb_false_iff in Gm, Gs.
  destruct (length_positive (default (HArray []) (req_history body)))
    as [positive|e] eqn:Hpos.
  2: { left. unfold run, POST, POST_try. async. rewrite Hj. simpl.
       rewrite Hm, Hs. simpl. rewrite Gm, Gs. simpl. rewrite Hpos. simpl.
       eexists 500, _. split; [reflexivity|]. split; [by right|].
       split; [by apply if_truthy_nonempty|done]. }
  destruct (search_documents W (supermemory config)
              (searchArgs message
                 (SupermemoryConfig.container (memory config))))
    as [docResults|e] eqn:Hsearch.
  2: { left. unfold run, POST, POST_try. async. rewrite Hj. simpl.
       rewrite Hm, Hs. simpl. rewrite Gm, Gs. simpl. rewrite Hpos. simpl.
       rewrite Hsearch. simpl.
       eexists 500, _. split; [reflexivity|]. split; [by right|].
       split; [by apply if_truthy_nonempty|done]. }
  destruct (array_method "sessionHistory" "map"
              (if positive then default (HArray []) (req_history body)
               else HArray (default [] (sessionStore s !! sessionId))))
    as [base|e] eqn:Hmap.
  2: { left. unfold run, POST, POST_try. async. rewrite Hj. simpl.
       rewrite Hm, Hs. simpl. rewrite Gm, Gs. simpl. rewrite Hpos. simpl.
       rewrite Hsearch. simpl. rewrite Hmap. simpl.
       eexists 500, _. split; [reflexivity|]. split; [by right|].
       split; [by apply if_truthy_nonempty|done]. }
  destruct (anthropic_create W
              (createArgs config
                 (buildMessages base (extractContext (default [] docResults))
                                message)))
    as [response|e] eqn:Hcreate.
  2: { left. unfold run, POST, POST_try. async. rewrite Hj. simpl.
       rewrite Hm, Hs. simpl. rewrite Gm, Gs. simpl. rewrite Hpos. simpl.
       rewrite Hsearch. simpl. rewrite Hmap. simpl. rewrite Hcreate. simpl.
       eexists 500, _. split; [reflexivity|]. split; [by right|].
       split; [by apply if_truthy_nonempty|done]. }
  right. exists body, message, sessionId, docResults, response.
  split; [done|]. split.
  { repeat split; try done; by apply truthy_nonempty. }
  cbv zeta.
  rewrite <- (ManualFacts.sessionHistory_base s sessionId body positive base
                Hpos Hmap).
  by apply (ManualFacts.POST_completed_from W config req s body message
              sessionId positive base docResults response).
Qed.

Lemma sliceLast_keeps_end {A} n (l t : list A) :
  (length t ≤ n)%nat → ∃ pre, sliceLast n (l ++ t) = pre ++ t.
Proof.
  intros Ht. unfold sliceLast. rewrite length_app.
  destruct (decide (length l + length t - n ≤ length l)%nat) as [Hle|Hgt].
  - rewrite drop_app_le by done. by eexists.
  - lia.
Qed.

(** X7. A run of the Manual RAG route that does not answer 200 leaves the
    session store as it was, so a failed generation records nothing, not
    even the user turn; and whatever the answer, the history of a session
    other than the one named in the request is not touched. *)
Theorem manual_store_is_local_and_atomic W config req s :
  let run := POST W config req s in
  (∀ resp, run.1 = Normal resp → resp_status resp ≠ 200 →
           sessionStore run.2 = sessionStore s) ∧
  (∀ id, (∀ body, json req = Normal body → req_sessionId body ≠ Some id) →
         sessionStore run.2 !! id = sessionStore s !! id).
Proof.
  cbv zeta.
  destruct (manual_POST_cases W config req s)
    as [(st & err & Hr & Hst & _ & Hstore)
       |(body & message & sid & docResults & response & Hj & Hp & Hrun)].
  - split; [done|]. intros id _. by rewrite Hstore.
  - simpl in Hrun. rewrite Hrun. simpl. split.
    + intros resp [= <-]. done.
    + intros id Hid. destruct Hp as (_ & _ & Hs & _).
      apply lookup_insert_ne. intros ->. by apply (Hid body).
Qed.

Lemma manual_store_is_local_and_atomic_witness :
  sessionStore
    (POST searchDown manualConfig (ask (lit "s1") (lit "hi"))
       (converse friendly manualConfig (lit "s1") [lit "hello"]
          initialState)).2
  = sessionStore
      (converse friendly manualConfig (lit "s1") [lit "hello"] initialState) ∧
  sessionStore
    (POST friendly manualConfig (ask (lit "s2") (lit "hi"))
       (converse friendly manualConfig (lit "s1") [lit "hello"]
          initialState)).2 !! lit "s1"
  = sessionStore
      (converse friendly manualConfig (lit "s1") [lit "hello"] initialState)
    !! lit "s1".
Proof.
  split.
  - eapply (proj1 (manual_store_is_local_and_atomic searchDown manualConfig
                     (ask (lit "s1") (lit "hi")) _)); [reflexivity|].
    discriminate.
  - apply (proj2 (manual_store_is_local_and_atomic friendly manualConfig
                    (ask (lit "s2") (lit "hi")) _)).
    intros body [= <-]. discriminate.
Defined.

(** X8. The answer the client receives is the one the server remembers: when
    the route answers 200, the response carries the session id of the
    request and at most three sources, and the stored history of that
    session ends with the user turn holding the message as it was sent and
    the assistant turn holding the answer of the response. *)
Theorem manual_answer_is_stored W config req s resp :
  (POST W config req s).1 = Normal resp → resp_status resp = 200 →
  ∃ body message sessionId answer sources,
    json req = Normal body ∧ present body message sessionId ∧
    resp_body resp = ChatJson answer (Some sources) sessionId None ∧
    (length sources ≤ 3)%nat ∧
    ∃ earlier t1 t2,
      sessionStore (POST W config req s).2 !! sessionId
      = Some (earlier ++ exchangeTurns message answer t1 t2).
Proof.
  intros Hresp Hst.
  destruct (manual_POST_cases W config req s)
    as [(st & err & Hr & Hcode & _)
       |(body & message & sid & docResults & response & Hj & Hp & Hrun)].
  - rewrite Hr in Hresp. injection Hresp as <-. simpl in Hst.
    destruct Hcode; congruence.
  - simpl in Hrun. rewrite Hrun in Hresp |- *. injection Hresp as <-.
    exists body, message, sid, (answerOf response),
           (sliceFirst 3 (default [] docResults)).
    split; [done|]. split; [done|]. split; [done|].
    split; [unfold sliceFirst; rewrite length_take; lia|].
    simpl. rewrite lookup_insert_eq, ManualFacts.truncate_sliceLast.
    destruct (sliceLast_keeps_end 20
                (baseHistory s sid (historyEntries body))
                (exchangeTurns message (answerOf response)
                   (clock W (ticks s)) (clock W (S (ticks s)))))
      as [pre ->]; [simpl; lia|].
    by eexists pre, _, _.
Qed.

Lemma manual_answer_is_stored_witness :
  ∃ earlier t1 t2,
    sessionStore
      (POST friendly manualConfig (chat (lit "hi") fiveTurns) initialState).2
    !! lit "s1"
    = Some (earlier ++ exchangeTurns (lit "hi") (lit "ok") t1 t2).
Proof.
  destruct (manual_answer_is_stored friendly manualConfig
              (chat (lit "hi") fiveTurns) initialState _ eq_refl eq_refl)
    as (body & message & sid & answer & sources & Hj & Hp & Hb & _
        & earlier & t1 & t2 & Hstore).
  injection Hj as <-. destruct Hp as (Hm & _ & Hs & _).
  injection Hm as <-. injection Hs as <-. injection Hb as <- _.
  by exists earlier, t1, t2.
Defined.

End ManualRouteFacts.

(* ===================================================================== *)
(** * More on the Memory Router and backend routes *)
(* ===================================================================== *)

Module RouteFacts.
Import Retrieval Providers RequestSpec RouteSpec BackendSpec Examples.

(** ** What a run logs *)

Lemma wellFormed_guard {H} (body : ChatRequest H) message sessionId :
  req_message body = Some message → req_sessionId body = Some sessionId →
  negb (truthy_opt (req_message body))
  || negb (truthy_opt (req_sessionId body)) = false →
  (length (trim message) =? 0)%nat = false →
  wellFormed body message sessionId.
Proof.
  intros Hm Hs G Ht. rewrite Hm, Hs in G. simpl in G.
  apply orb_false_iff in G as [Gm Gs]. apply negb_false_iff in Gm, Gs.
  repeat split; try done.
  - intros E. apply trim_blank_length in E. congruence.
  - by apply truthy_nonempty.
Qed.

(** The Memory Router route calls nothing, or [streamText] once. *)
Lemma router_POST_log W config req s :
  let new := newCalls s (MemoryRouter.POST W config req s).2 in
  new = [] ∨
  ∃ body message sessionId history pm,
    json req = Normal body ∧ wellFormed body message sessionId ∧
    arrayHistory body history ∧
    MemoryRouter.getProviderModel config = Normal pm ∧
    new = [StreamText
             {| st_model := pm;
                st_system := MemoryRouter.systemPrompt_ config;
                st_messages := MemoryRouter.buildMessages history message;
                st_temperature := MemoryRouter.temperature_ config |}].
Proof.
  unfold MemoryRouter.POST, MemoryRouter.POST_try, newCalls. async.
  destruct (json req) as [body|e] eqn:Hj; simpl.
  2: { left. apply drop_all. }
  destruct (read_length _) eqn:Hlen; simpl.
  2: { left. apply drop_all. }
  destruct (negb (truthy_opt (req_message body))
            || negb (truthy_opt (req_sessionId body))) eqn:G; simpl.
  { left. apply drop_all. }
  destruct (req_message body) as [message|] eqn:Hm; [|done].
  destruct (req_sessionId body) as [sessionId|] eqn:Hs;
    [|by rewrite orb_true_r in G].
  simpl.
  destruct (length (trim message) =? 0)%nat eqn:Ht; simpl.
  { left. apply drop_all. }
  destruct (array_method "history" "filter"
              (default (HArray []) (req_history body)))
    as [history|e] eqn:Hfilter; simpl.
  2: { left. apply drop_all. }
  assert (arrayHistory body history) as Hh.
  { unfold arrayHistory.
    destruct (req_history body) as [[| |]|]; simpl in *; congruence. }
  destruct (MemoryRouter.getProviderModel config) as [pm|e] eqn:Hpm; simpl.
  2: { left. apply drop_all. }
  right. exists body, message, sessionId, history, pm.
  split; [done|]. split.
  { apply wellFormed_guard; try done. by rewrite Hm, Hs. }
  split; [done|]. split; [done|].
  destruct (MemoryRouter.streaming_ config); simpl;
    destruct (stream_text W _) as [result|e]; simpl;
    try (by rewrite drop_app_length).
  destruct (fullText result) as [text|e]; simpl.
  - destruct (negb (truthy text) || (length (trim text) =? 0)%nat);
      simpl; by rewrite drop_app_length.
  - by rewrite drop_app_length.
Qed.

(** The backend route calls nothing, or the search, or the search and
    then [streamText]. *)
Lemma backend_POST_log W config req s :
  let new := newCalls s (Backend.POST W config req s).2 in
  new = [] ∨
  ∃ body message sessionId,
    json req = Normal body ∧ wellFormed body message sessionId ∧
    let search :=
      SearchDocuments (Backend.supermemory config)
        (searchArgs message (supermemoryContainer config)) in
    (new = [search] ∨
     ∃ history docResults pm,
       arrayHistory body history ∧
       Backend.getProviderModel config = Normal pm ∧
       new = [search;
              StreamText
                {| st_model := pm;
                   st_system := Backend.systemPrompt_ config;
                   st_messages :=
                     Backend.buildMessages config history
                       (extractContext (default [] docResults)) message;
                   st_temperature := Backend.temperature_ config |}]).
Proof.
  unfold Backend.POST, Backend.POST_try, newCalls. async.
  destruct (json req) as [body|e] eqn:Hj; simpl.
  2: { left. apply drop_all. }
  destruct (negb (truthy_opt (req_message body))
            || negb (truthy_opt (req_sessionId body))) eqn:G; simpl.
  { left. apply drop_all. }
  destruct (req_message body) as [message|] eqn:Hm; [|done].
  destruct (req_sessionId body) as [sessionId|] eqn:Hs;
    [|by rewrite orb_true_r in G].
  simpl.
  destruct (length (trim message) =? 0)%nat eqn:Ht; simpl.
  { left. apply drop_all. }
  right. exists body, message, sessionId.
  split; [done|]. split.
  { apply wellFormed_guard; try done. by rewrite Hm, Hs. }
  destruct (search_documents W _ _) as [docResults|e]; simpl.
  2: { left. by rewrite drop_app_length. }
  destruct (array_method "history" "filter"
              (default (HArray []) (req_history body)))
    as [history|e] eqn:Hfilter; simpl.
  2: { left. by rewrite drop_app_length. }
  assert (arrayHistory body history) as Hh.
  { unfold arrayHistory.
    destruct (req_history body) as [[| |]|]; simpl in *; congruence. }
  destruct (Backend.getProviderModel config) as [pm|e] eqn:Hpm; simpl.
  2: { left. by rewrite drop_app_length. }
  right. exists history, docResults, pm. split; [done|]. split; [done|].
  destruct (Backend.streaming_ config); simpl;
    destruct (stream_text W _) as [result|e]; simpl;
    rewrite <- ?app_assoc; try (by rewrite drop_app_length).
  destruct (fullText result) as [text|e]; simpl;
    rewrite <- ?app_assoc; by rewrite drop_app_length.
Qed.

(** X10. The two multi-provider routes never write the session store, never
    upload and never call the Anthropic messages API. The Memory Router
    route leaves retrieval to the proxy: it logs nothing or one
    [streamText]. The backend route logs nothing, one search, or one
    search followed by one [streamText]. *)
Theorem proxied_and_backend_routes_are_read_only W s :
  (∀ config req,
     let run := MemoryRouter.POST W config req s in
     sessionStore run.2 = sessionStore s ∧
     (newCalls s run.2 = [] ∨ ∃ a, newCalls s run.2 = [StreamText a])) ∧
  (∀ config req,
     let run := Backend.POST W config req s in
     sessionStore run.2 = sessionStore s ∧
     (newCalls s run.2 = [] ∨
      (∃ c q, newCalls s run.2 = [SearchDocuments c q]) ∨
      (∃ c q a, newCalls s run.2 = [SearchDocuments c q; StreamText a]))).
Proof.
  split; intros config req; cbv zeta.
  - split; [apply ManualFacts.router_POST_store|].
    destruct (router_POST_log W config req s)
      as [->|(body & m & sid & h & pm & _ & _ & _ & _ & ->)]; [by left|].
    right. by eexists.
  - split; [apply ManualFacts.backend_POST_store|].
    destruct (backend_POST_log W config req s)
      as [->|(body & m & sid & _ & _ & [->|(h & d & pm & _ & _ & ->)])];
      [by left|right; left|right; right]; by repeat eexists.
Qed.

(** ** What is sent to the provider *)

Lemma filterHistory_contents history :
  Forall (fun m => content m ≠ [])
         (MemoryRouter.filterHistory history).
Proof.
  unfold MemoryRouter.filterHistory.
  induction history as [|msg h IH]; simpl; [constructor|].
  destruct (truthy (content msg)
            && (0 <? length (trim (content msg)))%nat) eqn:E; simpl; [|done].
  apply andb_prop in E as [_ Hpos]. constructor; [|done].
  simpl. by apply length_pos_nonempty.
Qed.

Lemma router_buildMessages_contents history message :
  trim message ≠ [] →
  Forall (fun m => m_content m ≠ [])
         (MemoryRouter.buildMessages history message).
Proof.
  intros Hm. unfold MemoryRouter.buildMessages.
  apply Forall_app. split; [|by repeat constructor].
  apply Forall_fmap. eapply Forall_impl; [apply filterHistory_contents|].
  by intros m.
Qed.

Lemma userTurn_nonempty context message : userTurn context message ≠ [].
Proof.
  destruct (BackendFacts.userTurn_head context message) as (c & r & -> & _).
  done.
Qed.

Lemma systemEntry_sub processed :
  Forall stable processed → Forall stable (systemEntry processed).
Proof.
  intros Hst. unfold systemEntry.
  destruct (List.find _ processed) as [m|] eqn:F; [|constructor].
  apply find_some in F as [Hin _].
  rewrite Forall_forall in Hst. constructor; [|constructor].
  by apply Hst, list_elem_of_In.
Qed.

Lemma backend_buildMessages_contents config history context message :
  Forall (fun m => m_content m ≠ [])
         (Backend.buildMessages config history context message).
Proof.
  assert (Hs : ∀ l, Forall stable l → Forall (fun m => m_content m ≠ []) l).
  { intros l Hl. eapply Forall_impl; [exact Hl|]. by intros m [_ ?]. }
  unfold Backend.buildMessages.
  destruct (streq (llmProvider config) "openrouter") eqn:E.
  - rewrite BackendFacts.simplifyForOpenRouter_shape;
      [|apply BackendFacts.processHistory_stable|done
       |apply BackendFacts.trim_userTurn_nonempty].
    apply Forall_app. split.
    + apply Hs, systemEntry_sub, BackendFacts.processHistory_stable.
    + repeat constructor. simpl. apply BackendFacts.trim_userTurn_nonempty.
  - apply Forall_app. split.
    + apply Hs, BackendFacts.processHistory_stable.
    + repeat constructor. simpl. apply userTurn_nonempty.
Qed.

Lemma backend_buildMessages_last_role config history context message :
  m_role <$> last (Backend.buildMessages config history context message)
  = Some RUser.
Proof.
  unfold Backend.buildMessages.
  destruct (streq (llmProvider config) "openrouter") eqn:E.
  - rewrite BackendFacts.simplifyForOpenRouter_shape;
      [|apply BackendFacts.processHistory_stable|done
       |apply BackendFacts.trim_userTurn_nonempty].
    by rewrite last_snoc.
  - by rewrite last_snoc.
Qed.

(** X11. No empty message reaches a provider: in every [streamText] call of
    the Memory Router and backend routes the message list is not empty,
    no message has an empty content, and the last message is a user
    turn. *)
Theorem streamText_messages_are_nonempty W s a :
  (∀ config req,
     StreamText a ∈ newCalls s (MemoryRouter.POST W config req s).2 →
     Forall (fun m => m_content m ≠ []) (st_messages a) ∧
     m_role <$> last (st_messages a) = Some RUser) ∧
  (∀ config req,
     StreamText a ∈ newCalls s (Backend.POST W config req s).2 →
     Forall (fun m => m_content m ≠ []) (st_messages a) ∧
     m_role <$> last (st_messages a) = Some RUser).
Proof.
  split; intros config req Hin.
  - destruct (router_POST_log W config req s)
      as [E|(body & m & sid & h & pm & _ & (_ & Hm & _) & _ & _ & E)];
      rewrite E in Hin; [by apply elem_of_nil in Hin|].
    apply list_elem_of_singleton in Hin as [= ->]. simpl. split.
    + by apply router_buildMessages_contents.
    + unfold MemoryRouter.buildMessages. by rewrite last_snoc.
  - destruct (backend_POST_log W config req s)
      as [E|(body & m & sid & _ & _ & [E|(h & d & pm & _ & _ & E)])];
      rewrite E in Hin.
    + by apply elem_of_nil in Hin.
    + by apply list_elem_of_singleton in Hin.
    + apply elem_of_cons in Hin as [Hin|Hin]; [done|].
      apply list_elem_of_singleton in Hin as [= ->]. simpl. split.
      * apply backend_buildMessages_contents.
      * apply backend_buildMessages_last_role.
Qed.

Lemma streamText_messages_are_nonempty_witness :
  ∃ a,
    newCalls initialState
      (MemoryRouter.POST friendly (routerConfig "openai" true)
         (chat (lit "hello")
               ({| role := assistant; content := lit "   ";
                   timestamp := None |} :: fiveTurns))
         initialState).2 = [StreamText a] ∧
    Forall (fun m => m_content m ≠ []) (st_messages a) ∧
    length (st_messages a) = 6%nat.
Proof.
  eexists. split; [reflexivity|]. split; [|reflexivity].
  apply (proj1 (streamText_messages_are_nonempty friendly initialState _)
               (routerConfig "openai" true)
               (chat (lit "hello")
                     ({| role := assistant; content := lit "   ";
                         timestamp := None |} :: fiveTurns))).
  apply list_elem_of_here.
Defined.

(** X12. On a history of well-typed chat messages the two filters agree: the
    backend filter keeps the entries the Memory Router filter keeps, with
    the same roles and the same trimmed contents. *)
Theorem filters_agree_on_typed_history (history : list ChatMessage) :
  Backend.processHistory (List.map Backend.ofChatMessage history)
  = List.map toMessage (MemoryRouter.filterHistory history).
Proof.
  unfold MemoryRouter.filterHistory.
  induction history as [|msg h IH]; [done|].
  change (List.map Backend.ofChatMessage (msg :: h))
    with (Backend.ofChatMessage msg :: List.map Backend.ofChatMessage h).
  rewrite BackendFacts.processHistory_cons, IH.
  assert (Backend.keep (Backend.ofChatMessage msg)
          = truthy (content msg)
            && (0 <? length (trim (content msg)))%nat) as ->.
  { destruct msg as [[] c t]; simpl; by destruct (truthy c). }
  simpl.
  destruct (truthy (content msg)
            && (0 <? length (trim (content msg)))%nat); [|done].
  unfold Backend.convert. simpl. rewrite BackendFacts.parseRole_roleName.
  done.
Qed.

Lemma keep_view entry :
  Backend.keep entry = true →
  ∃ m, Backend.convert entry = Some m ∧
       entryView entry = Some (messageView m).
Proof.
  destruct entry as [msg|]; [|done].
  unfold Backend.keep, Backend.convert, entryView, Backend.parseRole.
  simpl.
  destruct (negb (Backend.truthy_content (Backend.raw_content msg)));
    [done|].
  destruct (streq (Backend.raw_role msg) "user") eqn:U; simpl.
  { intros _. eexists. split; [reflexivity|].
    apply bool_decide_eq_true in U. unfold messageView. simpl.
    by rewrite U. }
  destruct (streq (Backend.raw_role msg) "assistant") eqn:A; simpl.
  { intros _. eexists. split; [reflexivity|].
    apply bool_decide_eq_true in A. unfold messageView. simpl.
    by rewrite A. }
  destruct (streq (Backend.raw_role msg) "system") eqn:S; simpl; [|done].
  intros _. eexists. split; [reflexivity|].
  apply bool_decide_eq_true in S. unfold messageView. simpl.
  by rewrite S.
Qed.

(** X13. The filters neither invent nor reorder: what either filter returns
    is a subsequence of the history it was given, each entry kept with its
    role and with its content flattened and trimmed; so the filtered
    history is never longer than the history. *)
Theorem history_filters_keep_order :
  (∀ history : list ChatMessage,
     List.map (fun m => (role m, content m))
              (MemoryRouter.filterHistory history)
     `sublist_of` List.map (fun m => (role m, trim (content m))) history) ∧
  (∀ history : list Backend.HistoryEntry,
     List.map messageView (Backend.processHistory history)
     `sublist_of` omap entryView history ∧
     (length (Backend.processHistory history) ≤ length history)%nat).
Proof.
  split.
  - intros history. unfold MemoryRouter.filterHistory.
    induction history as [|msg h IH]; simpl; [done|].
    destruct (truthy (content msg)
              && (0 <? length (trim (content msg)))%nat); simpl.
    + by apply sublist_skip.
    + by apply sublist_cons.
  - intros history.
    induction history as [|entry h [IH IHlen]]; [done|].
    rewrite BackendFacts.processHistory_cons.
    change (omap entryView (entry :: h))
      with (match entryView entry with
            | Some v => v :: omap entryView h
            | None => omap entryView h
            end).
    destruct (Backend.keep entry) eqn:K.
    + destruct (keep_view entry K) as (m & -> & ->). simpl.
      split; [by apply sublist_skip|lia].
    + split; [|simpl; lia].
      destruct (entryView entry); [by apply sublist_cons|done].
Qed.

(** ** Provider models *)

(** Decides the comparisons of a literal provider name with the names of
    the [switch]. *)
Ltac decide_names :=
  repeat match goal with
         | |- context [streq (lit ?a) ?b] =>
             let v := eval vm_compute in (streq (lit a) b) in
             change (streq (lit a) b) with v
         end;
  cbv iota; simpl orb; cbv iota.

Lemma supported_cases (provider : jsstring) :
  provider ∈ supported →
  provider = lit "anthropic" ∨ provider = lit "openai" ∨
  provider = lit "groq" ∨ provider = lit "openrouter" ∨
  provider = lit "google".
Proof.
  unfold supported. rewrite !elem_of_cons, elem_of_nil. tauto.
Qed.

Lemma unsupported_names (provider : jsstring) :
  provider ∉ supported →
  streq provider "anthropic" = false ∧ streq provider "openai" = false ∧
  streq provider "groq" = false ∧ streq provider "openrouter" = false ∧
  streq provider "google" = false.
Proof.
  unfold supported. rewrite !not_elem_of_cons. intros (?&?&?&?&?&_).
  unfold streq. by rewrite !bool_decide_eq_false_2.
Qed.

(** X14. The model the backend route builds. It exists exactly for the five
    supported providers; it is keyed with the LLM API key and named as the
    status endpoint says; its base URL is the one [getBaseURL] gives (the
    SDK default for anthropic, openai and google), never the proxy of the
    memory service; and it carries no header, except the referer and the
    title for OpenRouter, which default to the SDK's own site and name.
    For any other provider the choice throws 'Unsupported provider: '
    followed by the name. *)
Theorem backend_getProviderModel_spec config :
  (llmProvider config ∈ supported →
   ∃ pm, Backend.getProviderModel config = Normal pm ∧
         pm_apiKey pm = llmApiKey config ∧
         pm_model pm = Backend.model config ∧
         pm_baseURL pm = Backend.getBaseURL (llmProvider config) ∧
         pm_headers pm
         = if streq (llmProvider config) "openrouter"
           then [(lit "HTTP-Referer",
                  or_default (openRouterReferer config)
                             (lit "https://portfolio-sdk.com"));
                 (lit "X-Title",
                  or_default (openRouterTitle config) (lit "Portfolio Chat"))]
           else []) ∧
  (llmProvider config ∉ supported →
   Backend.getProviderModel config
   = Throw (Error (lit "Unsupported provider: " ++ llmProvider config))).
Proof.
  split.
  - intros Hp. apply supported_cases in Hp.
    unfold Backend.getProviderModel.
    destruct Hp as [H|[H|[H|[H|H]]]]; rewrite H; decide_names;
      eexists; (split; [reflexivity|]); repeat split; reflexivity.
  - intros Hp. apply unsupported_names in Hp as (H1 & H2 & H3 & H4 & H5).
    unfold Backend.getProviderModel. by rewrite H1, H2, H3, H4, H5.
Qed.

Lemma backend_getProviderModel_spec_witness :
  (∃ pm, Backend.getProviderModel (routerConfig "groq" true) = Normal pm ∧
         pm_baseURL pm = Some (lit "https://api.groq.com/openai/v1") ∧
         pm_headers pm = []) ∧
  Backend.getProviderModel (routerConfig "mistral" true)
  = Throw (Error (lit "Unsupported provider: mistral")).
Proof.
  split.
  - destruct (proj1 (backend_getProviderModel_spec (routerConfig "groq" true)))
      as (pm & Hpm & _ & _ & Hu & Hh).
    + unfold supported. rewrite !elem_of_cons. auto.
    + exists pm. split; [exact Hpm|]. split; [exact Hu|exact Hh].
  - apply (proj2 (backend_getProviderModel_spec (routerConfig "mistral" true))).
    unfold supported. rewrite !not_elem_of_cons.
    repeat split; try discriminate. apply not_elem_of_nil.
Defined.

Lemma own_present key :
  key ∈ supported →
  ∃ url, MemoryRouter.own MemoryRouter.MEMORY_ROUTER_URLS key = Some url ∧
         lit "https://api.supermemory.ai/v3/https://" `prefix_of` url.
Proof.
  intros Hp. apply supported_cases in Hp.
  destruct Hp as [-> | [-> | [-> | [-> | ->]]]];
    eexists; (split; [reflexivity|]); by eexists.
Qed.

(** X15. The model the Memory Router route builds, for the five supported
    providers: it is keyed with the LLM API key, named as the status
    endpoint says, and pointed at the entry of [MEMORY_ROUTER_URLS] for the
    provider, which goes through the proxy of the memory service; and it
    carries the API key of the memory service in
    [x-supermemory-api-key]. For any other provider the choice throws. *)
Theorem router_getProviderModel_spec config :
  (llmProvider config ∈ supported →
   ∃ pm url,
     MemoryRouter.getProviderModel config = Normal pm ∧
     pm_apiKey pm = llmApiKey config ∧
     pm_model pm = MemoryRouter.model config ∧
     pm_baseURL pm = Some url ∧
     MemoryRouter.own MemoryRouter.MEMORY_ROUTER_URLS (llmProvider config)
     = Some url ∧
     lit "https://api.supermemory.ai/v3/https://" `prefix_of` url ∧
     MemoryRouter.own (pm_headers pm) (lit "x-supermemory-api-key")
     = Some (supermemoryApiKey config)) ∧
  (llmProvider config ∉ supported →
   MemoryRouter.getProviderModel config
   = Throw (Error (lit "Unsupported provider: " ++ llmProvider config))).
Proof.
  split.
  - intros Hp. destruct (own_present _ Hp) as (url & Hown & Hpre).
    apply supported_cases in Hp.
    assert (Hurl : MemoryRouter.as_url (MemoryRouter.baseURL config)
                   = Some url).
    { unfold MemoryRouter.baseURL, MemoryRouter.get. by rewrite Hown. }
    unfold MemoryRouter.getProviderModel. rewrite Hurl.
    destruct Hp as [H|[H|[H|[H|H]]]]; rewrite H in *; decide_names;
      eexists _, url; (split; [reflexivity|]); repeat split; done.
  - intros Hp. apply unsupported_names in Hp as (H1 & H2 & H3 & H4 & H5).
    unfold MemoryRouter.getProviderModel. by rewrite H1, H2, H3, H4, H5.
Qed.

Lemma router_getProviderModel_spec_witness :
  ∃ pm,
    MemoryRouter.getProviderModel (routerConfig "openai" true) = Normal pm ∧
    pm_baseURL pm
    = Some (lit "https://api.supermemory.ai/v3/https://api.openai.com/v1") ∧
    MemoryRouter.own (pm_headers pm) (lit "x-supermemory-api-key")
    = Some (lit "sm-key").
Proof.
  destruct (proj1 (router_getProviderModel_spec (routerConfig "openai" true)))
    as (pm & url & Hpm & _ & _ & Hu & Hown & _ & Hh).
  - unfold supported. rewrite !elem_of_cons. auto.
  - exists pm. split; [exact Hpm|]. split; [|exact Hh].
    rewrite Hu. rewrite <- Hown. reflexivity.
Defined.

(** ** Construction *)

Lemma truthy_property_baseURL config :
  MemoryRouter.truthy_property (MemoryRouter.baseURL config) = true ↔
  llmProvider config ∈ supported
  ∨ llmProvider config ∈ MemoryRouter.Object_prototype_names.
Proof.
  unfold MemoryRouter.baseURL, MemoryRouter.get.
  destruct (decide (llmProvider config ∈ supported)) as [Hin|Hout].
  - destruct (own_present _ Hin) as (url & -> & [rest ->]).
    simpl. split; [by left|done].
  - rewrite RouterFacts.own_absent by done.
    destruct (decide (llmProvider config ∈ MemoryRouter.Object_prototype_names))
      as [Hp|Hp].
    + rewrite bool_decide_eq_true_2 by done. simpl. split; [by right|done].
    + rewrite bool_decide_eq_false_2 by done. simpl. split; [done|].
      by intros [?|?].
Qed.

(** X16. No handler is built without its keys. [createBackendHandler] returns
    a handler exactly when the LLM API key, the API key of the memory
    service and the container are all present; [createPortfolioHandler]
    asks in addition that [MEMORY_ROUTER_URLS] has an entry under the
    provider name, its own or inherited. Otherwise the construction throws,
    and when the LLM API key is the missing one both throw 'LLM API key is
    required' whatever else is wrong. *)
Theorem handlers_need_their_keys W config :
  let keys := llmApiKey config ≠ [] ∧ supermemoryApiKey config ≠ []
              ∧ supermemoryContainer config ≠ [] in
  ((∃ handler, Backend.createBackendHandler W config = Normal handler)
   ↔ keys) ∧
  ((∃ handler, MemoryRouter.createPortfolioHandler W config = Normal handler)
   ↔ keys ∧ (llmProvider config ∈ supported
             ∨ llmProvider config ∈ MemoryRouter.Object_prototype_names)) ∧
  (llmApiKey config = [] →
   Backend.createBackendHandler W config
   = Throw (Error (lit "LLM API key is required")) ∧
   MemoryRouter.createPortfolioHandler W config
   = Throw (Error (lit "LLM API key is required"))).
Proof.
  cbv zeta. rewrite <- !truthy_nonempty, <- truthy_property_baseURL.
  unfold Backend.createBackendHandler, MemoryRouter.createPortfolioHandler.
  destruct (truthy (llmApiKey config)) eqn:K1; simpl.
  2: { split; [|split]; [split|split|done].
       - by intros [? ?].
       - by intros (? & _).
       - by intros [? ?].
       - by intros ((? & _) & _). }
  destruct (truthy (supermemoryApiKey config)) eqn:K2; simpl.
  2: { split; [|split]; [split|split|].
       - by intros [? ?].
       - by intros (_ & ? & _).
       - by intros [? ?].
       - by intros ((_ & ? & _) & _).
       - intros E. by rewrite E in K1. }
  destruct (truthy (supermemoryContainer config)) eqn:K3; simpl.
  2: { split; [|split]; [split|split|].
       - by intros [? ?].
       - by intros (_ & _ & ?).
       - by intros [? ?].
       - by intros ((_ & _ & ?) & _).
       - intros E. by rewrite E in K1. }
  split; [|split].
  - split; [done|]. intros _. by eexists.
  - destruct (MemoryRouter.truthy_property (MemoryRouter.baseURL config));
      simpl; split; try done.
    + intros _. by eexists.
    + by intros [? ?].
    + by intros [_ ?].
  - intros E. by rewrite E in K1.
Qed.

Lemma handlers_need_their_keys_witness :
  (∃ handler,
     Backend.createBackendHandler friendly (routerConfig "google" false)
     = Normal handler) ∧
  Backend.createBackendHandler friendly (keylessConfig "google")
  = Throw (Error (lit "LLM API key is required")).
Proof.
  split.
  - apply (proj1 (handlers_need_their_keys friendly
                    (routerConfig "google" false))).
    repeat split; discriminate.
  - apply (proj2 (proj2 (handlers_need_their_keys friendly
                           (keylessConfig "google")))).
    reflexivity.
Defined.

(** ** Failures *)

(** The [catch] block of the Memory Router route: the message it picks,
    and the response when [Response.json] accepts the status. *)
Lemma router_catch_spec e s :
  let st := unsigned_short (status_or_500 (status e)) in
  ∃ error,
    error ≠ [] ∧
    (status e = Some 401 → error = invalidKeyHint) ∧
    (status e = Some 404 → error = modelNotFoundHint) ∧
    (status e = None → includes (lit "container") (message e) = true →
     error = containerHint) ∧
    (status e = None → includes (lit "container") (message e) = false →
     message e ≠ [] → error = message e) ∧
    (answerable st →
     MemoryRouter.POST_catch e s = (Normal (errorResponse st error), s)) ∧
    (¬ answerable st → ∃ e', MemoryRouter.POST_catch e s = (Throw e', s)).
Proof.
  unfold MemoryRouter.POST_catch, await, errorResponse. cbv zeta.
  exists (if status_is (status e) 401 then invalidKeyHint
          else if status_is (status e) 404 then modelNotFoundHint
          else if includes (lit "container") (message e) then containerHint
          else or_default (Some (message e)) (lit "Internal server error")).
  split; [|split; [|split; [|split; [|split; [|split]]]]].
  6: { intros Hst.
       by rewrite (ResponseFacts.Response_json_status_answerable _ _ Hst). }
  6: { intros Hst.
       match goal with
       | |- context [Response_json_status ?b ?n] =>
           destruct (ResponseFacts.Response_json_status_refused b n Hst)
             as [e' ->]
       end. by eexists. }
  - destruct (status e) as [n|]; simpl.
    + destruct (n =? 401); [done|]. destruct (n =? 404); [done|].
      destruct (includes _ _); [done|].
      by apply ManualRouteFacts.if_truthy_nonempty.
    + destruct (includes _ _); [done|].
      by apply ManualRouteFacts.if_truthy_nonempty.
  - by intros ->.
  - by intros ->.
  - by intros -> ->.
  - intros -> -> Hm. simpl. apply truthy_nonempty in Hm. by rewrite Hm.
Qed.

Lemma backend_catch_spec e s :
  let st := unsigned_short (status_or_500 (status e)) in
  ∃ error,
    error ≠ [] ∧
    (status e = Some 401 → error = invalidKeyHint) ∧
    (status e ≠ Some 401 → message e ≠ [] → error = message e) ∧
    (answerable st →
     Backend.POST_catch e s = (Normal (errorResponse st error), s)) ∧
    (¬ answerable st → ∃ e', Backend.POST_catch e s = (Throw e', s)).
Proof.
  unfold Backend.POST_catch, await, errorResponse. cbv zeta.
  exists (if status_is (status e) 401 then invalidKeyHint
          else or_default (Some (message e)) (lit "Internal server error")).
  split; [|split; [|split; [|split]]].
  4: { intros Hst.
       by rewrite (ResponseFacts.Response_json_status_answerable _ _ Hst). }
  4: { intros Hst.
       match goal with
       | |- context [Response_json_status ?b ?n] =>
           destruct (ResponseFacts.Response_json_status_refused b n Hst)
             as [e' ->]
       end. by eexists. }
  - destruct (status_is (status e) 401); [done|].
    by apply ManualRouteFacts.if_truthy_nonempty.
  - by intros ->.
  - intros Hne Hm.
    assert (status_is (status e) 401 = false) as ->.
    { destruct (status e) as [n|]; simpl; [|done].
      apply N.eqb_neq. congruence. }
    apply truthy_nonempty in Hm. simpl. by rewrite Hm.
Qed.

(** An error without status is reported with status 500. *)
Lemma reportable_no_status e : status e = None → reportable e.
Proof. unfold reportable. intros ->. by vm_compute. Qed.

(** The [try] block of the Memory Router route only ever returns a
    response that is not an [{ error }] with an empty message; and what
    it throws is an error of the runtime or of the route itself, without
    status, or the error of the body parser or of the provider. *)
Lemma router_POST_try_response W config req s resp s' :
  MemoryRouter.POST_try W config req s = (Normal resp, s') →
  ∀ error, resp_body resp = ErrorJson error → error ≠ [].
Proof.
  unfold MemoryRouter.POST_try. async.
  destruct (json req) as [body|e]; simpl; [|done].
  destruct (read_length _); simpl; [|done].
  destruct (negb (truthy_opt (req_message body))
            || negb (truthy_opt (req_sessionId body))); simpl.
  { intros [= <- _] error [= <-]. done. }
  destruct (length (trim (default [] (req_message body))) =? 0)%nat; simpl.
  { intros [= <- _] error [= <-]. done. }
  destruct (array_method _ _ _) as [history|e]; simpl; [|done].
  destruct (MemoryRouter.getProviderModel config) as [pm|e]; simpl; [|done].
  destruct (MemoryRouter.streaming_ config); simpl;
    destruct (stream_text W _) as [result|e]; simpl; try done.
  { by intros [= <- _] error. }
  destruct (fullText result) as [text|e]; simpl; [|done].
  destruct (negb (truthy text) || (length (trim text) =? 0)%nat); simpl;
    by intros [= <- _] error.
Qed.

Lemma read_length_throws {H} (h : History H) e :
  read_length h = Throw e → status e = None.
Proof. destruct h; simpl; by intros [= <-]. Qed.

Lemma array_method_throws {H} name method (h : History H) e :
  array_method name method h = Throw e → status e = None.
Proof. destruct h; simpl; by intros [= <-]. Qed.

Lemma length_positive_throws {H} (h : History H) e :
  length_positive h = Throw e → status e = None.
Proof. destruct h; simpl; by intros [= <-]. Qed.

Lemma router_getProviderModel_throws config e :
  MemoryRouter.getProviderModel config = Throw e → status e = None.
Proof.
  unfold MemoryRouter.getProviderModel.
  repeat (case_match; simpl); by intros [= <-].
Qed.

Lemma backend_getProviderModel_throws config e :
  Backend.getProviderModel config = Throw e → status e = None.
Proof.
  unfold Backend.getProviderModel.
  repeat (case_match; simpl); by intros [= <-].
Qed.

Lemma router_POST_try_throws W config req s e s' :
  MemoryRouter.POST_try W config req s = (Throw e, s') →
  status e = None ∨ json req = Throw e ∨ thrownBy W e.
Proof.
  unfold MemoryRouter.POST_try, thrownBy. async.
  destruct (json req) as [body|e0]; simpl; [|intros [= <- _]; auto].
  destruct (read_length _) eqn:Hlen; simpl.
  2: { intros [= <- _]. left. by eapply read_length_throws. }
  destruct (negb (truthy_opt (req_message body))
            || negb (truthy_opt (req_sessionId body))); simpl; [done|].
  destruct (length (trim (default [] (req_message body))) =? 0)%nat; simpl;
    [done|].
  destruct (array_method _ _ _) as [history|e0] eqn:Hfilter; simpl.
  2: { intros [= <- _]. left. by eapply array_method_throws. }
  destruct (MemoryRouter.getProviderModel config) as [pm|e0] eqn:Hpm; simpl.
  2: { intros [= <- _]. left. by eapply router_getProviderModel_throws. }
  destruct (MemoryRouter.streaming_ config); simpl;
    destruct (stream_text W _) as [result|e0] eqn:Hst; simpl; try done;
    try (intros [= <- _]; right; right; right; right; left; by eexists).
  destruct (fullText result) as [text|e0] eqn:Hft; simpl.
  - by destruct (negb (truthy text) || (length (trim text) =? 0)%nat).
  - intros [= <- _]. right; right; right; right; right. by eexists _, _.
Qed.

Lemma backend_POST_try_response W config req s resp s' :
  Backend.POST_try W config req s = (Normal resp, s') →
  ∀ error, resp_body resp = ErrorJson error → error ≠ [].
Proof.
  unfold Backend.POST_try. async.
  destruct (json req) as [body|e]; simpl; [|done].
  destruct (negb (truthy_opt (req_message body))
            || negb (truthy_opt (req_sessionId body))); simpl.
  { intros [= <- _] error [= <-]. done. }
  destruct (length (trim (default [] (req_message body))) =? 0)%nat; simpl.
  { intros [= <- _] error [= <-]. done. }
  destruct (search_documents W _ _) as [docResults|e]; simpl; [|done].
  destruct (array_method _ _ _) as [history|e]; simpl; [|done].
  destruct (Backend.getProviderModel config) as [pm|e]; simpl; [|done].
  destruct (Backend.streaming_ config); simpl;
    destruct (stream_text W _) as [result|e]; simpl; try done.
  { by intros [= <- _] error. }
  destruct (fullText result) as [text|e]; simpl; [|done].
  by intros [= <- _] error.
Qed.

Lemma backend_POST_try_throws W config req s e s' :
  Backend.POST_try W config req s = (Throw e, s') →
  status e = None ∨ json req = Throw e ∨ thrownBy W e.
Proof.
  unfold Backend.POST_try, thrownBy. async.
  destruct (json req) as [body|e0]; simpl; [|intros [= <- _]; auto].
  destruct (negb (truthy_opt (req_message body))
            || negb (truthy_opt (req_sessionId body))); simpl; [done|].
  destruct (length (trim (default [] (req_message body))) =? 0)%nat; simpl;
    [done|].
  destruct (search_documents W _ _) as [docResults|e0] eqn:Hsearch; simpl.
  2: { intros [= <- _]. right; right; left. by eexists _, _. }
  destruct (array_method _ _ _) as [history|e0] eqn:Hfilter; simpl.
  2: { intros [= <- _]. left. by eapply array_method_throws. }
  destruct (Backend.getProviderModel config) as [pm|e0] eqn:Hpm; simpl.
  2: { intros [= <- _]. left. by eapply backend_getProviderModel_throws. }
  destruct (Backend.streaming_ config); simpl;
    destruct (stream_text W _) as [result|e0] eqn:Hst; simpl; try done;
    try (intros [= <- _]; right; right; right; right; left; by eexists).
  destruct (fullText result) as [text|e0] eqn:Hft; simpl; [done|].
  intros [= <- _]. right; right; right; right; right. by eexists _, _.
Qed.

(** X17. The routes answer. The promise of the Manual RAG route always
    resolves to a response, whatever the request and whatever the services
    do. The promise of the Memory Router route and of the backend route
    resolves to a response whenever every error that the body parser, the
    search, [streamText] or the text promise throws is one whose status,
    or 500 when it has none, a response can carry; an error the route or
    the runtime raises itself never stands in the way. In all three, a
    response [{ error }] never has an empty message. *)
Theorem routes_always_answer W s :
  (∀ config req,
     ∃ resp, (ManualRAG.POST W config req s).1 = Normal resp ∧
             ∀ error, resp_body resp = ErrorJson error → error ≠ []) ∧
  (∀ config req,
     (∀ e, json req = Throw e ∨ thrownBy W e → reportable e) →
     ∃ resp, (MemoryRouter.POST W config req s).1 = Normal resp ∧
             ∀ error, resp_body resp = ErrorJson error → error ≠ []) ∧
  (∀ config req,
     (∀ e, json req = Throw e ∨ thrownBy W e → reportable e) →
     ∃ resp, (Backend.POST W config req s).1 = Normal resp ∧
             ∀ error, resp_body resp = ErrorJson error → error ≠ []).
Proof.
  split; [|split]; intros config req.
  - destruct (ManualRouteFacts.manual_POST_cases W config req s)
      as [(st & err & Hr & _ & Hne & _)
         |(body & m & sid & d & r & _ & _ & Hrun)].
    + eexists. split; [exact Hr|]. by intros error [= <-].
    + simpl in Hrun. rewrite Hrun. eexists. split; [reflexivity|]. done.
  - intros Hrep. unfold MemoryRouter.POST, try_catch.
    destruct (MemoryRouter.POST_try W config req s) as [[resp|e] s'] eqn:E.
    + exists resp. split; [done|]. by eapply router_POST_try_response.
    + assert (reportable e) as Hst.
      { destruct (router_POST_try_throws W config req s e s' E)
          as [Hnone|Hthrown]; [by apply reportable_no_status|].
        by apply Hrep. }
      destruct (router_catch_spec e s')
        as (err & Hne & _ & _ & _ & _ & Hok & _).
      rewrite (Hok Hst). eexists. split; [reflexivity|].
      by intros error [= <-].
  - intros Hrep. unfold Backend.POST, try_catch.
    destruct (Backend.POST_try W config req s) as [[resp|e] s'] eqn:E.
    + exists resp. split; [done|]. by eapply backend_POST_try_response.
    + assert (reportable e) as Hst.
      { destruct (backend_POST_try_throws W config req s e s' E)
          as [Hnone|Hthrown]; [by apply reportable_no_status|].
        by apply Hrep. }
      destruct (backend_catch_spec e s') as (err & Hne & _ & _ & Hok & _).
      rewrite (Hok Hst). eexists. split; [reflexivity|].
      by intros error [= <-].
Qed.

Lemma routes_always_answer_witness :
  ∃ resp,
    (MemoryRouter.POST unauthorized (routerConfig "openai" true)
       (chat (lit "hi") []) initialState).1 = Normal resp ∧
    resp_status resp = 401.
Proof.
  destruct (proj1 (proj2 (routes_always_answer unauthorized initialState))
              (routerConfig "openai" true) (chat (lit "hi") []))
    as (resp & Hresp & _).
  - intros e [Hj|[(c & a & H)|[(a & H)|[(a & H)|(a & r & H & _)]]]];
      try discriminate; injection H as <-; by vm_compute.
  - exists resp. split; [exact Hresp|].
    vm_compute in Hresp. by injection Hresp as <-.
Defined.





(** ** Searches *)

(** The Manual RAG route calls nothing, or the search, or the search and
    then Claude. *)
Lemma manual_POST_log W config req s :
  let new := newCalls s (ManualRAG.POST W config req s).2 in
  new = [] ∨
  ∃ body text sessionId,
    json req = Normal body ∧ present body text sessionId ∧
    let search :=
      SearchDocuments (ManualRAG.supermemory config)
        (searchArgs text (SupermemoryConfig.container (memory config))) in
    (new = [search] ∨
     ∃ base context,
       new = [search;
              AnthropicCreate
                (ManualRAG.createArgs config
                   (ManualRAG.buildMessages base context text))]).
Proof.
  unfold ManualRAG.POST, ManualRAG.POST_try, newCalls. async.
  destruct (json req) as [body|e] eqn:Hj; simpl.
  2: { left. apply drop_all. }
  destruct (negb (truthy_opt (req_message body))
            || negb (truthy_opt (req_sessionId body))) eqn:G; simpl.
  { left. apply drop_all. }
  destruct (req_message body) as [text|] eqn:Hm; [|done].
  destruct (req_sessionId body) as [sessionId|] eqn:Hs;
    [|by rewrite orb_true_r in G].
  simpl in *. apply orb_false_iff in G as [Gm Gs].
  apply negb_false_iff in Gm, Gs.
  destruct (length_positive _) as [positive|e]; simpl.
  2: { left. apply drop_all. }
  right. exists body, text, sessionId. split; [done|]. split.
  { repeat split; try done; by apply truthy_nonempty. }
  destruct (search_documents W _ _) as [docResults|e]; simpl.
  2: { left. by rewrite drop_app_length. }
  destruct (array_method _ _ _) as [base|e]; simpl.
  2: { left. by rewrite drop_app_length. }
  right.
  destruct (anthropic_create W _) as [response|e]; simpl;
    rewrite <- ?app_assoc, drop_app_length; by eexists _, _.
Qed.

(** X19. Every search is scoped: a search logged by the Manual RAG route or by
    the backend route is made with the API key of the memory service from
    the config, asks for at most 5 documents of the configured container
    and of no other, and its query is the message of the request as it was
    sent, not trimmed. The Memory Router route never searches. *)
Theorem searches_are_scoped W s c a :
  (∀ config req,
     SearchDocuments c a ∈ newCalls s (ManualRAG.POST W config req s).2 →
     sc_apiKey c = SupermemoryConfig.apiKey (memory config) ∧
     containerTags a = [SupermemoryConfig.container (memory config)] ∧
     limit a = 5 ∧
     ∃ body, json req = Normal body ∧ req_message body = Some (q a)) ∧
  (∀ config req,
     SearchDocuments c a ∈ newCalls s (Backend.POST W config req s).2 →
     sc_apiKey c = supermemoryApiKey config ∧
     containerTags a = [supermemoryContainer config] ∧
     limit a = 5 ∧
     ∃ body, json req = Normal body ∧ req_message body = Some (q a)) ∧
  (∀ config req,
     SearchDocuments c a ∉ newCalls s (MemoryRouter.POST W config req s).2).
Proof.
  split; [|split]; intros config req.
  - intros Hin.
    destruct (manual_POST_log W config req s)
      as [E|(body & text & sid & Hj & (Hm & _) & [E|(base & ctx & E)])];
      rewrite E in Hin.
    + by apply elem_of_nil in Hin.
    + apply list_elem_of_singleton in Hin as [= -> ->]. simpl.
      repeat split; try done. by exists body.
    + apply elem_of_cons in Hin as [[= -> ->]|Hin].
      * simpl. repeat split; try done. by exists body.
      * by apply list_elem_of_singleton in Hin.
  - intros Hin.
    destruct (backend_POST_log W config req s)
      as [E|(body & text & sid & Hj & (Hm & _)
             & [E|(h & d & pm & _ & _ & E)])];
      rewrite E in Hin.
    + by apply elem_of_nil in Hin.
    + apply list_elem_of_singleton in Hin as [= -> ->]. simpl.
      repeat split; try done. by exists body.
    + apply elem_of_cons in Hin as [[= -> ->]|Hin].
      * simpl. repeat split; try done. by exists body.
      * by apply list_elem_of_singleton in Hin.
  - intros Hin.
    destruct (router_POST_log W config req s)
      as [E|(body & m & sid & h & pm & _ & _ & _ & _ & E)]; rewrite E in Hin.
    + by apply elem_of_nil in Hin.
    + by apply list_elem_of_singleton in Hin.
Qed.

Lemma searches_are_scoped_witness :
  ∃ c a,
    newCalls initialState
      (Backend.POST searchDown (routerConfig "openai" true)
         (chat (lit " hi ") []) initialState).2 = [SearchDocuments c a] ∧
    containerTags a = [lit "portfolio"] ∧ q a = lit " hi ".
Proof.
  eexists _, _. split; [reflexivity|].
  destruct (proj1 (proj2 (searches_are_scoped searchDown initialState _ _))
              (routerConfig "openai" true) (chat (lit " hi ") [])
              (list_elem_of_here _ _)) as (_ & Hc & _ & _).
  split; [exact Hc|reflexivity].
Defined.

(** ** The call to Claude *)

(** X9. Every call of the Manual RAG route to Claude is well formed: the
    model name and the system prompt are not empty and the token budget is
    not zero, because each falls back to its default (an empty model name,
    an empty system prompt and a budget of 0 are replaced); the message
    list ends with a user turn, and that turn ends with 'Question: '
    followed by the message of the request as it was sent. *)
Theorem claude_call_is_well_formed W s config req a :
  AnthropicCreate a ∈ newCalls s (ManualRAG.POST W config req s).2 →
  a_model a ≠ [] ∧ a_system a ≠ [] ∧ a_max_tokens a ≠ 0 ∧
  a_apiKey a = LLMConfig.apiKey (llm config) ∧
  ∃ body text turn,
    json req = Normal body ∧ req_message body = Some text ∧
    last (a_messages a) = Some {| am_role := user; am_content := turn |} ∧
    (lit "Question: " ++ text) `suffix_of` turn.
Proof.
  intros Hin.
  destruct (manual_POST_log W config req s)
    as [E|(body & text & sid & Hj & (Hm & _) & [E|(base & ctx & E)])];
    rewrite E in Hin.
  - by apply elem_of_nil in Hin.
  - by apply list_elem_of_singleton in Hin.
  - apply elem_of_cons in Hin as [Hin|Hin]; [done|].
    apply list_elem_of_singleton in Hin as [= ->]. simpl.
    split; [by apply ManualRouteFacts.or_default_nonempty|].
    split; [by apply ManualRouteFacts.or_default_nonempty|].
    split.
    { unfold ManualRAG.maxTokens, maxTokens_or.
      destruct (LLMConfig.maxTokens (llm config)) as [n|]; [|done].
      destruct (n =? 0) eqn:En; [done|]. by apply N.eqb_neq. }
    split; [done|].
    exists body, text, (userTurn ctx text).
    split; [done|]. split; [done|]. split.
    + unfold ManualRAG.buildMessages. by rewrite last_snoc.
    + unfold userTurn. exists (contextPrompt ctx ++ nl ++ nl).
      by rewrite <- !app_assoc.
Qed.

Lemma claude_call_is_well_formed_witness :
  ∃ c q a,
    newCalls initialState
      (ManualRAG.POST friendly manualConfig (chat (lit "hi") []) initialState).2
    = [SearchDocuments c q; AnthropicCreate a] ∧
    a_max_tokens a ≠ 0 ∧ a_model a ≠ [].
Proof.
  eexists _, _, _. split; [reflexivity|].
  destruct (claude_call_is_well_formed friendly initialState manualConfig
              (chat (lit "hi") []) _
              (list_elem_of_further _ _ _ (list_elem_of_here _ _)))
    as (Hm & _ & Ht & _).
  split; [exact Ht|exact Hm].
Defined.

(** ** Validation of the body *)

(** X20. A request without a message or without a session id (missing, or
    the empty string) is rejected with status 400 and the error 'Missing
    message or sessionId', before any service is called and without any
    change of the state: by the Manual RAG and backend routes always, and
    by the Memory Router route when the [history] of the body is not
    [null]. The Memory Router route reads [history.length] before it
    validates, so a body whose [history] is [null] is answered 500,
    whatever its other fields, also without any call. *)
Theorem requests_without_fields_are_rejected W s :
  let rejected := (Normal (badRequest (lit "Missing message or sessionId")), s) in
  (∀ config (req : Request ChatMessage) body,
     json req = Normal body →
     truthy_opt (req_message body) = false
     ∨ truthy_opt (req_sessionId body) = false →
     ManualRAG.POST W config req s = rejected) ∧
  (∀ config (req : Request ChatMessage) body,
     json req = Normal body →
     truthy_opt (req_message body) = false
     ∨ truthy_opt (req_sessionId body) = false →
     historyNotNull body →
     MemoryRouter.POST W config req s = rejected) ∧
  (∀ config (req : Request ChatMessage) body,
     json req = Normal body → req_history body = Some HNull →
     ∃ error,
       MemoryRouter.POST W config req s
       = (Normal (errorResponse 500 error), s)) ∧
  (∀ config (req : Request Backend.HistoryEntry) body,
     json req = Normal body →
     truthy_opt (req_message body) = false
     ∨ truthy_opt (req_sessionId body) = false →
     Backend.POST W config req s = rejected).
Proof.
  assert (G : ∀ a b, a = false ∨ b = false → negb a || negb b = true).
  { intros [] [] [?|?]; done. }
  split; [|split; [|split]].
  - intros config req body Hj Hmiss. apply G in Hmiss.
    unfold ManualRAG.POST, ManualRAG.POST_try. async.
    rewrite Hj. simpl. by rewrite Hmiss.
  - intros config req body Hj Hmiss Hh. apply G in Hmiss.
    unfold MemoryRouter.POST, MemoryRouter.POST_try. async.
    rewrite Hj. simpl.
    rewrite (RouterFacts.read_length_not_null body Hh). simpl.
    by rewrite Hmiss.
  - intros config req body Hj Hh.
    unfold MemoryRouter.POST, MemoryRouter.POST_try. async.
    rewrite Hj. simpl. rewrite Hh. simpl. by eexists.
  - intros config req body Hj Hmiss. apply G in Hmiss.
    unfold Backend.POST, Backend.POST_try. async.
    rewrite Hj. simpl. by rewrite Hmiss.
Qed.

Lemma requests_without_fields_are_rejected_witness :
  Backend.POST friendly (routerConfig "openai" true)
    (mkRequest (Normal {| req_message := Some (lit "hi");
                          req_sessionId := None;
                          req_history := None |})) initialState
  = (Normal (badRequest (lit "Missing message or sessionId")), initialState) ∧
  MemoryRouter.POST friendly (routerConfig "openai" true)
    (mkRequest (Normal {| req_message := None;
                          req_sessionId := Some (lit "s1");
                          req_history := Some (HOther false) |})) initialState
  = (Normal (badRequest (lit "Missing message or sessionId")), initialState) ∧
  ∃ error,
    MemoryRouter.POST friendly (routerConfig "openai" true)
      (mkRequest (Normal {| req_message := None;
                            req_sessionId := Some (lit "s1");
                            req_history := Some HNull |})) initialState
    = (Normal (errorResponse 500 error), initialState).
Proof.
  split; [|split].
  - apply (proj2 (proj2 (proj2 (requests_without_fields_are_rejected friendly
                                  initialState)))
                 (routerConfig "openai" true)
                 (mkRequest (Normal {| req_message := Some (lit "hi");
                                       req_sessionId := None;
                                       req_history := None |})) _ eq_refl).
    by right.
  - apply (proj1 (proj2 (requests_without_fields_are_rejected friendly
                           initialState))
                 (routerConfig "openai" true)
                 (mkRequest (Normal {| req_message := None;
                                       req_sessionId := Some (lit "s1");
                                       req_history := Some (HOther false) |}))
                 _ eq_refl); [by left|discriminate].
  - apply (proj1 (proj2 (proj2 (requests_without_fields_are_rejected friendly
                                  initialState)))
                 (routerConfig "openai" true)
                 (mkRequest (Normal {| req_message := None;
                                       req_sessionId := Some (lit "s1");
                                       req_history := Some HNull |}))
                 _ eq_refl eq_refl).
Defined.

(** ** A history that is not an array *)

(** X26. A history that is not an array stops the request. For a request
    that passes validation and whose [history] is [null] or another value
    without array methods: the Memory Router route answers 500 without
    calling the provider; the backend route searches and then, when the
    search answers, answers 500 without calling the provider; and the
    Manual RAG route, for a [null] history, answers 500 before the search
    and leaves the store as it was. *)
Theorem non_array_history_is_refused W s :
  (∀ config (req : Request ChatMessage) body text sessionId h,
     json req = Normal body → wellFormed body text sessionId →
     req_history body = Some h → (∀ entries, h ≠ HArray entries) →
     ∃ error,
       MemoryRouter.POST W config req s
       = (Normal (errorResponse 500 error), s)) ∧
  (∀ config (req : Request Backend.HistoryEntry) body text sessionId h
     docResults,
     json req = Normal body → wellFormed body text sessionId →
     req_history body = Some h → (∀ entries, h ≠ HArray entries) →
     search_documents W (Backend.supermemory config)
       (searchArgs text (supermemoryContainer config)) = Normal docResults →
     let run := Backend.POST W config req s in
     ∃ error,
       run.1 = Normal (errorResponse 500 error) ∧
       newCalls s run.2
       = [SearchDocuments (Backend.supermemory config)
            (searchArgs text (supermemoryContainer config))]) ∧
  (∀ config (req : Request ChatMessage) body text sessionId,
     json req = Normal body → present body text sessionId →
     req_history body = Some HNull →
     ∃ error,
       ManualRAG.POST W config req s
       = (Normal (errorResponse 500 error), s)).
Proof.
  split; [|split].
  - intros config req body text sessionId h Hj (Hm & Hnb & Hs & Hsid) Hh Hna.
    unfold MemoryRouter.POST, MemoryRouter.POST_try. async.
    rewrite Hj. simpl. rewrite Hh. simpl.
    destruct h as [entries| |positive]; simpl; [by destruct (Hna entries)| |].
    { by eexists. }
    rewrite Hm, Hs. simpl.
    rewrite (trim_nonblank_truthy _ Hnb).
    apply truthy_nonempty in Hsid. rewrite Hsid. simpl.
    destruct (length (trim text) =? 0)%nat eqn:E.
    { apply trim_blank_length in E. done. }
    by eexists.
  - intros config req body text sessionId h docResults Hj
           (Hm & Hnb & Hs & Hsid) Hh Hna Hsearch.
    unfold Backend.POST, Backend.POST_try, newCalls. async.
    rewrite Hj. simpl. rewrite Hm, Hs. simpl.
    rewrite (trim_nonblank_truthy _ Hnb).
    apply truthy_nonempty in Hsid. rewrite Hsid. simpl.
    destruct (length (trim text) =? 0)%nat eqn:E.
    { apply trim_blank_length in E. done. }
    rewrite Hsearch. simpl. rewrite Hh. simpl.
    destruct h as [entries| |positive]; simpl; [by destruct (Hna entries)| |];
      eexists; (split; [reflexivity|]); by rewrite drop_app_length.
  - intros config req body text sessionId Hj (Hm & Hne & Hs & Hsid) Hh.
    apply truthy_nonempty in Hne, Hsid.
    unfold ManualRAG.POST, ManualRAG.POST_try. async.
    rewrite Hj. simpl. rewrite Hm, Hs. simpl. rewrite Hne, Hsid. simpl.
    rewrite Hh. simpl. by eexists.
Qed.

Lemma non_array_history_is_refused_witness :
  ∃ error,
    MemoryRouter.POST friendly (routerConfig "openai" true)
      (mkRequest (Normal {| req_message := Some (lit "hi");
                            req_sessionId := Some (lit "s1");
                            req_history := Some (HOther true) |}))
      initialState
    = (Normal (errorResponse 500 error), initialState) ∧
    error = lit "history.filter is not a function".
Proof.
  edestruct (proj1 (non_array_history_is_refused friendly initialState)
               (routerConfig "openai" true)
               (mkRequest (Normal {| req_message := Some (lit "hi");
                                     req_sessionId := Some (lit "s1");
                                     req_history := Some (HOther true) |})))
    as [error Hrun]; [reflexivity| |reflexivity|discriminate|].
  - repeat split; try reflexivity; intros E; vm_compute in E; discriminate E.
  - exists error. split; [exact Hrun|].
    vm_compute in Hrun. by injection Hrun as <-.
Defined.

(** ** Successful generations *)

(** X21. A generation that succeeds is passed through as it is, for a
    request that passes validation and whose history is an array or is
    absent. In streaming mode, which is the mode when the config does not
    say, both multi-provider routes answer 200 with the chunks of the
    provider as the body. In buffered mode a text that is not blank is
    answered 200 as the [answer], untrimmed, with the session id of the
    request and no error flag. *)
Theorem generations_are_passed_through W s :
  (∀ config req body text sessionId history pm result,
     json req = Normal body → wellFormed body text sessionId →
     arrayHistory body history →
     MemoryRouter.getProviderModel config = Normal pm →
     stream_text W
       {| st_model := pm; st_system := MemoryRouter.systemPrompt_ config;
          st_messages := MemoryRouter.buildMessages history text;
          st_temperature := MemoryRouter.temperature_ config |}
     = Normal result →
     let resp := (MemoryRouter.POST W config req s).1 in
     (streaming config ≠ Some false →
      resp = Normal {| resp_status := 200;
                       resp_body := TextStreamBody (textStream result) |}) ∧
     (∀ answer, streaming config = Some false →
        fullText result = Normal answer → trim answer ≠ [] →
        resp = Normal {| resp_status := 200;
                         resp_body := ChatJson answer None sessionId None |})) ∧
  (∀ config req body text sessionId history docResults pm result,
     json req = Normal body → wellFormed body text sessionId →
     arrayHistory body history →
     search_documents W (Backend.supermemory config)
       (searchArgs text (supermemoryContainer config)) = Normal docResults →
     Backend.getProviderModel config = Normal pm →
     stream_text W
       {| st_model := pm; st_system := Backend.systemPrompt_ config;
          st_messages :=
            Backend.buildMessages config history
              (extractContext (default [] docResults)) text;
          st_temperature := Backend.temperature_ config |}
     = Normal result →
     let resp := (Backend.POST W config req s).1 in
     (streaming config ≠ Some false →
      resp = Normal {| resp_status := 200;
                       resp_body := TextStreamBody (textStream result) |}) ∧
     (∀ answer, streaming config = Some false →
        fullText result = Normal answer → trim answer ≠ [] →
        resp = Normal {| resp_status := 200;
                         resp_body := ChatJson answer None sessionId None |})).
Proof.
  split.
  - intros config req body text sessionId history pm result Hj
           (Hm & Hnb & Hs & Hsid) Hh Hpm Hst.
    unfold MemoryRouter.POST, MemoryRouter.POST_try. async.
    rewrite Hj. simpl.
    rewrite (RouterFacts.read_length_array body history Hh). simpl.
    rewrite Hm, Hs. simpl.
    rewrite (trim_nonblank_truthy _ Hnb).
    apply truthy_nonempty in Hsid. rewrite Hsid. simpl.
    destruct (length (trim text) =? 0)%nat eqn:E.
    { apply trim_blank_length in E. done. }
    rewrite (RouterFacts.array_method_array body history _ _ Hh). simpl.
    rewrite Hpm. simpl. unfold MemoryRouter.streaming_.
    destruct (streaming config) as [[]|]; simpl;
      match goal with
      | |- context [stream_text W ?a] =>
          replace (stream_text W a) with (@Normal StreamTextResult result)
            by (symmetry; exact Hst)
      end; simpl; (split; [done|]); try done.
    intros answer _ -> Ha. simpl.
    rewrite (trim_nonblank_truthy _ Ha). simpl.
    destruct (length (trim answer) =? 0)%nat eqn:E2; [|done].
    apply trim_blank_length in E2. done.
  - intros config req body text sessionId history docResults pm result Hj
           (Hm & Hnb & Hs & Hsid) Hh Hd Hpm Hst.
    unfold Backend.POST, Backend.POST_try. async.
    rewrite Hj. simpl. rewrite Hm, Hs. simpl.
    rewrite (trim_nonblank_truthy _ Hnb).
    apply truthy_nonempty in Hsid. rewrite Hsid. simpl.
    destruct (length (trim text) =? 0)%nat eqn:E.
    { apply trim_blank_length in E. done. }
    rewrite Hd. simpl.
    rewrite (RouterFacts.array_method_array body history _ _ Hh). simpl.
    rewrite Hpm. simpl. unfold Backend.streaming_.
    destruct (streaming config) as [[]|]; simpl;
      match goal with
      | |- context [stream_text W ?a] =>
          replace (stream_text W a) with (@Normal StreamTextResult result)
            by (symmetry; exact Hst)
      end; simpl; (split; [done|]); try done.
    intros answer _ -> Ha. done.
Qed.

Lemma generations_are_passed_through_witness :
  (Backend.POST friendly (routerConfig "openai" false)
     (chat (lit "hi") []) initialState).1
  = Normal {| resp_status := 200;
              resp_body := ChatJson (lit "Hello world") None (lit "s1") None |} ∧
  (MemoryRouter.POST friendly (routerConfig "openai" true)
     (chat (lit "hi") []) initialState).1
  = Normal {| resp_status := 200;
              resp_body := TextStreamBody [lit "Hel"; lit "lo wo"; lit "rld"] |}.
Proof.
  split.
  - pose proof (proj2 (generations_are_passed_through friendly initialState)
                  (routerConfig "openai" false) (chat (lit "hi") [])) as H.
    edestruct H as [_ Hb];
      [reflexivity| |reflexivity|reflexivity|reflexivity|reflexivity|].
    + repeat split; try reflexivity; intros E; vm_compute in E; discriminate E.
    + apply Hb; [reflexivity|reflexivity|discriminate].
  - pose proof (proj1 (generations_are_passed_through friendly initialState)
                  (routerConfig "openai" true) (chat (lit "hi") [])) as H.
    edestruct H as [Hs _];
      [reflexivity| |reflexivity|reflexivity|reflexivity|].
    + repeat split; try reflexivity; intros E; vm_compute in E; discriminate E.
    + apply Hs. discriminate.
Defined.

(** ** The status endpoint *)

Lemma router_model_name config pm :
  MemoryRouter.getProviderModel config = Normal pm →
  pm_model pm = MemoryRouter.model config.
Proof.
  unfold MemoryRouter.getProviderModel.
  repeat (case_match; simpl); by intros [= <-].
Qed.

Lemma backend_model_name config pm :
  Backend.getProviderModel config = Normal pm →
  pm_model pm = Backend.model config.
Proof.
  unfold Backend.getProviderModel.
  repeat (case_match; simpl); by intros [= <-].
Qed.

(** X22. The status endpoint tells which model the route uses: [GET] answers
    200 without calling anything, its payload names the provider and the
    container of the config, and the model it names, the configured one or
    else the default of the provider, is the model of every [streamText]
    call of [POST]. *)
Theorem status_endpoint_names_the_model W s :
  (∀ config,
     ∃ fields,
       MemoryRouter.GET config s
       = (Normal {| resp_status := 200; resp_body := StatusJson fields |}, s) ∧
       MemoryRouter.own fields (lit "provider") = Some (llmProvider config) ∧
       MemoryRouter.own fields (lit "container")
       = Some (supermemoryContainer config) ∧
       MemoryRouter.own fields (lit "model")
       = Some (or_default (llmModel config)
                          (getDefaultModel (llmProvider config))) ∧
       ∀ req a,
         StreamText a ∈ newCalls s (MemoryRouter.POST W config req s).2 →
         MemoryRouter.own fields (lit "model") = Some (pm_model (st_model a))) ∧
  (∀ config,
     ∃ fields,
       Backend.GET config s
       = (Normal {| resp_status := 200; resp_body := StatusJson fields |}, s) ∧
       MemoryRouter.own fields (lit "provider") = Some (llmProvider config) ∧
       MemoryRouter.own fields (lit "container")
       = Some (supermemoryContainer config) ∧
       MemoryRouter.own fields (lit "model")
       = Some (or_default (llmModel config)
                          (getDefaultModel (llmProvider config))) ∧
       ∀ req a,
         StreamText a ∈ newCalls s (Backend.POST W config req s).2 →
         MemoryRouter.own fields (lit "model") = Some (pm_model (st_model a))).
Proof.
  split; intros config; eexists; (split; [reflexivity|]);
    (split; [reflexivity|]); (split; [reflexivity|]);
    (split; [reflexivity|]); intros req a Hin.
  - destruct (router_POST_log W config req s)
      as [E|(body & m & sid & h & pm & _ & _ & _ & Hpm & E)];
      rewrite E in Hin; [by apply elem_of_nil in Hin|].
    apply list_elem_of_singleton in Hin as [= ->]. simpl.
    by rewrite (router_model_name _ _ Hpm).
  - destruct (backend_POST_log W config req s)
      as [E|(body & m & sid & _ & _ & [E|(h & d & pm & _ & Hpm & E)])];
      rewrite E in Hin.
    + by apply elem_of_nil in Hin.
    + by apply list_elem_of_singleton in Hin.
    + apply elem_of_cons in Hin as [Hin|Hin]; [done|].
      apply list_elem_of_singleton in Hin as [= ->]. simpl.
      by rewrite (backend_model_name _ _ Hpm).
Qed.

End RouteFacts.

(* ===================================================================== *)
(** * More on retrieval and on the upload *)
(* ===================================================================== *)

Module RetrievalMoreFacts.
Import Retrieval.

Lemma segments_nonempty doc : Forall (fun seg => seg ≠ []) (segments doc).
Proof.
  unfold segments. apply Forall_forall. intros seg Hin.
  apply list_elem_of_In, filter_In in Hin as [_ Ht].
  by apply truthy_nonempty.
Qed.

Lemma all_segments_nonempty documents :
  Forall (fun seg => seg ≠ []) (flat_map segments documents).
Proof.
  induction documents as [|doc ds IH]; simpl; [constructor|].
  apply Forall_app. split; [apply segments_nonempty|done].
Qed.

Lemma filter_truthy_id (l : list jsstring) :
  Forall (fun seg => seg ≠ []) l → List.filter truthy l = l.
Proof.
  induction 1 as [|x l Hx _ IH]; simpl; [done|].
  apply truthy_nonempty in Hx. by rewrite Hx, IH.
Qed.

Lemma join_empty sep (l : list jsstring) :
  Forall (fun seg => seg ≠ []) l → join sep l = [] → l = [].
Proof.
  destruct 1 as [|x l Hx _]; [done|]. simpl.
  destruct l; [done|]. destruct x; [done|]. done.
Qed.

(** X23. The context is the segments of the documents, none of them empty,
    joined by the separator; it is empty exactly when the documents yield
    no segment at all, and that is exactly when the user turn is framed
    with the fallback 'answer from general knowledge' instead of the
    context block. *)
Theorem context_is_empty_iff_no_segment documents :
  let segs := flat_map segments documents in
  Forall (fun seg => seg ≠ []) segs ∧
  extractContext documents = join separator segs ∧
  (extractContext documents = [] ↔ segs = []) ∧
  (contextPrompt (extractContext documents) = fallbackPrompt ↔ segs = []).
Proof.
  intros segs. pose proof (all_segments_nonempty documents) as Hne.
  assert (Hc : extractContext documents = join separator segs).
  { unfold extractContext. by rewrite filter_truthy_id. }
  assert (He : extractContext documents = [] ↔ segs = []).
  { rewrite Hc. split; [by apply join_empty|by intros ->]. }
  split; [done|]. split; [done|]. split; [done|].
  rewrite <- He. unfold contextPrompt.
  destruct (extractContext documents) as [|c rest]; simpl; [done|].
  split; discriminate.
Qed.

End RetrievalMoreFacts.

Module UploadMoreFacts.
Import Upload UploadSpec RequestSpec Examples UploadExamples.

(** X24. A file takes precedence over a text: with a file the upload makes
    one call, to [uploadFile], under the given container or 'portfolio',
    and [fetch] is not called even if a text is given too; with a text
    only, it makes one [fetch], authorised with 'Bearer ' and the key; with
    neither, it calls nothing. In every case at most one call is made. *)
Theorem upload_makes_one_call W apiKey options s :
  let new := newCalls s (uploadToSupermemory W apiKey options s).2 in
  let container := or_default (up_container options) (lit "portfolio") in
  (∀ f, file options = Some f →
        new = [UploadFile {| uf_apiKey := apiKey; uf_file := f;
                             uf_containerTags := container |}]) ∧
  (file options = None → truthy_opt (text options) = true →
   ∃ a, new = [Fetch a] ∧ f_authorization a = lit "Bearer " ++ apiKey ∧
        f_tags a = [container] ∧ Some (f_data a) = text options) ∧
  (file options = None → truthy_opt (text options) = false → new = []) ∧
  (length new ≤ 1)%nat.
Proof.
  unfold uploadToSupermemory, upload_try, upload_catch, newCalls. async.
  destruct (file options) as [f|]; simpl.
  - destruct (upload_file W _); simpl; rewrite drop_app_length;
      repeat split; try done; by intros ? [= ->].
  - destruct (text options) as [t|] eqn:Ht; simpl.
    2: { rewrite drop_all. repeat split; try done. simpl. lia. }
    destruct (truthy t) eqn:T; simpl.
    2: { rewrite drop_all. repeat split; try done. simpl. lia. }
    destruct (fetch W _) as [res|e]; simpl.
    2: { rewrite drop_app_length. repeat split; try done.
         intros _ _. eexists. by repeat split. }
    destruct (ok res); simpl.
    2: { rewrite drop_app_length. repeat split; try done.
         intros _ _. eexists. by repeat split. }
    destruct (res_json res); simpl; rewrite drop_app_length;
      repeat split; try done; intros _ _; eexists; by repeat split.
Qed.

Lemma upload_makes_one_call_witness :
  newCalls initialState
    (uploadToSupermemory friendly (lit "key") fileAndText initialState).2
  = [UploadFile {| uf_apiKey := lit "key"; uf_file := lit "%PDF";
                   uf_containerTags := lit "resume" |}].
Proof.
  apply (proj1 (upload_makes_one_call friendly (lit "key") fileAndText
                  initialState) (lit "%PDF")).
  reflexivity.
Defined.

(** X25. An HTTP error of the text upload is reported with its status: when
    the endpoint answers with a status that is not ok, the result is the
    failure 'API error: ' followed by the status in decimal, with no
    document id; and when it answers ok with a body that parses, the result
    is a success whose document id is the [memoryId] of the body, or else
    its [id]. *)
Theorem upload_text_reports_status W apiKey options s res :
  file options = None → truthy_opt (text options) = true →
  fetch W {| f_url := lit "https://api.supermemory.ai/v1/add";
             f_authorization := lit "Bearer " ++ apiKey;
             f_data := default [] (text options);
             f_title := title options;
             f_type := or_default (type options) (lit "document");
             f_tags := [or_default (up_container options) (lit "portfolio")] |}
  = Normal res →
  let r := (uploadToSupermemory W apiKey options s).1 in
  (ok res = false →
   r = Normal {| success := false; documentId := None;
                 error := Some (lit "API error: "
                                ++ ofNumber (res_status res)) |}) ∧
  (∀ data, ok res = true → res_json res = Normal data →
   r = Normal {| success := true;
                 documentId := or_else (data ≫= memoryId) (data ≫= data_id);
                 error := None |}).
Proof.
  intros Hf Ht Hfetch.
  unfold uploadToSupermemory, upload_try, upload_catch. async.
  rewrite Hf, Ht. simpl.
  match goal with
  | |- context [fetch W ?a] =>
      replace (fetch W a) with (@Normal FetchResponse res)
        by (symmetry; exact Hfetch)
  end.
  simpl. split.
  - intros ->. simpl. done.
  - intros data -> ->. done.
Qed.

Lemma upload_text_reports_status_witness :
  (uploadToSupermemory badGateway (lit "key") textOptions initialState).1
  = Normal {| success := false; documentId := None;
              error := Some (lit "API error: 502") |}.
Proof.
  apply (proj1 (upload_text_reports_status badGateway (lit "key") textOptions
                  initialState _ eq_refl eq_refl eq_refl)).
  reflexivity.
Defined.

End UploadMoreFacts.
